(** * CIME test scheduler: phase pipeline, test state and build groups

    A shallow embedding of [CIME/test_scheduler.py].  The scheduler object
    and the part of the outside world it touches (TestStatus files, test
    logs, case variables, subprocess results) are one explicit state that
    every method threads through a small state-and-exception monad. *)

From stdpp Require Import gmap strings list fin_maps pretty.

Local Open Scope Z_scope.

(** ** Phases and statuses *)

(** The phase names the scheduler handles.  [INIT] is [TEST_START]; [SUBMIT]
    is not in [PHASES] but is written to TestStatus files; [AUX] stands for
    any further phase name a TestStatus file may hold. *)
Inductive phase : Type :=
  | INIT | CREATE_NEWCASE | XML | SETUP | SHAREDLIB_BUILD | MODEL_BUILD
  | SUBMIT | RUN
  | AUX (name : string).

Inductive status : Type := PASS | PEND | FAIL.

#[global] Instance phase_eq_dec : EqDecision phase.
Proof. solve_decision. Defined.

#[global] Instance status_eq_dec : EqDecision status.
Proof. solve_decision. Defined.

Definition phase_name (p : phase) : string :=
  match p with
  | INIT => "INIT" | CREATE_NEWCASE => "CREATE_NEWCASE" | XML => "XML"
  | SETUP => "SETUP" | SHAREDLIB_BUILD => "SHAREDLIB_BUILD"
  | MODEL_BUILD => "MODEL_BUILD" | SUBMIT => "SUBMIT" | RUN => "RUN"
  | AUX n => n
  end.

Definition TEST_START : phase := INIT.

(** [PHASES]: order matters. *)
Definition PHASES : list phase :=
  [TEST_START; CREATE_NEWCASE; XML; SETUP; SHAREDLIB_BUILD; MODEL_BUILD; RUN].

(** ** Exceptions and outcomes *)

Inductive exn : Type :=
  | CIMEError (msg : string)      (* raised by [expect] *)
  | ValueError                    (* [list.index], [list.remove] *)
  | KeyError (key : string)       (* dict lookup *)
  | IndexError                    (* list subscript *)
  | TypeError
  | ExternalError (msg : string). (* raised inside a collaborator *)

(** [Ret] is a normal return, [Exc] a raised exception (the state keeps what
    was mutated before the raise), [Unfinished] a call that is still looping
    when the recorded subprocess results run out. *)
Inductive outcome (S A : Type) : Type :=
  | Ret (a : A) (s : S)
  | Exc (e : exn) (s : S)
  | Unfinished.
Arguments Ret {S A} a s.
Arguments Exc {S A} e s.
Arguments Unfinished {S A}.

(** Results of methods that only read the scheduler. *)
Inductive res (A : Type) : Type :=
  | Val (a : A)
  | Err (e : exn).
Arguments Val {A} a.
Arguments Err {A} e.

Definition res_bind {A B} (r : res A) (k : A -> res B) : res B :=
  match r with Val a => k a | Err e => Err e end.

Notation "'let?' x ':=' r 'in' k" := (res_bind r (fun x => k))
  (at level 10, x pattern, r at level 100, k at level 200).

Definition expect_res (cond : bool) (msg : string) : res unit :=
  if cond then Val tt else Err (CIMEError msg).

(** ** Python list helpers *)

(** [l.index(x)]: position of the first occurrence, [ValueError] if none. *)
Fixpoint index {A} `{EqDecision A} (x : A) (l : list A) : res Z :=
  match l with
  | [] => Err ValueError
  | y :: l' => if decide (x = y) then Val 0
               else let? i := index x l' in Val (i + 1)
  end.

(** [l.remove(x)]: drop the first occurrence, [ValueError] if none. *)
Fixpoint remove_first {A} `{EqDecision A} (x : A) (l : list A) : res (list A) :=
  match l with
  | [] => Err ValueError
  | y :: l' => if decide (x = y) then Val l'
               else let? r := remove_first x l' in Val (y :: r)
  end.

(** [l[i]] for [i >= 0]. *)
Definition subscript {A} (l : list A) (i : Z) : res A :=
  if i <? 0 then Err IndexError
  else match l !! Z.to_nat i with Some x => Val x | None => Err IndexError end.

(** [l[-1]]. *)
Definition subscript_last {A} (l : list A) : res A :=
  match last l with Some x => Val x | None => Err IndexError end.

(** ["bad interpreter" in output]. *)
Fixpoint str_contains (pat s : string) : bool :=
  String.prefix pat s ||
  match s with
  | EmptyString => false
  | String _ s' => str_contains pat s'
  end.

(** ** The TestStatus file

    Modelled from the spec: class [TestStatus] of [CIME.test_status] is not
    among the sources.  It is the StatusStore entry of a test directory: one
    record [(phase, status, comment)] per phase, kept in the order the phases
    were first written; [set_status] rewrites the record of a phase that is
    already there and appends one otherwise; iterating yields the
    [(phase, status)] pairs in the stored order. *)
Definition TestStatus : Type := list (phase * (status * option string)).

Fixpoint set_status (ts : TestStatus) (p : phase) (st : status)
    (comments : option string) : TestStatus :=
  match ts with
  | [] => [(p, (st, comments))]
  | (q, d) :: ts' =>
      if decide (q = p) then (p, (st, comments)) :: ts'
      else (q, d) :: set_status ts' p st comments
  end.

Definition ts_iter (ts : TestStatus) : list (phase * status) :=
  map (fun r => (r.1, r.2.1)) ts.

Fixpoint get_status (ts : TestStatus) (p : phase) : option (status * option string) :=
  match ts with
  | [] => None
  | (q, d) :: ts' => if decide (q = p) then Some d else get_status ts' p
  end.

Definition TEST_RERUN_COMMENT : string := "RERUN".

Definition status_name (st : status) : string :=
  match st with PASS => "PASS" | PEND => "PEND" | FAIL => "FAIL" end.

(** ** The scheduler object and its world *)

(** What a run leaves behind, oldest first. *)
Inductive event : Type :=
  | EvRunCmd (test cmd : string)            (* [run_cmd] in the test directory *)
  | EvSleep                                 (* [time.sleep(1)] *)
  | EvTestLog (test text : string)          (* [_log_output]: TestStatus.log *)
  | EvStatusWrite (test : string) (p : phase) (st : status)
                  (comments : option string) (* [TestStatus.set_status] *)
  | EvPostBuild (test : string)             (* [post_build] on the case *)
  | EvReadme (test : string)                (* [append_status] to README.case *)
  | EvThreadStart (test : string) (p : phase)
  | EvLoggerWarning (msg : string).

(** Collaborators that are not part of the scheduler, as the values they
    return: [parse_test_name(test)[1]], [EnvMachPes(...).get_value("TOTALPES")],
    the exception (if any) raised while [_xml_phase] composes env_test and by
    [Tests.support_single_exe], [os.path.exists] of a test directory, the
    constant [CORE_PHASES] of [CIME.test_status], [str(e)] and
    [traceback.format_tb]. *)
Record Env : Type := {
  TESTS_FAILED_ERR_CODE : Z;
  case_opts_of : string -> option (list string);
  TOTALPES : string -> Z;
  env_test_raises : string -> option exn;
  single_exe_raises : string -> option exn;
  test_dir_exists : string -> bool;
  CORE_PHASES : list phase;
  str_of_exn : exn -> string;
  format_tb : exn -> string;
}.

(** The fields the constructor fixes. *)
Record Settings : Type := {
  _phases : list phase;
  _build_groups : list (list string);
  _no_run : bool;
  _no_batch : bool;
  _single_exe : bool;
  _allow_pnl : bool;
  _mail_user : option string;
  _mail_type : option (list string);
  _chksum : bool;
  _proc_pool : Z;
  _parallel_jobs : Z;
  serialize_sharedlib_builds : bool;
  env : Env;
}.

(** The mutable fields of [self], the dict [threads_in_flight] that
    [_producer] owns (test -> (procs, phase); the thread object is the
    pending [_consumer] call), and the files and subprocesses of the test
    directories, keyed by test.  [subprocess] holds, per test, the results
    [(rc, output, errput)] that its coming [run_cmd] calls return, in call
    order. *)
Record state : Type := {
  cfg : Settings;
  _tests : gmap string (phase * status);
  _build_group_exeroots : gmap (list string) (option string);
  _procs_avail : Z;
  _model_build_cost : Z;
  _completed_tests : Z;
  threads_in_flight : gmap string (Z * phase);
  status_files : gmap string TestStatus;
  subprocess : gmap string (list (Z * string * string));
  case_exeroot : gmap string string;
  case_gmake_j : gmap string Z;
  trace : list event;
}.

Definition set_tests (f : gmap string (phase * status) -> gmap string (phase * status))
    (s : state) : state :=
  {| cfg := cfg s; _tests := f (_tests s);
     _build_group_exeroots := _build_group_exeroots s;
     _procs_avail := _procs_avail s; _model_build_cost := _model_build_cost s;
     _completed_tests := _completed_tests s;
     threads_in_flight := threads_in_flight s; status_files := status_files s;
     subprocess := subprocess s; case_exeroot := case_exeroot s;
     case_gmake_j := case_gmake_j s; trace := trace s |}.

Definition set_build_group_exeroots
    (f : gmap (list string) (option string) -> gmap (list string) (option string))
    (s : state) : state :=
  {| cfg := cfg s; _tests := _tests s;
     _build_group_exeroots := f (_build_group_exeroots s);
     _procs_avail := _procs_avail s; _model_build_cost := _model_build_cost s;
     _completed_tests := _completed_tests s;
     threads_in_flight := threads_in_flight s; status_files := status_files s;
     subprocess := subprocess s; case_exeroot := case_exeroot s;
     case_gmake_j := case_gmake_j s; trace := trace s |}.

Definition set_procs_avail (f : Z -> Z) (s : state) : state :=
  {| cfg := cfg s; _tests := _tests s;
     _build_group_exeroots := _build_group_exeroots s;
     _procs_avail := f (_procs_avail s); _model_build_cost := _model_build_cost s;
     _completed_tests := _completed_tests s;
     threads_in_flight := threads_in_flight s; status_files := status_files s;
     subprocess := subprocess s; case_exeroot := case_exeroot s;
     case_gmake_j := case_gmake_j s; trace := trace s |}.

Definition set_model_build_cost (f : Z -> Z) (s : state) : state :=
  {| cfg := cfg s; _tests := _tests s;
     _build_group_exeroots := _build_group_exeroots s;
     _procs_avail := _procs_avail s; _model_build_cost := f (_model_build_cost s);
     _completed_tests := _completed_tests s;
     threads_in_flight := threads_in_flight s; status_files := status_files s;
     subprocess := subprocess s; case_exeroot := case_exeroot s;
     case_gmake_j := case_gmake_j s; trace := trace s |}.

Definition set_completed_tests (f : Z -> Z) (s : state) : state :=
  {| cfg := cfg s; _tests := _tests s;
     _build_group_exeroots := _build_group_exeroots s;
     _procs_avail := _procs_avail s; _model_build_cost := _model_build_cost s;
     _completed_tests := f (_completed_tests s);
     threads_in_flight := threads_in_flight s; status_files := status_files s;
     subprocess := subprocess s; case_exeroot := case_exeroot s;
     case_gmake_j := case_gmake_j s; trace := trace s |}.

Definition set_threads_in_flight
    (f : gmap string (Z * phase) -> gmap string (Z * phase)) (s : state) : state :=
  {| cfg := cfg s; _tests := _tests s;
     _build_group_exeroots := _build_group_exeroots s;
     _procs_avail := _procs_avail s; _model_build_cost := _model_build_cost s;
     _completed_tests := _completed_tests s;
     threads_in_flight := f (threads_in_flight s); status_files := status_files s;
     subprocess := subprocess s; case_exeroot := case_exeroot s;
     case_gmake_j := case_gmake_j s; trace := trace s |}.

Definition set_status_files
    (f : gmap string TestStatus -> gmap string TestStatus) (s : state) : state :=
  {| cfg := cfg s; _tests := _tests s;
     _build_group_exeroots := _build_group_exeroots s;
     _procs_avail := _procs_avail s; _model_build_cost := _model_build_cost s;
     _completed_tests := _completed_tests s;
     threads_in_flight := threads_in_flight s; status_files := f (status_files s);
     subprocess := subprocess s; case_exeroot := case_exeroot s;
     case_gmake_j := case_gmake_j s; trace := trace s |}.

Definition set_subprocess
    (f : gmap string (list (Z * string * string)) -> gmap string (list (Z * string * string)))
    (s : state) : state :=
  {| cfg := cfg s; _tests := _tests s;
     _build_group_exeroots := _build_group_exeroots s;
     _procs_avail := _procs_avail s; _model_build_cost := _model_build_cost s;
     _completed_tests := _completed_tests s;
     threads_in_flight := threads_in_flight s; status_files := status_files s;
     subprocess := f (subprocess s); case_exeroot := case_exeroot s;
     case_gmake_j := case_gmake_j s; trace := trace s |}.

Definition set_case_exeroot (f : gmap string string -> gmap string string)
    (s : state) : state :=
  {| cfg := cfg s; _tests := _tests s;
     _build_group_exeroots := _build_group_exeroots s;
     _procs_avail := _procs_avail s; _model_build_cost := _model_build_cost s;
     _completed_tests := _completed_tests s;
     threads_in_flight := threads_in_flight s; status_files := status_files s;
     subprocess := subprocess s; case_exeroot := f (case_exeroot s);
     case_gmake_j := case_gmake_j s; trace := trace s |}.

Definition set_case_gmake_j (f : gmap string Z -> gmap string Z) (s : state) : state :=
  {| cfg := cfg s; _tests := _tests s;
     _build_group_exeroots := _build_group_exeroots s;
     _procs_avail := _procs_avail s; _model_build_cost := _model_build_cost s;
     _completed_tests := _completed_tests s;
     threads_in_flight := threads_in_flight s; status_files := status_files s;
     subprocess := subprocess s; case_exeroot := case_exeroot s;
     case_gmake_j := f (case_gmake_j s); trace := trace s |}.

Definition emit (ev : event) (s : state) : state :=
  {| cfg := cfg s; _tests := _tests s;
     _build_group_exeroots := _build_group_exeroots s;
     _procs_avail := _procs_avail s; _model_build_cost := _model_build_cost s;
     _completed_tests := _completed_tests s;
     threads_in_flight := threads_in_flight s; status_files := status_files s;
     subprocess := subprocess s; case_exeroot := case_exeroot s;
     case_gmake_j := case_gmake_j s; trace := trace s ++ [ev] |}.

(** ** The monad of scheduler methods *)

Definition M (A : Type) : Type := state -> outcome state A.

Definition ret {A} (a : A) : M A := fun s => Ret a s.
Definition raise {A} (e : exn) : M A := fun s => Exc e s.
Definition bind {A B} (m : M A) (k : A -> M B) : M B :=
  fun s => match m s with
           | Ret a s' => k a s'
           | Exc e s' => Exc e s'
           | Unfinished => Unfinished
           end.
Definition get : M state := fun s => Ret s s.
Definition modify (f : state -> state) : M unit := fun s => Ret tt (f s).
Definition lift {A} (r : res A) : M A :=
  fun s => match r with Val a => Ret a s | Err e => Exc e s end.
Definition expect (cond : bool) (msg : string) : M unit :=
  if cond then ret tt else raise (CIMEError msg).
Definition when (cond : bool) (m : M unit) : M unit :=
  if cond then m else ret tt.
(** [try: m  except Exception as e: h e]. *)
Definition try_except {A} (m : M A) (h : exn -> M A) : M A :=
  fun s => match m s with
           | Ret a s' => Ret a s'
           | Exc e s' => h e s'
           | Unfinished => Unfinished
           end.

Declare Scope sched_scope.
Delimit Scope sched_scope with sched.
Notation "'let!' x ':=' m 'in' k" := (bind m (fun x => k))
  (at level 10, x pattern, m at level 100, k at level 200) : sched_scope.
Notation "m1 ;; m2" := (bind m1 (fun _ => m2))
  (at level 100, m2 at level 200, right associativity) : sched_scope.
Local Open Scope sched_scope.

(** ** Test state *)

Definition _get_test_data (s : state) (test : string) : res (phase * status) :=
  match _tests s !! test with
  | Some d => Val d
  | None => Err (KeyError test)
  end.

Definition _get_test_status (s : state) (test : string) (p : option phase)
    : res status :=
  let? (curr_phase, curr_status) := _get_test_data s test in
  match p with
  | None => Val curr_status
  | Some p =>
      if decide (p = curr_phase) then Val curr_status
      else
        (* Assume all future phases are PEND *)
        let? i := index p (_phases (cfg s)) in
        let? j := index curr_phase (_phases (cfg s)) in
        if i >? j then Val PEND
        else (* Assume all older phases PASSed *) Val PASS
  end.

Definition _get_test_phase (s : state) (test : string) : res phase :=
  let? d := _get_test_data s test in Val d.1.

Definition _is_broken (s : state) (test : string) : res bool :=
  let? st := _get_test_status s test None in
  Val (bool_decide (st <> PASS) && bool_decide (st <> PEND)).

Definition _work_remains (s : state) (test : string) : res bool :=
  let? (test_phase, test_status) := _get_test_data s test in
  if bool_decide (test_status = PASS) || bool_decide (test_status = PEND) then
    let? final := subscript_last (_phases (cfg s)) in
    Val (bool_decide (test_phase <> final))
  else Val false.

Definition _update_test_status (test : string) (p : phase) (st : status) : M unit :=
  let! s := get in
  let! phase_idx := lift (index p (_phases (cfg s))) in
  let! (old_phase, old_status) := lift (_get_test_data s test) in
  (if decide (old_phase = p) then
     expect (bool_decide (old_status = PEND))
       ("Only valid to transition from PEND to something else, found '"
          +:+ status_name old_status +:+ "' for phase '" +:+ phase_name p +:+ "'") ;;
     expect (bool_decide (st <> PEND)) "Cannot transition from PEND -> PEND"
   else
     expect (bool_decide (old_status = PASS))
       "Why did we move on to next phase when prior phase did not pass?" ;;
     expect (bool_decide (st = PEND)) "New phase should be set to pending status" ;;
     let! old_idx := lift (index old_phase (_phases (cfg s))) in
     expect (old_idx =? phase_idx - 1)
       ("Skipped phase? " +:+ phase_name old_phase +:+ " " +:+ pretty phase_idx)) ;;
  (* Must be atomic *)
  modify (set_tests (<[test := (p, st)]>)).

(** ** Build groups *)

Fixpoint find_build_group (test : string) (groups : list (list string))
    : option (list string) :=
  match groups with
  | [] => None
  | build_group :: rest =>
      if bool_decide (test ∈ build_group) then Some build_group
      else find_build_group test rest
  end.

(** Returns [(is_first_test, first_test, build_group)]. *)
Definition _get_build_group (s : state) (test : string)
    : res (bool * string * list string) :=
  match find_build_group test (_build_groups (cfg s)) with
  | Some build_group =>
      let? first_test := subscript build_group 0 in
      Val (bool_decide (test = first_test), first_test, build_group)
  | None => Err (CIMEError ("No build group for test '" +:+ test +:+ "'"))
  end.

(** ** Running the command of a phase *)

Definition nl : string := String (Ascii.ascii_of_nat 10) EmptyString.

Definition _log_output (test output : string) : M unit :=
  modify (emit (EvTestLog test output)).

Definition sleep : M unit := modify (emit EvSleep).

(** [run_cmd(cmd, from_dir=..., env=env)]: the next recorded result of the
    test's subprocesses. *)
Definition run_cmd (test cmd : string) : M (Z * string * string) :=
  fun s => match subprocess s !! test with
           | Some (r :: rest) =>
               Ret r (emit (EvRunCmd test cmd) (set_subprocess (<[test := rest]>) s))
           | _ => Unfinished
           end.

Definition pending_results (s : state) (test : string) : list (Z * string * string) :=
  default [] (subprocess s !! test).

(** The [while True] loop of [_shell_cmd_for_phase]; [fuel] bounds the
    number of iterations. *)
Fixpoint shell_cmd_loop (fuel : nat) (test cmd : string) (p : phase)
    : M (bool * string) :=
  match fuel with
  | O => fun _ => Unfinished
  | S fuel' =>
      let! (rc, output, errput) := run_cmd test cmd in
      if negb (rc =? 0) then
        _log_output test
          (phase_name p +:+ " FAILED for test '" +:+ test +:+ "'." +:+ nl
             +:+ "Command: " +:+ cmd +:+ nl
             +:+ "Output: " +:+ output +:+ nl +:+ errput +:+ nl) ;;
        (* Temporary hack to get around odd file descriptor use by
           buildnml scripts. *)
        if str_contains "bad interpreter" output then
          sleep ;; shell_cmd_loop fuel' test cmd p
        else ret (false, errput)
      else
        let p' := if decide (p = RUN) then "SUBMIT" else phase_name p in
        _log_output test
          (p' +:+ " PASSED for test '" +:+ test +:+ "'." +:+ nl
             +:+ "Command: " +:+ cmd +:+ nl
             +:+ "Output: " +:+ output +:+ nl +:+ errput +:+ nl) ;;
        ret (true, errput)
  end.

(** Every iteration consumes one recorded result, so one more unit of fuel
    than there are results never runs out first. *)
Definition _shell_cmd_for_phase (test cmd : string) (p : phase) : M (bool * string) :=
  fun s => shell_cmd_loop (S (length (pending_results s test))) test cmd p s.

Definition _run_cmpgen_namelists (test : string) : M (Z * string) :=
  let! (cmdstat, output, _) := run_cmd test "./case.cmpgen_namelists" in
  ret (cmdstat, output).

(** ** TestStatus updates by the scheduler *)

(** [with TestStatus(test_dir) as ts: ts.set_status(p, st, comments)]. *)
Definition ts_set_status (test : string) (p : phase) (st : status)
    (comments : option string) : M unit :=
  modify (fun s =>
    emit (EvStatusWrite test p st comments)
      (set_status_files
         (<[test := set_status (default [] (status_files s !! test)) p st comments]>)
         s)).

(** In general, test_scheduler should not be responsible for updating
    the TestStatus file, but there are a few cases where it has to. *)
Definition _update_test_status_file (test : string) (test_phase : phase)
    (st : status) : M unit :=
  ts_set_status test test_phase st None.

(** ** Phase methods *)

(** Lines 785-985 of [_xml_phase] compose and write env_test and set case
    values of the test's own case; of these only the exception they may
    raise matters to the scheduler ([env_test_raises]). *)
Definition _xml_phase (test : string) : M (bool * string) :=
  let! s := get in
  match env_test_raises (env (cfg s)) test with
  | Some e => raise e
  | None => ret tt
  end ;;
  (* handle single-exe here, all cases will use the EXEROOT from
     the first case in the build group *)
  let! (is_first_test, _, my_build_group) := lift (_get_build_group s test) in
  let! recorded :=
    match _build_group_exeroots s !! my_build_group with
    | Some r => ret r
    | None => raise (KeyError (String.concat "," my_build_group))
    end in
  (if is_first_test : bool then
     expect (bool_decide (recorded = None)) "Should not already have exeroot" ;;
     modify (set_build_group_exeroots (<[my_build_group := case_exeroot s !! test]>))
   else
     match recorded with
     | None => raise (CIMEError "Should already have exeroot")
     | Some build_group_exeroot =>
         modify (set_case_exeroot (<[test := build_group_exeroot]>))
     end) ;;
  (* Scale back build parallelism on systems with few cores *)
  let! s := get in
  when (_model_build_cost s >? _proc_pool (cfg s))
    (modify (set_case_gmake_j (<[test := _proc_pool (cfg s)]>)) ;;
     modify (set_model_build_cost (fun _ => _proc_pool (cfg s)))) ;;
  ret (true, "").

Definition _setup_phase (test : string) : M (bool * string) :=
  let! rv := _shell_cmd_for_phase test "./case.setup" SETUP in
  when rv.1 (_run_cmpgen_namelists test ;; ret tt) ;;
  let! s := get in
  when (_single_exe (cfg s))
    match single_exe_raises (env (cfg s)) test with
    | Some e => _update_test_status_file test SETUP FAIL ;; raise e
    | None => ret tt
    end ;;
  ret rv.

Definition cannot_use_build (first_test : string) : string :=
  "Cannot use build for test " +:+ first_test +:+ " because it failed".

Definition _sharedlib_build_phase (test : string) : M (bool * string) :=
  let! s := get in
  let! (is_first_test, first_test, _) := lift (_get_build_group s test) in
  if negb is_first_test then
    let! st := lift (_get_test_status s first_test (Some SHAREDLIB_BUILD)) in
    if bool_decide (st = PASS) then ret (true, "")
    else ret (false, cannot_use_build first_test)
  else
    let! result :=
      _shell_cmd_for_phase test "./case.build --sharedlib-only" SHAREDLIB_BUILD in
    (* It's OK for this command to fail with baseline diffs but not
       catastrophically *)
    let! (cmdstat, output) := _run_cmpgen_namelists test in
    try_except
      (expect (bool_decide (cmdstat ∈ [0; TESTS_FAILED_ERR_CODE (env (cfg s))]))
         ("Fatal error in case.cmpgen_namelists: " +:+ output))
      (fun e => _update_test_status_file test SETUP FAIL ;; raise e) ;;
    ret result.

Definition _model_build_phase (test : string) : M (bool * string) :=
  let! s := get in
  let! (is_first_test, first_test, _) := lift (_get_build_group s test) in
  if negb is_first_test then
    let! st := lift (_get_test_status s first_test (Some MODEL_BUILD)) in
    if bool_decide (st = PASS) then
      modify (emit (EvPostBuild test)) ;;
      ret (true, "")
    else ret (false, cannot_use_build first_test)
  else
    _shell_cmd_for_phase test "./case.build --model-only" MODEL_BUILD.

Definition truthy (o : option string) : bool :=
  match o with Some (String _ _) => true | _ => false end.

Definition _run_phase (test : string) : M (bool * string) :=
  let! s := get in
  let case_opts := case_opts_of (env (cfg s)) test in
  if match case_opts with
     | Some opts => bool_decide ("B" ∈ opts)
     | None => false
     end
  then
    _log_output test (phase_name RUN +:+ " SKIPPED for test '" +:+ test +:+ "'") ;;
    _update_test_status_file test SUBMIT PASS ;;
    _update_test_status_file test RUN PASS ;;
    ret (true, "SKIPPED")
  else
    let cmd := "./case.submit" in
    let cmd := if _allow_pnl (cfg s) then cmd else cmd +:+ " --skip-preview-namelist" in
    let cmd := if _no_batch (cfg s) then cmd +:+ " --no-batch" else cmd in
    let cmd := if truthy (_mail_user (cfg s))
               then cmd +:+ " --mail-user=" +:+ default "" (_mail_user (cfg s))
               else cmd in
    let cmd := match _mail_type (cfg s) with
               | Some (t :: ts) => cmd +:+ " -M=" +:+ String.concat "," (t :: ts)
               | _ => cmd
               end in
    let cmd := if _chksum (cfg s) then cmd +:+ " --chksum" else cmd in
    _shell_cmd_for_phase test cmd RUN.

Definition _run_catch_exceptions (test : string) (p : phase)
    (run : string -> M (bool * string)) : M (bool * string) :=
  try_except (run test)
    (fun e =>
       let! s := get in
       let errput :=
         "Test '" +:+ test +:+ "' failed in phase '" +:+ phase_name p
           +:+ "' with exception '" +:+ str_of_exn (env (cfg s)) e +:+ "'" +:+ nl
           +:+ format_tb (env (cfg s)) e in
       _log_output test errput ;;
       ret (false, errput)).

(** ** Cost of a phase *)

(** Return the number of processors/cores needed to run phase of test.
    Returns [None] if the phase of this test is currently ineligible to run.
    [tif] is the optional argument [threads_in_flight]. *)
Definition _get_procs_needed (s : state) (test : string) (p : phase)
    (tif : option (gmap string (Z * phase))) (no_batch : bool) : res (option Z) :=
  (* For build pools, we must wait for the first case to complete XML,
     SHAREDLIB, and MODEL_BUILD phases before the other cases can do those
     phases *)
  let? (is_first_test, first_test, _) := _get_build_group s test in
  let build_group_dep_phases := [XML; SHAREDLIB_BUILD; MODEL_BUILD] in
  if negb is_first_test && bool_decide (p ∈ build_group_dep_phases) then
    let? st := _get_test_status s first_test (Some p) in
    if bool_decide (st = PEND) then Val None (* ineligible to run *)
    else Val (Some 1)
  else if bool_decide (p = RUN) && (_no_batch (cfg s) || no_batch) then
    Val (Some (TOTALPES (env (cfg s)) test))
  else if bool_decide (p = SHAREDLIB_BUILD) then
    if serialize_sharedlib_builds (cfg s) then
      (* Will force serialization of sharedlib builds *)
      match tif with
      | None => Err TypeError
      | Some threads =>
          if existsb (fun kv => bool_decide (kv.2.2 = SHAREDLIB_BUILD))
               (map_to_list threads)
          then Val None
          else Val (Some 1)
      end
    else Val (Some 1)
  else if bool_decide (p = MODEL_BUILD) then
    (* Model builds now happen in parallel *)
    Val (Some (_model_build_cost s))
  else Val (Some 1).

(** ** The worker *)

(** The body of [_consumer]; [self_consumer] is the method itself, for the
    call that chains MODEL_BUILD into RUN. *)
Definition consumer_body
    (self_consumer : string -> phase -> (string -> M (bool * string)) -> M unit)
    (test : string) (test_phase : phase)
    (phase_method : string -> M (bool * string)) : M unit :=
  let! (success, errors) := _run_catch_exceptions test test_phase phase_method in
  let! s := get in
  let st := if success : bool then
              if bool_decide (test_phase = RUN) && negb (_no_batch (cfg s))
              then PEND else PASS
            else FAIL in
  when (bool_decide (st <> PEND)) (_update_test_status test test_phase st) ;;
  let! s := get in
  let! remains := lift (_work_remains s test) in
  when (negb remains) (modify (set_completed_tests (fun n => n + 1))) ;;
  let! s := get in
  let! (is_first_test, _, _) := lift (_get_build_group s test) in
  when (bool_decide (test_phase ∈ [CREATE_NEWCASE; XML])
        || (negb is_first_test
            && bool_decide (test_phase ∈ [SHAREDLIB_BUILD; MODEL_BUILD])))
    (* These are the phases for which TestScheduler is reponsible for
       updating the TestStatus file *)
    (_update_test_status_file test test_phase st) ;;
  when (bool_decide (test_phase = XML)) (modify (emit (EvReadme test))) ;;
  (* On batch systems, we want to immediately submit to the queue, because
     it's very cheap to submit and will get us a better spot in line *)
  let! s := get in
  when (success && negb (_no_run (cfg s)) && negb (_no_batch (cfg s))
        && bool_decide (test_phase = MODEL_BUILD))
    (lift (_get_procs_needed s test RUN None true) ;;
     _update_test_status test RUN PEND ;;
     self_consumer test RUN _run_phase).

Fixpoint consumer_depth (depth : nat) (test : string) (test_phase : phase)
    (phase_method : string -> M (bool * string)) : M unit :=
  match depth with
  | O => fun _ => Unfinished
  | S depth' => consumer_body (consumer_depth depth') test test_phase phase_method
  end.

(** The chained call runs RUN, which chains no further: two levels are all
    the recursion there is ([consumer_depth_enough]). *)
Definition _consumer : string -> phase -> (string -> M (bool * string)) -> M unit :=
  consumer_depth 2.

(** ** The producer's launch decision *)

Definition more_than_pool_msg (test : string) (next_phase : phase)
    (procs_needed : Z) : string :=
  "Test " +:+ test +:+ " phase " +:+ phase_name next_phase
    +:+ " requested more (" +:+ pretty procs_needed
    +:+ ") than entire pool (self._proc_pool)".

(** Launch the next phase of test if possible. Return True if launched. *)
Definition _producer_indv_test_launch (test : string) : M bool :=
  let! s := get in
  let! (test_phase, test_status) := lift (_get_test_data s test) in
  expect (bool_decide (test_status <> PEND)) test ;;
  let! idx := lift (index test_phase (_phases (cfg s))) in
  let! next_phase := lift (subscript (_phases (cfg s)) (idx + 1)) in
  let! procs_needed :=
    lift (_get_procs_needed s test next_phase (Some (threads_in_flight s)) false) in
  match procs_needed with
  | None =>
      (* This test cannot run now so skip *)
      ret false
  | Some procs_needed =>
      if procs_needed >? _proc_pool (cfg s) then
        (* This test is asking for more than we can ever provide
           This should only ever happen for RUN_PHASE *)
        let msg := more_than_pool_msg test next_phase procs_needed in
        expect (bool_decide (next_phase = RUN)) msg ;;
        (* CIME phase won't be run, so we need to update TEST_STATUS ourselves *)
        _update_test_status_file test SUBMIT PASS ;;
        _update_test_status_file test RUN FAIL ;;
        (* Update our internal state that this test failed *)
        _update_test_status test next_phase PEND ;;
        _update_test_status test next_phase FAIL ;;
        modify (emit (EvLoggerWarning msg)) ;;
        _log_output test msg ;;
        (* We did run the phase in some sense in that we instantly failed it *)
        ret true
      else if procs_needed <=? _procs_avail s then
        (* We can run this test! *)
        modify (set_procs_avail (fun avail => avail - procs_needed)) ;;
        _update_test_status test next_phase PEND ;;
        modify (set_threads_in_flight (<[test := (procs_needed, next_phase)]>)) ;;
        modify (emit (EvThreadStart test next_phase)) ;;
        ret true
      else
        (* There aren't enough free procs to run this phase, so skip *)
        ret false
  end.

(** ** The constructor *)

Record Machine : Type := {
  GMAKE_J : Z;
  NTEST_PARALLEL_JOBS : option Z;
  MAX_MPITASKS_PER_NODE : option Z;
  MAX_TASKS_PER_NODE : Z;
  has_batch_system : bool;
}.

Record Config : Type := {
  calculate_mode_build_cost : bool;
  config_serialize_sharedlib_builds : bool;
  share_exes : bool;
  (* [get_build_groups] of [CIME.get_tests], used when [share_exes] *)
  get_build_groups : list string -> list (list string);
}.

(** The constructor's arguments.  [test_names] are the names after
    [_translate_test_names_for_new_pecount] and in the order
    [_order_tests_by_runtime] leaves them; [tests_to_skip] are the names the
    baseline check drops ([skip_tests_with_existing_baselines]). *)
Record Args : Type := {
  test_names : list string;
  tests_to_skip : list string;
  no_run : bool;
  no_build : bool;
  no_setup : bool;
  no_batch : option bool;
  namelists_only : bool;
  parallel_jobs : option Z;
  proc_pool : option Z;
  use_existing : bool;
  force_rebuild : bool;
  single_exe : bool;
  allow_pnl : bool;
  queue : option string;
  mail_user : option string;
  mail_type : option (list string);
  chksum : bool;
}.

(** The test directories as the constructor finds them. *)
Record World : Type := {
  w_status_files : gmap string TestStatus;
  w_subprocess : gmap string (list (Z * string * string));
  w_case_exeroot : gmap string string;
  w_case_gmake_j : gmap string Z;
}.

(** [int(x)] of the quotient of two integers computed in floating point:
    truncation toward zero.  Exact as long as the operands are below 2^53. *)
Definition int_of_quotient (num den : Z) : Z := Z.quot num den.

(** Current build system is unlikely to be able to productively use more
    than 16 cores. *)
Definition init_model_build_cost (config : Config) (machobj : Machine) : Z :=
  if calculate_mode_build_cost config then
    Z.min 16 (int_of_quotient (GMAKE_J machobj * 2) 3 + 1)
  else 4.

Definition init_parallel_jobs (a : Args) (machobj : Machine) : res Z :=
  match parallel_jobs a with
  | None =>
      let mach_parallel_jobs :=
        match NTEST_PARALLEL_JOBS machobj with
        | None => MAX_MPITASKS_PER_NODE machobj
        | Some n => Some n
        end in
      match mach_parallel_jobs with
      | Some n => Val (Z.min (Z.of_nat (length (test_names a))) n)
      | None => Err TypeError
      end
  | Some n => Val n
  end.

(** Oversubscribe by 1/4: [int(pes * 1.25)]. *)
Definition init_proc_pool (a : Args) (machobj : Machine) : Z :=
  match proc_pool a with
  | None => let pes := MAX_TASKS_PER_NODE machobj in int_of_quotient (pes * 5) 4
  | Some n => n
  end.

Definition init_no_build (a : Args) : bool :=
  no_build a || no_setup a || namelists_only a.

Definition init_no_run (a : Args) : bool := no_run a || init_no_build a.

Definition init_no_batch (a : Args) (machobj : Machine) : bool :=
  default false (no_batch a) || negb (has_batch_system machobj).

(** Setup phases. *)
Definition init_phases (a : Args) : res (list phase) :=
  let phases := PHASES in
  let? phases := if no_setup a then remove_first SETUP phases else Val phases in
  let? phases :=
    if init_no_build a then
      let? ps := remove_first SHAREDLIB_BUILD phases in
      remove_first MODEL_BUILD ps
    else Val phases in
  if init_no_run a then remove_first RUN phases else Val phases.

(** The keys of the OrderedDict built from [names], in insertion order. *)
Fixpoint ordered_keys (seen names : list string) : list string :=
  match names with
  | [] => []
  | n :: rest =>
      if bool_decide (n ∈ seen) then ordered_keys seen rest
      else n :: ordered_keys (n :: seen) rest
  end.

Definition init_tests (names : list string) : gmap string (phase * status) :=
  foldl (fun tests test_name => <[test_name := (TEST_START, PASS)]> tests) ∅ names.

Definition init_build_groups (a : Args) (config : Config) (keys : list string)
    : list (list string) :=
  if single_exe a then [keys]
  else if share_exes config then get_build_groups config keys
  else map (fun item => [item]) keys.

(** The loop [for phase, status in ts] of the [use_existing] branch. *)
Fixpoint replay (test : string) (records : list (phase * status)) : M unit :=
  match records with
  | [] => ret tt
  | (p, st) :: rest =>
      let! s := get in
      if bool_decide (p ∈ CORE_PHASES (env (cfg s))) then
        if bool_decide (st ∈ [PEND; FAIL]) then
          (* Import for potential subsequent waits *)
          when (bool_decide (st = FAIL))
            (ts_set_status test p PEND (Some TEST_RERUN_COMMENT))
          (* We need to pick up here: break *)
        else
          (* Somewhat subtle. Create_test considers submit/run to be the run
             phase, so don't try to update test status for a passed submit
             phase *)
          when (bool_decide (p <> SUBMIT))
            (_update_test_status test p PEND ;;
             _update_test_status test p st) ;;
          replay test rest
      else replay test rest
  end.

Definition use_existing_test (force : bool) (test : string) : M unit :=
  when force (ts_set_status test SHAREDLIB_BUILD PEND None) ;;
  let! s := get in
  replay test (ts_iter (default [] (status_files s !! test))).

Fixpoint for_each (tests : list string) (body : string -> M unit) : M unit :=
  match tests with
  | [] => ret tt
  | t :: rest => body t ;; for_each rest body
  end.

Definition __init__ (a : Args) (machobj : Machine) (config : Config) (e : Env)
    (w : World) : outcome state unit :=
  let model_build_cost := init_model_build_cost config machobj in
  let no_batch := init_no_batch a machobj in
  let names := filter (fun t => t ∉ tests_to_skip a) (test_names a) in
  let keys := ordered_keys [] names in
  let build_groups := init_build_groups a config keys in
  let start (phases : list phase) (jobs : Z) : state :=
    {| cfg := {| _phases := phases; _build_groups := build_groups;
                 _no_run := init_no_run a; _no_batch := no_batch;
                 _single_exe := single_exe a;
                 _allow_pnl := if single_exe a then true else allow_pnl a;
                 _mail_user := mail_user a; _mail_type := mail_type a;
                 _chksum := chksum a;
                 _proc_pool := init_proc_pool a machobj;
                 _parallel_jobs := jobs;
                 serialize_sharedlib_builds := config_serialize_sharedlib_builds config;
                 env := e |};
       _tests := init_tests names;
       _build_group_exeroots :=
         foldl (fun m build_group => <[build_group := None]> m) ∅ build_groups;
       _procs_avail := init_proc_pool a machobj;
       _model_build_cost := model_build_cost;
       _completed_tests := 0;
       threads_in_flight := ∅;
       status_files := w_status_files w;
       subprocess := w_subprocess w;
       case_exeroot := w_case_exeroot w;
       case_gmake_j := w_case_gmake_j w;
       trace := [] |} in
  match
    (let? _ := expect_res (negb (no_batch && bool_decide (queue a <> None)))
                 "Does not make sense to request a queue without batch system" in
     let? jobs := init_parallel_jobs a machobj in
     let? phases := init_phases a in
     Val (start phases jobs))
  with
  | Err ex => Exc ex (start PHASES 0)
  | Val s0 =>
      (if use_existing a then
         for_each keys (use_existing_test (force_rebuild a))
       else
         (* None of the test directories should already exist. *)
         for_each keys (fun test =>
           expect (negb (test_dir_exists e test))
             ("Cannot create new case in directory for '" +:+ test
                +:+ "', it already exists. Pick a different test-id"))) s0
  end.

(** ** Vocabulary of the statements *)

(** [q] is the immediate successor of [p] in the phase list. *)
Definition next_phase_of (phases : list phase) (p q : phase) : Prop :=
  exists n : nat, phases !! n = Some p /\ phases !! S n = Some q.

(** [p] comes strictly before [q] in the phase list. *)
Definition phase_before (phases : list phase) (p q : phase) : Prop :=
  exists i j : nat, phases !! i = Some p /\ phases !! j = Some q /\ (i < j)%nat.

(** The two shapes of an in-memory update: finishing the pending phase, or
    entering the next phase after a pass. *)
Definition legal_update (phases : list phase) (old new : phase * status) : Prop :=
  (new.1 = old.1 /\ old.2 = PEND /\ (new.2 = PASS \/ new.2 = FAIL)) \/
  (next_phase_of phases old.1 new.1 /\ old.2 = PASS /\ new.2 = PEND).

(** ** A small scenario

    Two tests that share one build group, [lead] first, on the full
    pipeline with a batch system. *)
Definition lead : string := "SMS.f09_g16.A".
Definition follow : string := "ERS.f09_g16.A".

Definition scenario_env : Env :=
  {| TESTS_FAILED_ERR_CODE := 100;
     case_opts_of := fun _ => None;
     TOTALPES := fun _ => 4;
     env_test_raises := fun _ => None;
     single_exe_raises := fun _ => None;
     test_dir_exists := fun _ => false;
     CORE_PHASES := [CREATE_NEWCASE; XML; SETUP; SHAREDLIB_BUILD; MODEL_BUILD;
                     SUBMIT; RUN];
     str_of_exn := fun e => match e with
                            | CIMEError m => "ERROR: " +:+ m
                            | ExternalError m => m
                            | _ => ""
                            end;
     format_tb := fun _ => "" |}.

Definition scenario_cfg_with (e : Env) (no_batch : bool) (pool : Z) : Settings :=
  {| _phases := PHASES; _build_groups := [[lead; follow]];
     _no_run := false; _no_batch := no_batch; _single_exe := false;
     _allow_pnl := false; _mail_user := None; _mail_type := None;
     _chksum := false; _proc_pool := pool; _parallel_jobs := 2;
     serialize_sharedlib_builds := false; env := e |}.

Definition scenario_cfg : Settings := scenario_cfg_with scenario_env false 8.

(** The two tests in the given in-memory states, nothing in flight, no
    files yet and no subprocess results recorded. *)
Definition scenario_on (c : Settings) (lead_state follow_state : phase * status)
    : state :=
  {| cfg := c;
     _tests := <[follow := follow_state]> (<[lead := lead_state]> ∅);
     _build_group_exeroots := <[[lead; follow] := None]> ∅;
     _procs_avail := _proc_pool c; _model_build_cost := 4; _completed_tests := 0;
     threads_in_flight := ∅; status_files := ∅; subprocess := ∅;
     case_exeroot := <[lead := "/scratch/lead/bld"]> ∅;
     case_gmake_j := ∅; trace := [] |}.

Definition scenario : phase * status -> phase * status -> state :=
  scenario_on scenario_cfg.

(** What [_xml_phase] does last: scale back build parallelism. *)
Definition scale_back (test : string) (s : state) : state :=
  if _model_build_cost s >? _proc_pool (cfg s) then
    set_model_build_cost (fun _ => _proc_pool (cfg s))
      (set_case_gmake_j (<[test := _proc_pool (cfg s)]>) s)
  else s.

(** A subprocess result after which [_shell_cmd_for_phase] goes round its
    loop again. *)
Definition transient (r : Z * string * string) : bool :=
  negb (r.1.1 =? 0) && str_contains "bad interpreter" r.1.2.

Definition is_run (ev : event) : bool :=
  match ev with EvRunCmd _ _ => true | _ => false end.

Definition is_sleep (ev : event) : bool :=
  match ev with EvSleep => true | _ => false end.

Definition count (f : event -> bool) (tr : list event) : nat :=
  length (List.filter f tr).

(** The status-file writes recorded in a trace. *)
Fixpoint status_writes (tr : list event) : list (string * phase * status) :=
  match tr with
  | [] => []
  | EvStatusWrite test p st _ :: tr' => (test, p, st) :: status_writes tr'
  | _ :: tr' => status_writes tr'
  end.

(** The scenario with recorded subprocess results for [lead]. *)
Definition with_results (results : list (Z * string * string)) (s : state) : state :=
  set_subprocess (<[lead := results]>) s.

(** A machine without batch system and with a two-core pool. *)
Definition small_pool : phase * status -> phase * status -> state :=
  scenario_on (scenario_cfg_with scenario_env true 2).

(** The scenario's tests carrying option B (build only). *)
Definition scenario_env_B : Env :=
  {| TESTS_FAILED_ERR_CODE := TESTS_FAILED_ERR_CODE scenario_env;
     case_opts_of := fun _ => Some ["B"];
     TOTALPES := TOTALPES scenario_env;
     env_test_raises := env_test_raises scenario_env;
     single_exe_raises := single_exe_raises scenario_env;
     test_dir_exists := test_dir_exists scenario_env;
     CORE_PHASES := CORE_PHASES scenario_env;
     str_of_exn := str_of_exn scenario_env;
     format_tb := format_tb scenario_env |}.

Definition build_only : phase * status -> phase * status -> state :=
  scenario_on (scenario_cfg_with scenario_env_B false 8).

(** Constructor arguments, machine and configuration of the scenario. *)
Definition scenario_args_with (jobs pool : option Z) : Args :=
  {| test_names := [lead; follow]; tests_to_skip := [];
     no_run := false; no_build := false; no_setup := false; no_batch := None;
     namelists_only := false; parallel_jobs := jobs; proc_pool := pool;
     use_existing := false; force_rebuild := false; single_exe := true;
     allow_pnl := false; queue := None; mail_user := None; mail_type := None;
     chksum := false |}.

Definition scenario_args : Args := scenario_args_with None (Some 8).

Definition scenario_machine : Machine :=
  {| GMAKE_J := 8; NTEST_PARALLEL_JOBS := Some 4;
     MAX_MPITASKS_PER_NODE := Some 36; MAX_TASKS_PER_NODE := 36;
     has_batch_system := true |}.

Definition scenario_config : Config :=
  {| calculate_mode_build_cost := true;
     config_serialize_sharedlib_builds := false;
     share_exes := false;
     get_build_groups := fun names => [names] |}.

Definition empty_world : World :=
  {| w_status_files := ∅; w_subprocess := ∅; w_case_exeroot := ∅;
     w_case_gmake_j := ∅ |}.

(** The phases whose recorded PASS moves the in-memory state during the
    resume replay: core phases other than SUBMIT. *)
Fixpoint passed_phases (core : list phase) (records : list (phase * status))
    : list phase :=
  match records with
  | [] => []
  | (p, _) :: rest =>
      if bool_decide (p ∈ core) && bool_decide (p <> SUBMIT)
      then p :: passed_phases core rest
      else passed_phases core rest
  end.

(** [l] lists the phases that follow [q] in the phase list, one by one. *)
Fixpoint chain_from (phases : list phase) (q : phase) (l : list phase) : Prop :=
  match l with
  | [] => True
  | p :: l' => next_phase_of phases q p /\ chain_from phases p l'
  end.



(** What the constructor's loops leave untouched. *)
Definition settled (s s' : state) : Prop :=
  cfg s' = cfg s /\ _model_build_cost s' = _model_build_cost s /\
  _procs_avail s' = _procs_avail s.

(** ** Vocabulary of the further properties *)

(** How far a test has come: two steps per phase, the second when the
    phase is no longer pending. *)
Definition progress (phases : list phase) (d : phase * status) : res Z :=
  let? i := index d.1 phases in
  Val (2 * i + match d.2 with PEND => 0 | _ => 1 end).

(** The cores reserved by the workers in flight. *)
Definition in_flight_procs (threads : gmap string (Z * phase)) : Z :=
  map_fold (fun _ info acc => info.1 + acc) 0 threads.

(** ** Waiting for a worker, and one pass of the producer *)

(** One pass of [_wait_for_something_to_finish] over the threads in flight:
    [is_alive] is what [thread.is_alive()] answers for each test in this
    pass.  The result lists the finished tests with their reserved cores (in
    the order of the map, not of the dict; the releases that follow do not
    depend on the order). *)
Definition finished_tests (is_alive : string -> bool)
    (threads : gmap string (Z * phase)) : list (string * Z) :=
  map (fun kv => (kv.1, kv.2.1))
    (List.filter (fun kv : string * (Z * phase) => negb (is_alive kv.1))
       (map_to_list threads)).

(** The [while not finished_tests] loop, one element of [polls] per pass;
    a pass that finds nothing sleeps.  The loop is still running when the
    recorded passes run out. *)
Fixpoint wait_poll (polls : list (string -> bool))
    (threads : gmap string (Z * phase)) : M (list (string * Z)) :=
  match polls with
  | [] => fun _ => Unfinished
  | is_alive :: rest =>
      match finished_tests is_alive threads with
      | [] => sleep ;; wait_poll rest threads
      | finished => ret finished
      end
  end.

Fixpoint release (finished : list (string * Z)) : M unit :=
  match finished with
  | [] => ret tt
  | (finished_test, procs_needed) :: rest =>
      modify (set_procs_avail (fun avail => avail + procs_needed)) ;;
      modify (set_threads_in_flight (delete finished_test)) ;;
      release rest
  end.

Definition _wait_for_something_to_finish (polls : list (string -> bool)) : M unit :=
  let! s := get in
  expect (Z.of_nat (size (threads_in_flight s)) <=? _parallel_jobs (cfg s))
    "Oversubscribed?" ;;
  let! finished := wait_poll polls (threads_in_flight s) in
  release finished.

(** The [for test in self._tests] loop of [_producer], over the keys
    [order] of the dict; returns [(work_to_do,
    num_threads_launched_this_iteration)].  The workers are taken not to
    touch the dict while the loop runs. *)
Fixpoint producer_pass (order : list string) (work_to_do : bool) (launched : Z)
    : M (bool * Z) :=
  match order with
  | [] => ret (work_to_do, launched)
  | test :: rest =>
      let! s := get in
      let! remains := lift (_work_remains s test) in
      if remains : bool then
        (* If we have no workers available, immediately break out of loop
           so we can wait *)
        if Z.of_nat (size (threads_in_flight s)) =? _parallel_jobs (cfg s)
        then ret (true, launched)
        else
          (* Check if this test is already running a phase. If so, we can't
             launch a new phase now. *)
          match threads_in_flight s !! test with
          | Some _ => producer_pass rest true launched
          | None =>
              let! was_launched := _producer_indv_test_launch test in
              producer_pass rest true
                (if was_launched : bool then launched + 1 else launched)
          end
      else producer_pass rest work_to_do launched
  end.

(** The scenario with [lead] running SETUP on one core. *)
Definition one_in_flight : state :=
  set_threads_in_flight (<[lead := (1, SETUP)]>)
    (set_procs_avail (fun avail => avail - 1)
       (scenario (SETUP, PEND) (XML, PASS))).

(** A phase routine that raises. *)
Definition raising_phase (e : exn) (test : string) : M (bool * string) :=
  raise e.

(** The scenario in single-executable mode, with a test case that does not
    support sharing an executable. *)
Definition single_exe_env : Env :=
  {| TESTS_FAILED_ERR_CODE := TESTS_FAILED_ERR_CODE scenario_env;
     case_opts_of := case_opts_of scenario_env;
     TOTALPES := TOTALPES scenario_env;
     env_test_raises := env_test_raises scenario_env;
     single_exe_raises := fun _ => Some (CIMEError "does not support single exe");
     test_dir_exists := test_dir_exists scenario_env;
     CORE_PHASES := CORE_PHASES scenario_env;
     str_of_exn := str_of_exn scenario_env;
     format_tb := format_tb scenario_env |}.

Definition single_exe_run : phase * status -> phase * status -> state :=
  scenario_on
    {| _phases := PHASES; _build_groups := [[lead; follow]];
       _no_run := false; _no_batch := false; _single_exe := true;
       _allow_pnl := true; _mail_user := None; _mail_type := None;
       _chksum := false; _proc_pool := 8; _parallel_jobs := 2;
       serialize_sharedlib_builds := false; env := single_exe_env |}.

(** The scenario's settings with serialized shared-library builds. *)
Definition serialized : phase * status -> phase * status -> state :=
  scenario_on
    {| _phases := PHASES; _build_groups := [[lead]; [follow]];
       _no_run := false; _no_batch := false; _single_exe := false;
       _allow_pnl := false; _mail_user := None; _mail_type := None;
       _chksum := false; _proc_pool := 8; _parallel_jobs := 2;
       serialize_sharedlib_builds := true; env := scenario_env |}.

(** A test directory left by a run of [lead] that went through. *)
Definition completed_run : state :=
  set_status_files
    (<[lead := [(CREATE_NEWCASE, (PASS, None)); (XML, (PASS, None));
                (SETUP, (PASS, None)); (SHAREDLIB_BUILD, (PASS, None));
                (AUX "NLCOMP", (FAIL, None));
                (MODEL_BUILD, (PASS, None)); (SUBMIT, (PASS, None));
                (RUN, (PASS, None))]]>)
    (scenario (INIT, PASS) (INIT, PASS)).

(** ** Case ids and test directories *)

(** The constructor's fields that name the test directories. *)
Record Layout : Type := {
  _test_root : string;
  _test_id : string;
  _baseline_gen_name : option string;
  _baseline_cmp_name : option string;
}.

Definition slash : Ascii.ascii := Ascii.ascii_of_nat 47.

Definition ends_with_slash (path : string) : bool :=
  match last (String.list_ascii_of_string path) with
  | Some c => bool_decide (c = slash)
  | None => false
  end.

(** [os.path.join(a, b)] on a POSIX system. *)
Definition os_path_join (a b : string) : string :=
  if String.prefix "/" b then b
  else if bool_decide (a = "") || ends_with_slash a then a +:+ b
  else a +:+ "/" +:+ b.

Definition _get_case_id (l : Layout) (test : string) : string :=
  let baseline_action_code := "" in
  let baseline_action_code :=
    if truthy (_baseline_gen_name l) then baseline_action_code +:+ "G"
    else baseline_action_code in
  let baseline_action_code :=
    if truthy (_baseline_cmp_name l) then baseline_action_code +:+ "C"
    else baseline_action_code in
  if (0 <? String.length baseline_action_code)%nat then
    test +:+ "." +:+ baseline_action_code +:+ "." +:+ _test_id l
  else
    test +:+ "." +:+ _test_id l.

Definition _get_test_dir (l : Layout) (test : string) : string :=
  os_path_join (_test_root l) (_get_case_id l test).

Definition scenario_layout : Layout :=
  {| _test_root := "/scratch/tests"; _test_id := "20240101_120000";
     _baseline_gen_name := Some "master"; _baseline_cmp_name := None |}.

(** ** Forced processor and thread counts *)

(** A forced count is the integer of the command line, or the string ["M"]
    the loop below puts in its place. *)
Inductive pecount : Type :=
  | PeInt (n : Z)
  | PeStr (s : string).

(** ["{}".format(v)]. *)
Definition format_pe (v : pecount) : string :=
  match v with PeInt n => pretty n | PeStr s => s end.

(** What [parse_test_name] returns; a part the name does not have is [None]. *)
Record ParsedName : Type := {
  testcase : option string;
  caseopts : option (list string);
  grid : option string;
  compset : option string;
  machine : option string;
  compiler : option string;
  testmods : option (list string);
}.

Definition with_caseopts (p : ParsedName) (opts : option (list string)) : ParsedName :=
  {| testcase := testcase p; caseopts := opts; grid := grid p;
     compset := compset p; machine := machine p; compiler := compiler p;
     testmods := testmods p |}.

(** [caseopt.startswith("P")]. *)
Definition is_popt (caseopt : string) : bool := String.prefix "P" caseopt.

(** [caseopt[1:]]. *)
Definition str_tail (s : string) : string :=
  match s with EmptyString => EmptyString | String _ s' => s' end.

(** [s.split("x")]. *)
Fixpoint split_x (s : string) : list string :=
  match s with
  | EmptyString => [EmptyString]
  | String c s' =>
      if String.prefix "x" s then EmptyString :: split_x s'
      else match split_x s' with
           | [] => [String c EmptyString]
           | w :: ws => String c w :: ws
           end
  end.

(** ["P{}".format(procs)] or ["P{}x{}".format(procs, thrds)]. *)
Definition format_popt (procs : pecount) (thrds : option pecount) : string :=
  match thrds with
  | None => "P" +:+ format_pe procs
  | Some t => "P" +:+ format_pe procs +:+ "x" +:+ format_pe t
  end.

(** The body of [if caseopt.startswith("P")]: the new option. *)
Definition rewrite_popt (force_procs force_threads : option pecount)
    (caseopt : string) : res string :=
  let caseopt := str_tail caseopt in
  let? old :=
    if str_contains "x" caseopt then
      match split_x caseopt with
      | [old_procs; old_thrds] => Val (old_procs, Some old_thrds)
      | _ => Err ValueError
      end
    else Val (caseopt, None) in
  let new_procs :=
    match force_procs with Some f => f | None => PeStr old.1 end in
  let new_thrds :=
    match force_threads with Some f => Some f | None => PeStr <$> old.2 end in
  Val (format_popt new_procs new_thrds).

(** The loop over [enumerate(caseopts)]: the list with its first P option
    rewritten, or [None] when the loop ends with [rewrote_caseopt] false. *)
Fixpoint rewrite_first_popt (force_procs force_threads : option pecount)
    (caseopts : list string) : res (option (list string)) :=
  match caseopts with
  | [] => Val None
  | caseopt :: rest =>
      if is_popt caseopt then
        let? newcaseopt := rewrite_popt force_procs force_threads caseopt in
        Val (Some (newcaseopt :: rest))
      else
        let? r := rewrite_first_popt force_procs force_threads rest in
        Val (cons caseopt <$> r)
  end.

(** One test name's options: the new [caseopts] and the [force_procs] the
    next iteration sees. *)
Definition translate_caseopts (force_procs force_threads : option pecount)
    (caseopts : option (list string)) : res (list string * option pecount) :=
  let? rewritten :=
    match caseopts with
    | Some l => rewrite_first_popt force_procs force_threads l
    | None => Val None
    end in
  match rewritten with
  | Some l => Val (l, force_procs)
  | None =>
      let force_procs :=
        match force_procs with None => PeStr "M" | Some f => f end in
      let newcaseopt := format_popt force_procs force_threads in
      Val (match caseopts with
           | None => [newcaseopt]
           | Some l => l ++ [newcaseopt]
           end, Some force_procs)
  end.

(** [parse_test_name] and [get_full_test_name] are the functions of
    [CIME.utils]. *)
Fixpoint _translate_test_names_for_new_pecount
    (parse_test_name : string -> res ParsedName)
    (get_full_test_name : ParsedName -> res string)
    (test_names : list string)
    (force_procs force_threads : option pecount) : res (list string) :=
  match test_names with
  | [] => Val []
  | test_name :: rest =>
      let? p := parse_test_name test_name in
      let? r := translate_caseopts force_procs force_threads (caseopts p) in
      let? new_test_name := get_full_test_name (with_caseopts p (Some r.1)) in
      let? new_test_names :=
        _translate_test_names_for_new_pecount parse_test_name get_full_test_name
          rest r.2 force_threads in
      Val (new_test_name :: new_test_names)
  end.

(** The name parses into options that hold a P option. *)
Definition has_popt (parse_test_name : string -> res ParsedName)
    (name : string) : bool :=
  match parse_test_name name with
  | Val p => existsb is_popt (default [] (caseopts p))
  | Err _ => false
  end.

(** Three test names and what the two collaborators make of them. *)
Definition scenario_parse (name : string) : res ParsedName :=
  let parsed tc opts :=
    Val {| testcase := Some tc; caseopts := opts; grid := Some "f09_g16";
           compset := Some "A"; machine := None; compiler := None;
           testmods := None |} in
  if bool_decide (name = "ERS_P8.f09_g16.A") then parsed "ERS" (Some ["P8"])
  else if bool_decide (name = "SMS.f09_g16.A") then parsed "SMS" None
  else if bool_decide (name = "ERP_Ld3_P4x1.f09_g16.A") then
    parsed "ERP" (Some ["Ld3"; "P4x1"])
  else Err (CIMEError "bad test name").

Definition scenario_full_name (p : ParsedName) : res string :=
  Val (default "" (testcase p)
       +:+ foldr (fun o acc => "_" +:+ o +:+ acc) "" (default [] (caseopts p))
       +:+ "." +:+ default "" (grid p) +:+ "." +:+ default "" (compset p)).

(** ** The create_newcase phase *)

(** ["{}".format(v)] of a string that may be [None]. *)
Definition format_opt (o : option string) : string := default "None" o.

(** What [_create_newcase_phase] reads besides the test's directory: fields
    of [self] set by the constructor, and the collaborators it calls.
    [_get_time_est] is the module's function at [self._baseline_root];
    [test_data_option test key] is [self._test_data[test]["options"][key]]
    when the three lookups succeed. *)
Record Newcase : Type := {
  layout : Layout;
  sys_executable : string;
  _cime_root : string;
  get_src_root : string;
  _project : option string;
  _output_root : option string;
  _input_dir : option string;
  _non_local : bool;
  _workflow : option string;
  _pesfile : option string;
  _cime_driver : string;
  _mpilib : option string;
  _queue : option string;
  _walltime : option string;
  sort_tests : bool;
  _get_time_est : string -> option string;
  test_data_option : string -> string -> option string;
  find_test_mods : string -> list string -> res (list string);
  get_machine_name : string;
  parse_test_name : string -> res ParsedName;
}.

(** The variables the loop over [case_opts] updates.  [ninst] and [ncpl]
    start as the integer 1, here [None], and are strings afterwards; a
    string never equals 1. *)
Record CaseOptVars : Type := {
  create_newcase_cmd : string;
  mpilib : option string;
  ninst : option string;
  ncpl : option string;
  driver : string;
}.

Definition is_one (v : option string) : bool :=
  match v with None => true | Some _ => false end.

(** One iteration of [for case_opt in case_opts]. *)
Definition case_opt_step (v : CaseOptVars) (case_opt : string) : res CaseOptVars :=
  if String.prefix "M" case_opt then
    let mpilib := str_tail case_opt in
    Val {| create_newcase_cmd := create_newcase_cmd v +:+ " --mpilib " +:+ mpilib;
           mpilib := Some mpilib; ninst := ninst v; ncpl := ncpl v;
           driver := driver v |}
  else if String.prefix "N" case_opt then
    let? _ := expect_res (is_one (ncpl v)) "Cannot combine _C and _N options" in
    let ninst := str_tail case_opt in
    Val {| create_newcase_cmd := create_newcase_cmd v +:+ " --ninst " +:+ ninst;
           mpilib := mpilib v; ninst := Some ninst; ncpl := ncpl v;
           driver := driver v |}
  else if String.prefix "C" case_opt then
    let? _ := expect_res (is_one (ninst v)) "Cannot combine _C and _N options" in
    let ncpl := str_tail case_opt in
    Val {| create_newcase_cmd :=
             create_newcase_cmd v +:+ " --ninst " +:+ ncpl +:+ " --multi-driver";
           mpilib := mpilib v; ninst := ninst v; ncpl := Some ncpl;
           driver := driver v |}
  else if String.prefix "P" case_opt then
    let pesize := str_tail case_opt in
    Val {| create_newcase_cmd := create_newcase_cmd v +:+ " --pecount " +:+ pesize;
           mpilib := mpilib v; ninst := ninst v; ncpl := ncpl v;
           driver := driver v |}
  else if String.prefix "V" case_opt then
    Val {| create_newcase_cmd := create_newcase_cmd v;
           mpilib := mpilib v; ninst := ninst v; ncpl := ncpl v;
           driver := str_tail case_opt |}
  else Val v.

Fixpoint case_opts_loop (v : CaseOptVars) (case_opts : list string) : res CaseOptVars :=
  match case_opts with
  | [] => Val v
  | case_opt :: rest =>
      let? v' := case_opt_step v case_opt in case_opts_loop v' rest
  end.

(** Lines 646-715: the command up to [--driver] and the check of the
    nuopc driver. *)
Definition newcase_cmd_options (nc : Newcase) (test : string) (p : ParsedName)
    : res CaseOptVars :=
  let test_dir := _get_test_dir (layout nc) test in
  let cmd :=
    sys_executable nc +:+ " "
      +:+ os_path_join (os_path_join (os_path_join (_cime_root nc) "CIME") "scripts")
            "create_newcase.py"
      +:+ " --case " +:+ test_dir +:+ " --res " +:+ format_opt (grid p)
      +:+ " --compset " +:+ format_opt (compset p) +:+ " --test" in
  let cmd := match machine p with
             | Some m => cmd +:+ " --machine " +:+ m | None => cmd end in
  let cmd := match compiler p with
             | Some c => cmd +:+ " --compiler " +:+ c | None => cmd end in
  let cmd := match _project nc with
             | Some x => cmd +:+ " --project " +:+ x +:+ " " | None => cmd end in
  let cmd := match _output_root nc with
             | Some x => cmd +:+ " --output-root " +:+ x +:+ " " | None => cmd end in
  let cmd := match _input_dir nc with
             | Some x => cmd +:+ " --input-dir " +:+ x +:+ " " | None => cmd end in
  let cmd := if _non_local nc then cmd +:+ " --non-local" else cmd in
  let cmd := if truthy (_workflow nc)
             then cmd +:+ " --workflow " +:+ format_opt (_workflow nc) else cmd in
  let cmd := match _pesfile nc with
             | Some x => cmd +:+ " --pesfile " +:+ x +:+ " " | None => cmd end in
  let cmd := cmd +:+ " --srcroot " +:+ get_src_root nc in
  let v := {| create_newcase_cmd := cmd; mpilib := None; ninst := None;
              ncpl := None; driver := _cime_driver nc |} in
  let? v := match caseopts p with
            | Some case_opts => case_opts_loop v case_opts
            | None => Val v
            end in
  let cmd := create_newcase_cmd v +:+ " --driver " +:+ driver v in
  let? _ :=
    if str_contains "--ninst" cmd && negb (str_contains "--multi-driver" cmd) then
      if str_contains "--driver nuopc" cmd
         || (negb (str_contains "--driver" cmd) && bool_decide (driver v = "nuopc"))
      then Err (CIMEError "_N option not supported by nuopc driver, use _C instead")
      else Val tt
    else Val tt in
  Val {| create_newcase_cmd := cmd; mpilib := mpilib v; ninst := ninst v;
         ncpl := ncpl v; driver := driver v |}.

(** Lines 733-777: what follows the test mods. *)
Definition newcase_cmd_rest (nc : Newcase) (test : string) (p : ParsedName)
    (mpilib : option string) (cmd : string) : string :=
  let cmd := match mpilib, _mpilib nc with
             | None, Some m => cmd +:+ " --mpilib " +:+ m
             | _, _ => cmd
             end in
  let cmd :=
    match _queue nc with
    | Some q => cmd +:+ " --queue=" +:+ q
    | None =>
        if bool_decide (testcase p = Some "NODEFAIL") then
          let machine := match machine p with
                         | Some m => m | None => get_machine_name nc end in
          if bool_decide (machine = "cheyenne") then cmd +:+ " --queue=regular"
          else cmd
        else cmd
    end in
  let cmd :=
    match _walltime nc with
    | Some w => cmd +:+ " --walltime " +:+ w
    | None =>
        if sort_tests nc then
          match _get_time_est nc test with
          | Some recommended_time => cmd +:+ " --walltime " +:+ recommended_time
          | None => cmd
          end
        else
          match test_data_option nc test "wallclock" with
          | Some w => cmd +:+ " --walltime " +:+ w
          | None => cmd
          end
    end in
  match test_data_option nc test "workflow" with
  | Some w => cmd +:+ " --workflow " +:+ w
  | None => cmd
  end.

(** The environment variable [FROM_CREATE_TEST] the phase sets and its
    debug logging are not part of the state. *)
Definition _create_newcase_phase (nc : Newcase) (test : string) : M (bool * string) :=
  let! p := lift (parse_test_name nc test) in
  let! v := lift (newcase_cmd_options nc test p) in
  let finish (cmd : string) : M (bool * string) :=
    _shell_cmd_for_phase test (newcase_cmd_rest nc test p (mpilib v) cmd)
      CREATE_NEWCASE in
  match testmods p with
  | Some test_mods =>
      let cmd := create_newcase_cmd v +:+ " --user-mods-dir " in
      match find_test_mods nc (_cime_driver nc) test_mods with
      | Err (CIMEError msg) =>
          let! s := get in
          let error := str_of_exn (env (cfg s)) (CIMEError msg) in
          _log_output test error ;;
          ret (false, error)
      | Err e => raise e
      | Val test_mods_paths => finish (cmd +:+ String.concat " " test_mods_paths)
      end
  | None => finish (create_newcase_cmd v)
  end.

Definition scenario_parsed (opts : option (list string))
    (mods : option (list string)) : ParsedName :=
  {| testcase := Some "SMS"; caseopts := opts; grid := Some "f09_g16";
     compset := Some "A"; machine := None; compiler := None; testmods := mods |}.

Definition scenario_newcase (opts : option (list string))
    (mods : option (list string)) : Newcase :=
  {| layout := scenario_layout; sys_executable := "python3";
     _cime_root := "/cime"; get_src_root := "/src";
     _project := None; _output_root := None; _input_dir := None;
     _non_local := false; _workflow := None; _pesfile := None;
     _cime_driver := "nuopc"; _mpilib := None; _queue := None;
     _walltime := None; sort_tests := false;
     _get_time_est := fun _ => None;
     test_data_option := fun _ _ => None;
     find_test_mods := fun _ _ => Err (CIMEError "Could not locate test mods");
     get_machine_name := "docker";
     parse_test_name := fun _ => Val (scenario_parsed opts mods) |}.

(** The variables after the options [C2] and [Vnuopc] of the scenario. *)
Definition newcase_vars_C2 : CaseOptVars :=
  {| create_newcase_cmd :=
       "python3 /cime/CIME/scripts/create_newcase.py"
         +:+ " --case /scratch/tests/SMS.f09_g16.A.G.20240101_120000"
         +:+ " --res f09_g16 --compset A --test --srcroot /src"
         +:+ " --ninst 2 --multi-driver --driver nuopc";
     mpilib := None; ninst := None; ncpl := Some "2"; driver := "nuopc" |}.

(** * Properties *)

(** ** Positions in a phase list *)

Lemma index_lookup {A} `{EqDecision A} (x : A) (l : list A) (i : Z) :
  index x l = Val i -> 0 <= i /\ l !! Z.to_nat i = Some x.
Proof.
  revert i. induction l as [|y l IH]; intros i; simpl; [discriminate|].
  destruct (decide (x = y)) as [->|Hne].
  - intros [= <-]. split; [lia | reflexivity].
  - destruct (index x l) as [j|e] eqn:Ej; simpl; [|discriminate].
    intros [= <-]. destruct (IH j eq_refl) as [Hj Hl]. split; [lia|].
    replace (Z.to_nat (j + 1)) with (S (Z.to_nat j)) by lia. exact Hl.
Qed.

Lemma index_of_lookup {A} `{EqDecision A} (x : A) (l : list A) (n : nat) :
  NoDup l -> l !! n = Some x -> index x l = Val (Z.of_nat n).
Proof.
  intros Hnd. revert n. induction Hnd as [|y l Hy Hnd IH]; intros n; [discriminate|].
  destruct n as [|n]; simpl.
  - intros [= ->]. rewrite decide_True by reflexivity. reflexivity.
  - intros Hl. destruct (decide (x = y)) as [->|Hne].
    + exfalso. apply Hy. eapply list_elem_of_lookup_2. exact Hl.
    + rewrite (IH n Hl). simpl. f_equal. lia.
Qed.

Lemma index_not_elem {A} `{EqDecision A} (x : A) (l : list A) :
  x ∉ l -> index x l = Err ValueError.
Proof.
  induction l as [|y l IH]; intros Hx; simpl; [reflexivity|].
  rewrite not_elem_of_cons in Hx. destruct Hx as [Hne Hx].
  rewrite decide_False by exact Hne. rewrite (IH Hx). reflexivity.
Qed.

Lemma index_elem {A} `{EqDecision A} (x : A) (l : list A) :
  x ∈ l -> exists i, index x l = Val i.
Proof.
  induction l as [|y l IH]; intros Hx; [inversion Hx|]. simpl.
  destruct (decide (x = y)) as [->|Hne]; [eauto|].
  rewrite elem_of_cons in Hx. destruct Hx as [?|Hx]; [contradiction|].
  destruct (IH Hx) as [i ->]. simpl. eauto.
Qed.

Lemma next_phase_index (phases : list phase) (p q : phase) :
  NoDup phases -> next_phase_of phases p q ->
  exists i, index p phases = Val i /\ index q phases = Val (i + 1) /\ p <> q.
Proof.
  intros Hnd (n & Hp & Hq). exists (Z.of_nat n).
  rewrite (index_of_lookup p phases n Hnd Hp).
  rewrite (index_of_lookup q phases (S n) Hnd Hq).
  repeat split; [f_equal; lia|].
  intros ->. pose proof (NoDup_lookup _ _ _ _ Hnd Hp Hq). lia.
Qed.

Lemma index_next_phase (phases : list phase) (p q : phase) (i j : Z) :
  index p phases = Val i -> index q phases = Val j -> i = j - 1 ->
  next_phase_of phases p q.
Proof.
  intros Hp Hq ->. destruct (index_lookup _ _ _ Hp) as [Hi Hlp].
  destruct (index_lookup _ _ _ Hq) as [Hj Hlq].
  exists (Z.to_nat (j - 1)). split; [exact Hlp|].
  replace (S (Z.to_nat (j - 1))) with (Z.to_nat j) by lia. exact Hlq.
Qed.

(** ** In-memory updates *)

Lemma update_test_status_unfold (s : state) (test : string) (p : phase)
    (st : status) (old_phase : phase) (old_status : status) (i : Z) :
  _tests s !! test = Some (old_phase, old_status) ->
  index p (_phases (cfg s)) = Val i ->
  _update_test_status test p st s =
    (if decide (old_phase = p) then
       if bool_decide (old_status = PEND) then
         if bool_decide (st <> PEND)
         then Ret tt (set_tests (<[test := (p, st)]>) s)
         else Exc (CIMEError "Cannot transition from PEND -> PEND") s
       else Exc (CIMEError
              ("Only valid to transition from PEND to something else, found '"
                 +:+ status_name old_status +:+ "' for phase '"
                 +:+ phase_name p +:+ "'")) s
     else
       if bool_decide (old_status = PASS) then
         if bool_decide (st = PEND) then
           match index old_phase (_phases (cfg s)) with
           | Val j =>
               if j =? i - 1 then Ret tt (set_tests (<[test := (p, st)]>) s)
               else Exc (CIMEError ("Skipped phase? " +:+ phase_name old_phase
                                      +:+ " " +:+ pretty i)) s
           | Err e => Exc e s
           end
         else Exc (CIMEError "New phase should be set to pending status") s
       else Exc (CIMEError
              "Why did we move on to next phase when prior phase did not pass?") s).
Proof.
  intros Ht Hi. unfold _update_test_status, bind, get, lift, _get_test_data.
  rewrite Hi, Ht. simpl.
  destruct (decide (old_phase = p)); simpl.
  - destruct (bool_decide (old_status = PEND)); simpl; [|reflexivity].
    destruct (bool_decide (st <> PEND)); reflexivity.
  - destruct (bool_decide (old_status = PASS)); simpl; [|reflexivity].
    destruct (bool_decide (st = PEND)); simpl; [|reflexivity].
    destruct (index old_phase (_phases (cfg s))) as [j|e]; simpl; [|reflexivity].
    destruct (j =? i - 1); reflexivity.
Qed.

(** C2.  Every in-memory update goes through [_update_test_status], which
    accepts exactly two shapes: on the same phase, PEND becoming PASS or
    FAIL; or the immediate successor phase, entered with PEND after a PASS.
    Every other update raises and leaves the state as it was. *)
Theorem update_test_status_two_shapes (s : state) (test : string) (p : phase)
    (st : status) (old_phase : phase) (old_status : status) :
  NoDup (_phases (cfg s)) ->
  old_phase ∈ _phases (cfg s) ->
  _tests s !! test = Some (old_phase, old_status) ->
  (legal_update (_phases (cfg s)) (old_phase, old_status) (p, st) ->
   _update_test_status test p st s = Ret tt (set_tests (<[test := (p, st)]>) s)) /\
  (~ legal_update (_phases (cfg s)) (old_phase, old_status) (p, st) ->
   exists e, _update_test_status test p st s = Exc e s).
Proof.
  intros Hnd Hold Ht. unfold legal_update; simpl.
  destruct (decide (p ∈ _phases (cfg s))) as [Hp|Hp].
  - destruct (index_elem _ _ Hp) as [i Hi].
    destruct (index_elem _ _ Hold) as [j Hj].
    rewrite (update_test_status_unfold s test p st old_phase old_status i Ht Hi).
    rewrite Hj. split.
    + intros [(-> & -> & Hst) | (Hnext & -> & ->)].
      * rewrite decide_True by reflexivity. simpl.
        rewrite bool_decide_true; [reflexivity|].
        destruct Hst as [-> | ->]; discriminate.
      * destruct (next_phase_index _ _ _ Hnd Hnext) as (k & Hk & Hk' & Hne).
        rewrite decide_False by exact Hne. simpl.
        assert (j = k) by congruence. assert (i = k + 1) by congruence. subst.
        replace (k =? k + 1 - 1) with true by (symmetry; apply Z.eqb_eq; lia).
        reflexivity.
    + intros Hillegal. destruct (decide (old_phase = p)) as [->|Hne].
      * destruct old_status; simpl; eauto.
        destruct st; simpl; eauto; exfalso; apply Hillegal; left; eauto.
      * destruct old_status; simpl; eauto.
        destruct st; simpl; eauto.
        destruct (j =? i - 1) eqn:E; eauto.
        exfalso. apply Hillegal. right. repeat split.
        apply Z.eqb_eq in E. eapply index_next_phase; eauto.
  - split.
    + intros [(-> & _) | ((n & _ & Hq) & _)]; [contradiction|].
      exfalso. apply Hp. eapply list_elem_of_lookup_2. exact Hq.
    + intros _. exists ValueError.
      unfold _update_test_status, bind, get, lift.
      rewrite (index_not_elem _ _ Hp). reflexivity.
Qed.

Lemma update_test_status_two_shapes_witness :
  _update_test_status lead XML PASS (scenario (XML, PEND) (CREATE_NEWCASE, PASS))
  = Ret tt (set_tests (<[lead := (XML, PASS)]>)
              (scenario (XML, PEND) (CREATE_NEWCASE, PASS))).
Proof.
  apply (update_test_status_two_shapes
           (scenario (XML, PEND) (CREATE_NEWCASE, PASS)) lead XML PASS XML PEND).
  - apply (bool_decide_unpack _). vm_compute. exact I.
  - apply (bool_decide_unpack _). vm_compute. exact I.
  - vm_compute. reflexivity.
  - left. simpl. auto.
Defined.

(** ** Status queries *)

Lemma phase_before_index (phases : list phase) (p q : phase) :
  NoDup phases -> phase_before phases p q ->
  exists i j, index p phases = Val i /\ index q phases = Val j /\ i < j /\ p <> q.
Proof.
  intros Hnd (i & j & Hp & Hq & Hlt). exists (Z.of_nat i), (Z.of_nat j).
  rewrite (index_of_lookup p phases i Hnd Hp).
  rewrite (index_of_lookup q phases j Hnd Hq).
  repeat split; [lia|].
  intros ->. pose proof (NoDup_lookup _ _ _ _ Hnd Hp Hq). lia.
Qed.

Lemma get_test_status_current (s : state) (test : string) (curr_phase : phase)
    (curr_status : status) :
  _tests s !! test = Some (curr_phase, curr_status) ->
  _get_test_status s test (Some curr_phase) = Val curr_status.
Proof.
  intros Ht. unfold _get_test_status, _get_test_data. rewrite Ht. simpl.
  rewrite decide_True by reflexivity. reflexivity.
Qed.

Lemma get_test_status_future (s : state) (test : string) (curr_phase : phase)
    (curr_status : status) (p : phase) :
  NoDup (_phases (cfg s)) ->
  _tests s !! test = Some (curr_phase, curr_status) ->
  phase_before (_phases (cfg s)) curr_phase p ->
  _get_test_status s test (Some p) = Val PEND.
Proof.
  intros Hnd Ht Hb. destruct (phase_before_index _ _ _ Hnd Hb) as (i & j & Hi & Hj & Hlt & Hne).
  unfold _get_test_status, _get_test_data. rewrite Ht. simpl.
  rewrite decide_False by congruence. rewrite Hj, Hi. simpl.
  replace (j >? i) with true by (symmetry; apply Z.gtb_gt; lia). reflexivity.
Qed.

Lemma get_test_status_past (s : state) (test : string) (curr_phase : phase)
    (curr_status : status) (p : phase) :
  NoDup (_phases (cfg s)) ->
  _tests s !! test = Some (curr_phase, curr_status) ->
  phase_before (_phases (cfg s)) p curr_phase ->
  _get_test_status s test (Some p) = Val PASS.
Proof.
  intros Hnd Ht Hb. destruct (phase_before_index _ _ _ Hnd Hb) as (i & j & Hi & Hj & Hlt & Hne).
  unfold _get_test_status, _get_test_data. rewrite Ht. simpl.
  rewrite decide_False by congruence. rewrite Hj, Hi. simpl.
  destruct (i >? j) eqn:E; [apply Z.gtb_gt in E; lia | reflexivity].
Qed.

(** A failed test is never updated again. *)
Lemma update_test_status_after_fail (s : state) (test : string)
    (curr_phase : phase) (p : phase) (st : status) :
  _tests s !! test = Some (curr_phase, FAIL) ->
  exists e, _update_test_status test p st s = Exc e s.
Proof.
  intros Ht. unfold _update_test_status, bind, get, lift, _get_test_data.
  destruct (index p (_phases (cfg s))) as [i|e]; simpl; [|eauto].
  rewrite Ht. simpl. destruct (decide (curr_phase = p)); simpl; eauto.
Qed.

(** The gate of a follower, as a function of the leader's status. *)
Lemma get_procs_needed_follower (s : state) (test first_test : string)
    (group : list string) (p : phase) (st : status)
    (tif : option (gmap string (Z * phase))) (nb : bool) :
  _get_build_group s test = Val (false, first_test, group) ->
  p ∈ [XML; SHAREDLIB_BUILD; MODEL_BUILD] ->
  _get_test_status s first_test (Some p) = Val st ->
  _get_procs_needed s test p tif nb
  = Val (if bool_decide (st = PEND) then None else Some 1).
Proof.
  intros Hg Hp Hst. unfold _get_procs_needed. rewrite Hg. simpl.
  rewrite bool_decide_true by exact Hp. simpl. rewrite Hst. simpl.
  destruct (bool_decide (st = PEND)); reflexivity.
Qed.

(** C10.  A status query for a phase other than the test's current phase
    does not look at any history: a phase strictly after the current one is
    reported PEND, a phase strictly before it PASS, and only the current
    phase gives the stored status.  So a follower that asks for its leader's
    status at a gated phase after the phase where the leader failed sees
    PEND, is ineligible, and stays so because the failed leader is never
    updated again. *)
Theorem get_test_status_ignores_history (s : state) (test : string)
    (curr_phase : phase) (curr_status : status) :
  NoDup (_phases (cfg s)) ->
  _tests s !! test = Some (curr_phase, curr_status) ->
  _get_test_status s test (Some curr_phase) = Val curr_status /\
  (forall p, phase_before (_phases (cfg s)) curr_phase p ->
     _get_test_status s test (Some p) = Val PEND) /\
  (forall p, phase_before (_phases (cfg s)) p curr_phase ->
     _get_test_status s test (Some p) = Val PASS) /\
  (curr_status = FAIL ->
   (forall follower group p tif nb,
      _get_build_group s follower = Val (false, test, group) ->
      p ∈ [XML; SHAREDLIB_BUILD; MODEL_BUILD] ->
      phase_before (_phases (cfg s)) curr_phase p ->
      _get_procs_needed s follower p tif nb = Val None) /\
   (forall p st, exists e, _update_test_status test p st s = Exc e s)).
Proof.
  intros Hnd Ht. split; [|split; [|split]].
  - eapply get_test_status_current; eauto.
  - intros p Hb. eapply get_test_status_future; eauto.
  - intros p Hb. eapply get_test_status_past; eauto.
  - intros ->. split.
    + intros follower group p tif nb Hg Hp Hb.
      rewrite (get_procs_needed_follower s follower test group p PEND tif nb Hg Hp).
      * reflexivity.
      * eapply get_test_status_future; eauto.
    + intros p st. eapply update_test_status_after_fail; eauto.
Qed.

Lemma get_test_status_ignores_history_witness :
  _get_test_status (scenario (CREATE_NEWCASE, FAIL) (CREATE_NEWCASE, PASS))
    lead (Some XML) = Val PEND /\
  _get_procs_needed (scenario (CREATE_NEWCASE, FAIL) (CREATE_NEWCASE, PASS))
    follow XML (Some ∅) false = Val None.
Proof.
  pose proof (get_test_status_ignores_history
                (scenario (CREATE_NEWCASE, FAIL) (CREATE_NEWCASE, PASS))
                lead CREATE_NEWCASE FAIL) as H.
  destruct H as (_ & Hfut & _ & Hfail).
  - apply (bool_decide_unpack _). vm_compute. exact I.
  - vm_compute. reflexivity.
  - assert (Hb : phase_before PHASES CREATE_NEWCASE XML).
    { exists 1%nat, 2%nat. repeat split. lia. }
    split.
    + apply (Hfut XML Hb).
    + destruct (Hfail eq_refl) as [Hgate _].
      apply (Hgate follow [lead; follow] XML (Some ∅) false).
      * vm_compute. reflexivity.
      * apply (bool_decide_unpack _). vm_compute. exact I.
      * exact Hb.
Defined.

(** ** Build-group gate *)

Lemma launch_next_phase (phases : list phase) (p q : phase) :
  NoDup phases -> next_phase_of phases p q ->
  exists i, index p phases = Val i /\ subscript phases (i + 1) = Val q.
Proof.
  intros Hnd (n & Hp & Hq). exists (Z.of_nat n).
  rewrite (index_of_lookup p phases n Hnd Hp). split; [reflexivity|].
  unfold subscript. destruct (Z.of_nat n + 1 <? 0) eqn:E; [apply Z.ltb_lt in E; lia|].
  replace (Z.to_nat (Z.of_nat n + 1)) with (S n) by lia. rewrite Hq. reflexivity.
Qed.

Lemma xml_phase_follower (s : state) (test first_test : string)
    (group : list string) (recorded : option string) :
  env_test_raises (env (cfg s)) test = None ->
  _get_build_group s test = Val (false, first_test, group) ->
  _build_group_exeroots s !! group = Some recorded ->
  _xml_phase test s =
    match recorded with
    | None => Exc (CIMEError "Should already have exeroot") s
    | Some exeroot =>
        Ret (true, "") (scale_back test (set_case_exeroot (<[test := exeroot]>) s))
    end.
Proof.
  intros He Hg Hr. unfold _xml_phase, bind, get, lift. rewrite He. simpl.
  rewrite Hg, Hr. simpl. destruct recorded as [exeroot|]; simpl; [|reflexivity].
  unfold scale_back, when. simpl.
  destruct (_model_build_cost s >? _proc_pool (cfg s)); reflexivity.
Qed.


Lemma launch_ineligible (s : state) (test : string) (q p : phase) (st : status) :
  NoDup (_phases (cfg s)) ->
  _tests s !! test = Some (q, st) -> st <> PEND ->
  next_phase_of (_phases (cfg s)) q p ->
  _get_procs_needed s test p (Some (threads_in_flight s)) false = Val None ->
  _producer_indv_test_launch test s = Ret false s.
Proof.
  intros Hnd Ht Hst Hnext Hc.
  destruct (launch_next_phase _ _ _ Hnd Hnext) as (i & Hi & Hsub).
  unfold _producer_indv_test_launch, bind, get, lift, _get_test_data.
  rewrite Ht. simpl. rewrite bool_decide_true by exact Hst. simpl.
  rewrite Hi. simpl. rewrite Hsub. simpl. rewrite Hc. reflexivity.
Qed.

(** C1 (amended).  For a follower and a gated phase P: while the leader's
    status at P is PEND the cost query returns None and the launch decision
    leaves everything as it is; otherwise the cost is 1.  SHAREDLIB_BUILD and
    MODEL_BUILD of the follower run no command: with the leader at PASS they
    succeed at once (MODEL_BUILD only marks the build complete), otherwise
    they fail with "Cannot use build for test <leader> because it failed".
    XML of the follower is the ordinary XML phase followed by taking over
    the EXEROOT the leader recorded; it raises "Should already have exeroot"
    when none was recorded. *)
Theorem follower_gate (s : state) (follower leader : string)
    (group : list string) (p : phase) (st : status) :
  _get_build_group s follower = Val (false, leader, group) ->
  p ∈ [XML; SHAREDLIB_BUILD; MODEL_BUILD] ->
  _get_test_status s leader (Some p) = Val st ->
  (forall tif nb,
     _get_procs_needed s follower p tif nb
     = Val (match st with PEND => None | _ => Some 1 end)) /\
  (st = PEND ->
   forall q fst, NoDup (_phases (cfg s)) ->
     _tests s !! follower = Some (q, fst) -> fst <> PEND ->
     next_phase_of (_phases (cfg s)) q p ->
     _producer_indv_test_launch follower s = Ret false s) /\
  (p = SHAREDLIB_BUILD ->
   _sharedlib_build_phase follower s =
     Ret (match st with
          | PASS => (true, "")
          | _ => (false, "Cannot use build for test " +:+ leader +:+ " because it failed")
          end) s) /\
  (p = MODEL_BUILD ->
   _model_build_phase follower s =
     match st with
     | PASS => Ret (true, "") (emit (EvPostBuild follower) s)
     | _ => Ret (false, "Cannot use build for test " +:+ leader +:+ " because it failed") s
     end) /\
  (p = XML ->
   env_test_raises (env (cfg s)) follower = None ->
   forall recorded, _build_group_exeroots s !! group = Some recorded ->
   _xml_phase follower s =
     match recorded with
     | None => Exc (CIMEError "Should already have exeroot") s
     | Some exeroot =>
         Ret (true, "")
           (scale_back follower (set_case_exeroot (<[follower := exeroot]>) s))
     end).
Proof.
  intros Hg Hp Hst.
  assert (Hcost : forall tif nb, _get_procs_needed s follower p tif nb
                   = Val (match st with PEND => None | _ => Some 1 end)).
  { intros tif nb.
    rewrite (get_procs_needed_follower s follower leader group p st tif nb Hg Hp Hst).
    destruct st; reflexivity. }
  split; [exact Hcost|]. split; [|split; [|split]].
  - intros -> q fst Hnd Ht Hfst Hnext.
    eapply launch_ineligible; eauto.
  - intros ->. unfold _sharedlib_build_phase, bind, get, lift.
    rewrite Hg. simpl. rewrite Hst. simpl. destruct st; reflexivity.
  - intros ->. unfold _model_build_phase, bind, get, lift.
    rewrite Hg. simpl. rewrite Hst. simpl. destruct st; reflexivity.
  - intros -> He recorded Hr. eapply xml_phase_follower; eauto.
Qed.

Lemma follower_gate_witness :
  _sharedlib_build_phase follow (scenario (SHAREDLIB_BUILD, FAIL) (SHAREDLIB_BUILD, PEND))
  = Ret (false, "Cannot use build for test SMS.f09_g16.A because it failed")
      (scenario (SHAREDLIB_BUILD, FAIL) (SHAREDLIB_BUILD, PEND)).
Proof.
  destruct (follower_gate (scenario (SHAREDLIB_BUILD, FAIL) (SHAREDLIB_BUILD, PEND))
              follow lead [lead; follow] SHAREDLIB_BUILD FAIL)
    as (_ & _ & Hsharedlib & _).
  - vm_compute. reflexivity.
  - apply (bool_decide_unpack _). vm_compute. exact I.
  - vm_compute. reflexivity.
  - exact (Hsharedlib eq_refl).
Defined.

(** C1 as stated fails for P = XML: with the leader failed at XML (before it
    recorded an EXEROOT), the follower's XML phase does not fail with "Cannot
    use build for test ..."; the worker reports the exception of the
    "Should already have exeroot" check. *)
Lemma follower_gate_xml_counterexample :
  _get_build_group (scenario (XML, FAIL) (XML, PEND)) follow
    = Val (false, lead, [lead; follow]) /\
  _get_test_status (scenario (XML, FAIL) (XML, PEND)) lead (Some XML) = Val FAIL /\
  _get_procs_needed (scenario (XML, FAIL) (XML, PEND)) follow XML (Some ∅) false
    = Val (Some 1) /\
  exists msg s',
    _run_catch_exceptions follow XML _xml_phase (scenario (XML, FAIL) (XML, PEND))
      = Ret (false, msg) s' /\
    msg = "Test 'ERS.f09_g16.A' failed in phase 'XML' with exception 'ERROR: Should already have exeroot'" +:+ nl /\
    msg <> "Cannot use build for test SMS.f09_g16.A because it failed".
Proof.
  split; [vm_compute; reflexivity|]. split; [vm_compute; reflexivity|].
  split; [vm_compute; reflexivity|].
  eexists _, _. split; [vm_compute; reflexivity|].
  split; [vm_compute; reflexivity|]. discriminate.
Qed.

(** ** The runner's retry loop *)

Lemma count_app (f : event -> bool) (tr1 tr2 : list event) :
  count f (tr1 ++ tr2) = (count f tr1 + count f tr2)%nat.
Proof. unfold count. rewrite List.filter_app, length_app. reflexivity. Qed.

Lemma status_writes_app (tr1 tr2 : list event) :
  status_writes (tr1 ++ tr2) = status_writes tr1 ++ status_writes tr2.
Proof.
  induction tr1 as [|ev tr1 IH]; [reflexivity|].
  destruct ev; simpl; rewrite IH; reflexivity.
Qed.

Lemma shell_cmd_loop_retries (test cmd : string) (p : phase)
    (final : Z * string * string) (rest : list (Z * string * string))
    (bads : list (Z * string * string)) :
  Forall (fun r => transient r = true) bads ->
  transient final = false ->
  forall (fuel : nat) (s : state),
    (length bads < fuel)%nat ->
    subprocess s !! test = Some (bads ++ final :: rest) ->
    exists s',
      shell_cmd_loop fuel test cmd p s = Ret (final.1.1 =? 0, final.2) s' /\
      subprocess s' !! test = Some rest /\
      count is_run (trace s') = (count is_run (trace s) + length bads + 1)%nat /\
      count is_sleep (trace s') = (count is_sleep (trace s) + length bads)%nat /\
      status_writes (trace s') = status_writes (trace s) /\
      _tests s' = _tests s /\ cfg s' = cfg s.
Proof.
  intros Hbads Hfinal. induction Hbads as [|r bads Hr Hbads IH]; intros fuel s Hfuel Hsub.
  - destruct fuel as [|fuel]; [simpl in Hfuel; lia|].
    destruct final as [[rc output] errput]. simpl in Hsub |- *.
    unfold bind, run_cmd. rewrite Hsub. simpl.
    unfold transient in Hfinal. simpl in Hfinal.
    destruct (rc =? 0) eqn:Erc; simpl in *.
    + eexists. split; [reflexivity|]. simpl. rewrite lookup_insert_eq.
      rewrite !count_app, !status_writes_app. simpl.
      rewrite !app_nil_r. unfold count. simpl. repeat split; lia.
    + rewrite Hfinal. eexists. split; [reflexivity|]. simpl. rewrite lookup_insert_eq.
      rewrite !count_app, !status_writes_app. simpl.
      rewrite !app_nil_r. unfold count. simpl. repeat split; lia.
  - destruct fuel as [|fuel]; [simpl in Hfuel; lia|].
    destruct r as [[rc output] errput]. simpl in Hsub, Hfuel |- *.
    unfold bind at 1. unfold run_cmd. rewrite Hsub. simpl.
    unfold transient in Hr. simpl in Hr. apply andb_prop in Hr as [Hrc Hout].
    rewrite Hrc. unfold bind at 1. simpl. rewrite Hout.
    unfold bind at 1. simpl.
    match goal with |- context [shell_cmd_loop fuel test cmd p ?s1] =>
      destruct (IH fuel s1) as (s' & Hrun & Hsub' & Hruns & Hsleeps & Hwr & Ht & Hc)
    end.
    + lia.
    + simpl. rewrite lookup_insert_eq. reflexivity.
    + exists s'. split; [exact Hrun|]. split; [exact Hsub'|].
      simpl in Hruns, Hsleeps, Hwr, Ht, Hc.
      rewrite !count_app in Hruns, Hsleeps. rewrite !status_writes_app in Hwr.
      unfold count in *. simpl in Hruns, Hsleeps, Hwr. rewrite !app_nil_r in Hwr.
      repeat split; try assumption; lia.
Qed.

(** C4 (amended).  A failed invocation whose output contains "bad
    interpreter" is followed by a one-second sleep and another invocation,
    and this repeats after every such failure: after [k] of them in a row the
    command has been invoked [k + 1] times, and the phase returns what the
    first other invocation gives, True if it exits with 0 and False with its
    error output if not. *)
Theorem shell_cmd_retries_every_time (s : state) (test cmd : string) (p : phase)
    (bads : list (Z * string * string)) (final : Z * string * string)
    (rest : list (Z * string * string)) :
  subprocess s !! test = Some (bads ++ final :: rest) ->
  Forall (fun r => transient r = true) bads ->
  transient final = false ->
  exists s',
    _shell_cmd_for_phase test cmd p s = Ret (final.1.1 =? 0, final.2) s' /\
    subprocess s' !! test = Some rest /\
    count is_run (trace s') = (count is_run (trace s) + length bads + 1)%nat /\
    count is_sleep (trace s') = (count is_sleep (trace s) + length bads)%nat.
Proof.
  intros Hsub Hbads Hfinal. unfold _shell_cmd_for_phase, pending_results.
  rewrite Hsub. simpl.
  destruct (shell_cmd_loop_retries test cmd p final rest bads Hbads Hfinal
              (S (length (bads ++ final :: rest))) s)
    as (s' & Hrun & Hsub' & Hruns & Hsleeps & _).
  - rewrite length_app. simpl. lia.
  - exact Hsub.
  - exists s'. auto.
Qed.

Lemma shell_cmd_retries_every_time_witness :
  exists s',
    _shell_cmd_for_phase lead "./case.setup" SETUP
      (with_results [(126, "sh: ./case.setup: bad interpreter", "busy");
                     (126, "sh: ./case.setup: bad interpreter", "busy");
                     (1, "no such grid", "ERROR: no such grid")]
         (scenario (SETUP, PEND) (XML, PASS)))
    = Ret (false, "ERROR: no such grid") s' /\
    count is_run (trace s') = 3%nat.
Proof.
  destruct (shell_cmd_retries_every_time
              (with_results [(126, "sh: ./case.setup: bad interpreter", "busy");
                             (126, "sh: ./case.setup: bad interpreter", "busy");
                             (1, "no such grid", "ERROR: no such grid")]
                 (scenario (SETUP, PEND) (XML, PASS)))
              lead "./case.setup" SETUP
              [(126, "sh: ./case.setup: bad interpreter", "busy");
               (126, "sh: ./case.setup: bad interpreter", "busy")]
              (1, "no such grid", "ERROR: no such grid") [])
    as (s' & Hrun & _ & Hruns & _).
  - vm_compute. reflexivity.
  - repeat constructor.
  - vm_compute. reflexivity.
  - exists s'. split; [exact Hrun | exact Hruns].
Defined.

(** C4 as stated fails: when the re-invocation fails with "bad interpreter"
    in its output too, the runner does not return failure; it sleeps and
    invokes the command a third time, and here returns that run's success. *)
Lemma shell_cmd_retry_once_counterexample :
  exists s',
    _shell_cmd_for_phase lead "./case.setup" SETUP
      (with_results [(126, "sh: ./case.setup: bad interpreter", "busy");
                     (126, "sh: ./case.setup: bad interpreter", "busy again");
                     (0, "done", "")]
         (scenario (SETUP, PEND) (XML, PASS)))
    = Ret (true, "") s' /\
    count is_run (trace s') = 3%nat /\
    count is_sleep (trace s') = 2%nat.
Proof.
  eexists. split; [vm_compute; reflexivity|]. split; vm_compute; reflexivity.
Qed.

(** ** Statuses kept in a TestStatus file *)

Lemma get_set_status (ts : TestStatus) (p : phase) (st : status)
    (comments : option string) :
  get_status (set_status ts p st comments) p = Some (st, comments).
Proof.
  induction ts as [|[q d] ts IH]; simpl.
  - rewrite decide_True by reflexivity. reflexivity.
  - destruct (decide (q = p)) as [->|Hne]; simpl.
    + rewrite decide_True by reflexivity. reflexivity.
    + rewrite decide_False by exact Hne. exact IH.
Qed.

Lemma get_set_status_ne (ts : TestStatus) (p q : phase) (st : status)
    (comments : option string) :
  p <> q -> get_status (set_status ts p st comments) q = get_status ts q.
Proof.
  intros Hne. induction ts as [|[r d] ts IH]; simpl.
  - rewrite decide_False by exact Hne. reflexivity.
  - destruct (decide (r = p)) as [->|Hrp]; simpl.
    + rewrite !decide_False by exact Hne. reflexivity.
    + destruct (decide (r = q)); [reflexivity | exact IH].
Qed.

(** ** A phase that can never fit *)

Lemma launch_unfold (s : state) (test : string) (q next : phase) (st : status)
    (c : option Z) :
  NoDup (_phases (cfg s)) ->
  _tests s !! test = Some (q, st) -> st <> PEND ->
  next_phase_of (_phases (cfg s)) q next ->
  _get_procs_needed s test next (Some (threads_in_flight s)) false = Val c ->
  _producer_indv_test_launch test s =
    match c with
    | None => Ret false s
    | Some procs_needed =>
        if procs_needed >? _proc_pool (cfg s) then
          (let msg := more_than_pool_msg test next procs_needed in
           expect (bool_decide (next = RUN)) msg ;;
           _update_test_status_file test SUBMIT PASS ;;
           _update_test_status_file test RUN FAIL ;;
           _update_test_status test next PEND ;;
           _update_test_status test next FAIL ;;
           modify (emit (EvLoggerWarning msg)) ;;
           _log_output test msg ;;
           ret true) s
        else if procs_needed <=? _procs_avail s then
          (modify (set_procs_avail (fun avail => avail - procs_needed)) ;;
           _update_test_status test next PEND ;;
           modify (set_threads_in_flight (<[test := (procs_needed, next)]>)) ;;
           modify (emit (EvThreadStart test next)) ;;
           ret true) s
        else Ret false s
    end.
Proof.
  intros Hnd Ht Hst Hnext Hc.
  destruct (launch_next_phase _ _ _ Hnd Hnext) as (i & Hi & Hsub).
  unfold _producer_indv_test_launch. unfold bind at 1. unfold get at 1.
  unfold bind at 1. unfold lift at 1, _get_test_data. rewrite Ht.
  unfold bind at 1. unfold expect at 1. rewrite bool_decide_true by exact Hst.
  unfold ret at 1. unfold bind at 1. unfold lift at 1. rewrite Hi.
  unfold bind at 1. unfold lift at 1. rewrite Hsub.
  unfold bind at 1. unfold lift at 1. rewrite Hc.
  destruct c as [procs_needed|]; [|reflexivity].
  destruct (procs_needed >? _proc_pool (cfg s)); [reflexivity|].
  destruct (procs_needed <=? _procs_avail s); reflexivity.
Qed.

Lemma update_enter (s : state) (test : string) (q next : phase) :
  NoDup (_phases (cfg s)) ->
  _tests s !! test = Some (q, PASS) ->
  next_phase_of (_phases (cfg s)) q next ->
  _update_test_status test next PEND s
  = Ret tt (set_tests (<[test := (next, PEND)]>) s).
Proof.
  intros Hnd Ht Hnext.
  destruct (next_phase_index _ _ _ Hnd Hnext) as (i & Hi & Hi' & Hne).
  rewrite (update_test_status_unfold s test next PEND q PASS (i + 1) Ht Hi').
  rewrite decide_False by exact Hne. simpl. rewrite Hi.
  replace (i =? i + 1 - 1) with true by (symmetry; apply Z.eqb_eq; lia).
  reflexivity.
Qed.

Lemma update_finish (s : state) (test : string) (p : phase) (st : status) :
  p ∈ _phases (cfg s) ->
  _tests s !! test = Some (p, PEND) ->
  st <> PEND ->
  _update_test_status test p st s = Ret tt (set_tests (<[test := (p, st)]>) s).
Proof.
  intros Hp Ht Hst. destruct (index_elem _ _ Hp) as [i Hi].
  rewrite (update_test_status_unfold s test p st p PEND i Ht Hi).
  rewrite decide_True by reflexivity. simpl.
  rewrite bool_decide_true by exact Hst. reflexivity.
Qed.

(** Over budget at RUN: the launch decision fails the test on the spot. *)
Lemma launch_over_budget_run (s : state) (test : string) (q : phase) (c : Z) :
  NoDup (_phases (cfg s)) ->
  _tests s !! test = Some (q, PASS) ->
  next_phase_of (_phases (cfg s)) q RUN ->
  _get_procs_needed s test RUN (Some (threads_in_flight s)) false = Val (Some c) ->
  c > _proc_pool (cfg s) ->
  exists s',
    _producer_indv_test_launch test s = Ret true s' /\
    _tests s' = <[test := (RUN, FAIL)]> (_tests s) /\
    (exists ts, status_files s' !! test = Some ts /\
                get_status ts SUBMIT = Some (PASS, None) /\
                get_status ts RUN = Some (FAIL, None)) /\
    (forall t, t <> test -> status_files s' !! t = status_files s !! t) /\
    trace s' = trace s ++ [EvStatusWrite test SUBMIT PASS None;
                           EvStatusWrite test RUN FAIL None;
                           EvLoggerWarning (more_than_pool_msg test RUN c);
                           EvTestLog test (more_than_pool_msg test RUN c)] /\
    threads_in_flight s' = threads_in_flight s /\
    _procs_avail s' = _procs_avail s.
Proof.
  intros Hnd Ht Hnext Hc Hgt.
  rewrite (launch_unfold s test q RUN PASS (Some c) Hnd Ht ltac:(discriminate) Hnext Hc).
  replace (c >? _proc_pool (cfg s)) with true by (symmetry; apply Z.gtb_gt; lia).
  unfold bind at 1. unfold expect.
  rewrite bool_decide_true by reflexivity. unfold ret at 1.
  unfold bind at 1. unfold _update_test_status_file at 1, ts_set_status, modify.
  unfold bind at 1. unfold _update_test_status_file at 1, ts_set_status, modify.
  unfold bind at 1.
  match goal with |- context [_update_test_status test RUN PEND ?s2] =>
    rewrite (update_enter s2 test q RUN Hnd Ht Hnext)
  end.
  unfold bind at 1.
  match goal with |- context [_update_test_status test RUN FAIL ?s3] =>
    rewrite (update_finish s3 test RUN FAIL)
  end.
  - eexists. split; [reflexivity|]. simpl.
    rewrite insert_insert_eq, !lookup_insert_eq.
    split; [reflexivity|]. split; [|split; [|split]].
    + eexists. split; [reflexivity|].
      rewrite get_set_status_ne by discriminate. simpl.
      rewrite !get_set_status. auto.
    + intros t Hne. rewrite !lookup_insert_ne by congruence. reflexivity.
    + rewrite <- !app_assoc. reflexivity.
    + auto.
  - simpl. destruct Hnext as (n & _ & Hn). eapply list_elem_of_lookup_2. exact Hn.
  - simpl. apply lookup_insert_eq.
  - discriminate.
Qed.

(** C5.  When the cost of the next phase exceeds the whole pool, the phase
    has to be RUN: for any other phase the launch raises.  For RUN nothing
    is started; SUBMIT=PASS and RUN=FAIL are written to the test's status
    file, the test becomes (RUN, FAIL) in memory, the message is logged, and
    the launch returns normally, with the cores, the workers in flight and
    the other tests as they were. *)
Theorem launch_over_budget (s : state) (test : string) (q next : phase) (c : Z) :
  NoDup (_phases (cfg s)) ->
  _tests s !! test = Some (q, PASS) ->
  next_phase_of (_phases (cfg s)) q next ->
  _get_procs_needed s test next (Some (threads_in_flight s)) false = Val (Some c) ->
  c > _proc_pool (cfg s) ->
  (next <> RUN ->
   _producer_indv_test_launch test s
   = Exc (CIMEError (more_than_pool_msg test next c)) s) /\
  (next = RUN ->
   exists s',
     _producer_indv_test_launch test s = Ret true s' /\
     _tests s' = <[test := (RUN, FAIL)]> (_tests s) /\
     (exists ts, status_files s' !! test = Some ts /\
                 get_status ts SUBMIT = Some (PASS, None) /\
                 get_status ts RUN = Some (FAIL, None)) /\
     (forall t, t <> test -> status_files s' !! t = status_files s !! t) /\
     trace s' = trace s ++ [EvStatusWrite test SUBMIT PASS None;
                            EvStatusWrite test RUN FAIL None;
                            EvLoggerWarning (more_than_pool_msg test RUN c);
                            EvTestLog test (more_than_pool_msg test RUN c)] /\
     threads_in_flight s' = threads_in_flight s /\
     _procs_avail s' = _procs_avail s).
Proof.
  intros Hnd Ht Hnext Hc Hgt. split.
  - intros Hne.
    rewrite (launch_unfold s test q next PASS (Some c) Hnd Ht ltac:(discriminate) Hnext Hc).
    replace (c >? _proc_pool (cfg s)) with true by (symmetry; apply Z.gtb_gt; lia).
    unfold bind at 1. unfold expect.
    rewrite bool_decide_false by exact Hne. reflexivity.
  - intros ->. eapply launch_over_budget_run; eauto.
Qed.

Lemma launch_over_budget_witness :
  exists s',
    _producer_indv_test_launch lead (small_pool (MODEL_BUILD, PASS) (SETUP, PASS))
    = Ret true s' /\
    _tests s' !! lead = Some (RUN, FAIL).
Proof.
  destruct (launch_over_budget (small_pool (MODEL_BUILD, PASS) (SETUP, PASS))
              lead MODEL_BUILD RUN 4) as [_ Hrun].
  - apply (bool_decide_unpack _). vm_compute. exact I.
  - vm_compute. reflexivity.
  - exists 5%nat. split; reflexivity.
  - vm_compute. reflexivity.
  - simpl. lia.
  - destruct (Hrun eq_refl) as (s' & Hlaunch & Htests & _).
    exists s'. split; [exact Hlaunch|]. rewrite Htests. apply lookup_insert_eq.
Defined.

(** ** The worker after its phase routine *)

Lemma bind_ret {A B} (m : M A) (k : A -> M B) (s s' : state) (a : A) :
  m s = Ret a s' -> bind m k s = k a s'.
Proof. intros H. unfold bind. rewrite H. reflexivity. Qed.

Lemma when_modify (b : bool) (f : state -> state) (s : state) :
  when b (modify f) s = Ret tt (if b then f s else s).
Proof. destruct b; reflexivity. Qed.

Lemma get_build_group_cfg (s s' : state) (test : string) :
  cfg s = cfg s' -> _get_build_group s test = _get_build_group s' test.
Proof. intros H. unfold _get_build_group. rewrite H. reflexivity. Qed.

Lemma work_remains_val (s : state) (test : string) (p : phase) (st : status) :
  _tests s !! test = Some (p, st) -> p ∈ _phases (cfg s) ->
  exists r, _work_remains s test = Val r.
Proof.
  intros Ht Hp. unfold _work_remains, _get_test_data, subscript_last.
  rewrite Ht. simpl.
  destruct (last (_phases (cfg s))) as [l|] eqn:El.
  - destruct (bool_decide (st = PASS) || bool_decide (st = PEND)); simpl; eauto.
  - apply last_None in El. rewrite El in Hp. inversion Hp.
Qed.

(** The status [_consumer] computes from the outcome of the phase routine. *)
Lemma consumer_body_post
    (rec : string -> phase -> (string -> M (bool * string)) -> M unit)
    (s : state) (test : string) (p : phase)
    (method : string -> M (bool * string)) (success : bool) (errors : string)
    (s1 : state) (is_first : bool) (first : string) (group : list string) :
  _run_catch_exceptions test p method s = Ret (success, errors) s1 ->
  _tests s1 !! test = Some (p, PEND) ->
  p ∈ _phases (cfg s1) ->
  _get_build_group s1 test = Val (is_first, first, group) ->
  let st := if success then
              if bool_decide (p = RUN) && negb (_no_batch (cfg s1)) then PEND else PASS
            else FAIL in
  let owned := bool_decide (p ∈ [CREATE_NEWCASE; XML])
               || (negb is_first && bool_decide (p ∈ [SHAREDLIB_BUILD; MODEL_BUILD])) in
  exists s5,
    consumer_body rec test p method s =
      when (success && negb (_no_run (cfg s1)) && negb (_no_batch (cfg s1))
            && bool_decide (p = MODEL_BUILD))
        (lift (_get_procs_needed s5 test RUN None true) ;;
         _update_test_status test RUN PEND ;;
         rec test RUN _run_phase) s5 /\
    cfg s5 = cfg s1 /\
    _tests s5 = (if bool_decide (st <> PEND) then <[test := (p, st)]> (_tests s1)
                 else _tests s1) /\
    trace s5 = trace s1
               ++ (if owned then [EvStatusWrite test p st None] else [])
               ++ (if bool_decide (p = XML) then [EvReadme test] else []) /\
    status_files s5 =
      (if owned
       then <[test := set_status (default [] (status_files s1 !! test)) p st None]>
              (status_files s1)
       else status_files s1) /\
    threads_in_flight s5 = threads_in_flight s1 /\
    subprocess s5 = subprocess s1 /\
    _procs_avail s5 = _procs_avail s1 /\
    _model_build_cost s5 = _model_build_cost s1.
Proof.
  intros Hrun Ht Hp Hg st owned.
  set (s2 := if bool_decide (st <> PEND) then set_tests (<[test := (p, st)]>) s1 else s1).
  assert (Hupd : when (bool_decide (st <> PEND)) (_update_test_status test p st) s1
                 = Ret tt s2).
  { subst s2. destruct (bool_decide (st <> PEND)) eqn:E; [|reflexivity].
    apply bool_decide_eq_true in E. simpl. apply update_finish; assumption. }
  assert (Ht2 : _tests s2 !! test = Some (p, st)).
  { subst s2. destruct (bool_decide (st <> PEND)) eqn:E; simpl.
    - apply lookup_insert_eq.
    - apply bool_decide_eq_false in E. destruct (decide (st = PEND)) as [->|]; [exact Ht|].
      contradiction. }
  assert (Hc2 : cfg s2 = cfg s1).
  { subst s2. destruct (bool_decide (st <> PEND)); reflexivity. }
  destruct (work_remains_val s2 test p st Ht2) as [r Hr]; [rewrite Hc2; exact Hp|].
  set (s3 := if negb r then set_completed_tests (fun n => n + 1) s2 else s2).
  assert (Hc3 : cfg s3 = cfg s1).
  { subst s3. destruct (negb r); [simpl|]; exact Hc2. }
  set (s4 := if owned
             then emit (EvStatusWrite test p st None)
                    (set_status_files
                       (<[test := set_status (default [] (status_files s3 !! test)) p st None]>)
                       s3)
             else s3).
  set (s5 := if bool_decide (p = XML) then emit (EvReadme test) s4 else s4).
  assert (Hc5 : cfg s5 = cfg s1).
  { subst s5 s4. destruct (bool_decide (p = XML)), owned; simpl; exact Hc3. }
  exists s5. split.
  - unfold consumer_body.
    rewrite (bind_ret _ _ s s1 (success, errors) Hrun).
    rewrite (bind_ret get _ s1 s1 s1 eq_refl).
    fold st. rewrite (bind_ret _ _ s1 s2 tt Hupd).
    rewrite (bind_ret get _ s2 s2 s2 eq_refl).
    rewrite (bind_ret (lift (_work_remains s2 test)) _ s2 s2 r)
      by (unfold lift; rewrite Hr; reflexivity).
    rewrite (bind_ret _ _ s2 s3 tt (when_modify _ _ _)).
    rewrite (bind_ret get _ s3 s3 s3 eq_refl).
    rewrite (bind_ret (lift (_get_build_group s3 test)) _ s3 s3 (is_first, first, group))
      by (unfold lift; rewrite (get_build_group_cfg s3 s1 test Hc3), Hg; reflexivity).
    fold owned.
    unfold _update_test_status_file, ts_set_status.
    rewrite (bind_ret _ _ s3 s4 tt (when_modify _ _ _)).
    rewrite (bind_ret _ _ s4 s5 tt (when_modify _ _ _)).
    rewrite (bind_ret get _ s5 s5 s5 eq_refl).
    rewrite Hc5. reflexivity.
  - split; [exact Hc5|].
    subst s5 s4 s3 s2.
    destruct (bool_decide (p = XML)), owned, (negb r), (bool_decide (st <> PEND));
      simpl; rewrite ?app_nil_r, <- ?app_assoc; repeat split; reflexivity.
Qed.

Lemma bind_ext_on {A B} (m : M A) (k k' : A -> M B) (s : state) :
  (forall a s', m s = Ret a s' -> k a s' = k' a s') ->
  bind m k s = bind m k' s.
Proof.
  intros H. unfold bind. destruct (m s) as [a s'| |]; [|reflexivity..].
  apply H. reflexivity.
Qed.

(** A worker that runs RUN chains no further, whatever [_consumer] is
    bound to. *)
Lemma consumer_body_RUN
    (rec rec' : string -> phase -> (string -> M (bool * string)) -> M unit)
    (test : string) (method : string -> M (bool * string)) (s : state) :
  consumer_body rec test RUN method s = consumer_body rec' test RUN method s.
Proof.
  unfold consumer_body.
  apply bind_ext_on. intros [success errors] s1 _.
  apply bind_ext_on. intros s1' ? _.
  apply bind_ext_on. intros [] s2 _.
  apply bind_ext_on. intros s2' ? _.
  apply bind_ext_on. intros remains ? _.
  apply bind_ext_on. intros [] s3 _.
  apply bind_ext_on. intros s3' ? _.
  apply bind_ext_on. intros [[is_first ?] ?] ? _.
  apply bind_ext_on. intros [] s4 _.
  apply bind_ext_on. intros [] s5 _.
  apply bind_ext_on. intros s5' ? _.
  rewrite bool_decide_false by discriminate. rewrite andb_false_r. reflexivity.
Qed.

(** Two levels of [_consumer] are all the recursion there is. *)
Lemma consumer_depth_enough (n : nat) (test : string) (p : phase)
    (method : string -> M (bool * string)) (s : state) :
  consumer_depth (2 + n) test p method s = _consumer test p method s.
Proof.
  unfold _consumer. simpl. unfold consumer_body at 1 3.
  apply bind_ext_on. intros [success errors] s1 _.
  apply bind_ext_on. intros s1' ? _.
  apply bind_ext_on. intros [] s2 _.
  apply bind_ext_on. intros s2' ? _.
  apply bind_ext_on. intros remains ? _.
  apply bind_ext_on. intros [] s3 _.
  apply bind_ext_on. intros s3' ? _.
  apply bind_ext_on. intros [[is_first ?] ?] ? _.
  apply bind_ext_on. intros [] s4 _.
  apply bind_ext_on. intros [] s5 _.
  apply bind_ext_on. intros s5' ? _.
  destruct (success && negb (_no_run (cfg s5')) && negb (_no_batch (cfg s5'))
            && bool_decide (p = MODEL_BUILD)); [|reflexivity].
  simpl. apply bind_ext_on. intros ? ? _. apply bind_ext_on. intros [] ? _.
  apply consumer_body_RUN.
Qed.

Lemma consumer_chained_RUN (test : string) (method : string -> M (bool * string))
    (s : state) :
  consumer_depth 1 test RUN method s = _consumer test RUN method s.
Proof. unfold _consumer. simpl. apply consumer_body_RUN. Qed.

(** ** Status writes of the RUN routine *)

Lemma shell_cmd_loop_frame (test cmd : string) (p : phase) (fuel : nat) :
  forall (s s' : state) (r : bool * string),
    shell_cmd_loop fuel test cmd p s = Ret r s' ->
    status_writes (trace s') = status_writes (trace s) /\
    status_files s' = status_files s /\ _tests s' = _tests s /\ cfg s' = cfg s.
Proof.
  induction fuel as [|fuel IH]; intros s s' r; simpl; [discriminate|].
  unfold bind at 1. unfold run_cmd.
  destruct (subprocess s !! test) as [[|[[rc output] errput] rest]|]; try discriminate.
  destruct (rc =? 0); simpl.
  - unfold bind, _log_output, modify, ret. intros [= <- <-]. simpl.
    rewrite !status_writes_app. simpl. rewrite !app_nil_r. auto.
  - unfold bind at 1. unfold _log_output at 1, modify at 1.
    destruct (str_contains "bad interpreter" output).
    + unfold bind at 1. unfold sleep, modify. intros Hrun.
      apply IH in Hrun. simpl in Hrun.
      rewrite !status_writes_app in Hrun. simpl in Hrun.
      rewrite !app_nil_r in Hrun. exact Hrun.
    + unfold ret. intros [= <- <-]. simpl.
      rewrite !status_writes_app. simpl. rewrite !app_nil_r. auto.
Qed.

Lemma run_phase_skipped (s : state) (test : string) (opts : list string) :
  case_opts_of (env (cfg s)) test = Some opts -> "B" ∈ opts ->
  exists s',
    _run_phase test s = Ret (true, "SKIPPED") s' /\
    status_writes (trace s')
    = status_writes (trace s) ++ [(test, SUBMIT, PASS); (test, RUN, PASS)].
Proof.
  intros Ho HB. unfold _run_phase. unfold bind at 1. unfold get at 1.
  rewrite Ho. rewrite bool_decide_true by exact HB.
  eexists. split; [reflexivity|]. simpl.
  rewrite !status_writes_app. simpl. rewrite app_nil_r, <- app_assoc. reflexivity.
Qed.

Lemma run_phase_submits (s s' : state) (test : string) (r : bool * string) :
  (forall opts, case_opts_of (env (cfg s)) test = Some opts -> "B" ∉ opts) ->
  _run_phase test s = Ret r s' ->
  status_writes (trace s') = status_writes (trace s).
Proof.
  intros Ho. unfold _run_phase. unfold bind at 1. unfold get at 1.
  destruct (case_opts_of (env (cfg s)) test) as [opts|] eqn:E.
  - rewrite bool_decide_false by (apply Ho; reflexivity).
    unfold _shell_cmd_for_phase. intros Hrun.
    apply shell_cmd_loop_frame in Hrun. apply Hrun.
  - unfold _shell_cmd_for_phase. intros Hrun.
    apply shell_cmd_loop_frame in Hrun. apply Hrun.
Qed.


(** C6 (amended).  Once the phase routine has returned, the worker writes
    the phase's resulting status to the TestStatus file exactly when the
    phase is CREATE_NEWCASE or XML, or the test is not the leader of its
    build group and the phase is SHAREDLIB_BUILD or MODEL_BUILD; for any
    other phase the worker itself leaves the file alone.  The scheduler
    writes the file in other places too: the RUN routine writes SUBMIT=PASS
    and RUN=PASS for a test with option B (and nothing otherwise), and the
    launch decision writes SUBMIT=PASS and RUN=FAIL for a RUN that exceeds
    the pool. *)
Theorem consumer_status_writes (s : state) (test : string) (p : phase)
    (method : string -> M (bool * string)) (success : bool) (errors : string)
    (s1 : state) (is_first : bool) (first : string) (group : list string) :
  _run_catch_exceptions test p method s = Ret (success, errors) s1 ->
  _tests s1 !! test = Some (p, PEND) ->
  p ∈ _phases (cfg s1) ->
  _get_build_group s1 test = Val (is_first, first, group) ->
  let st := if success then
              if bool_decide (p = RUN) && negb (_no_batch (cfg s1)) then PEND else PASS
            else FAIL in
  let owned := p = CREATE_NEWCASE \/ p = XML \/
               (is_first = false /\ (p = SHAREDLIB_BUILD \/ p = MODEL_BUILD)) in
  (exists s5,
     _consumer test p method s =
       when (success && negb (_no_run (cfg s1)) && negb (_no_batch (cfg s1))
             && bool_decide (p = MODEL_BUILD))
         (lift (_get_procs_needed s5 test RUN None true) ;;
          _update_test_status test RUN PEND ;;
          _consumer test RUN _run_phase) s5 /\
     (owned ->
      status_writes (trace s5) = status_writes (trace s1) ++ [(test, p, st)] /\
      exists ts, status_files s5 !! test = Some ts /\
                 get_status ts p = Some (st, None)) /\
     (~ owned ->
      status_writes (trace s5) = status_writes (trace s1) /\
      status_files s5 = status_files s1)) /\
  (forall s0 opts,
     case_opts_of (env (cfg s0)) test = Some opts -> "B" ∈ opts ->
     exists s',
       _run_phase test s0 = Ret (true, "SKIPPED") s' /\
       status_writes (trace s')
       = status_writes (trace s0) ++ [(test, SUBMIT, PASS); (test, RUN, PASS)]) /\
  (forall s0 s' r,
     (forall opts, case_opts_of (env (cfg s0)) test = Some opts -> "B" ∉ opts) ->
     _run_phase test s0 = Ret r s' ->
     status_writes (trace s') = status_writes (trace s0)) /\
  (forall s0 q c,
     NoDup (_phases (cfg s0)) ->
     _tests s0 !! test = Some (q, PASS) ->
     next_phase_of (_phases (cfg s0)) q RUN ->
     _get_procs_needed s0 test RUN (Some (threads_in_flight s0)) false = Val (Some c) ->
     c > _proc_pool (cfg s0) ->
     exists s',
       _producer_indv_test_launch test s0 = Ret true s' /\
       status_writes (trace s')
       = status_writes (trace s0) ++ [(test, SUBMIT, PASS); (test, RUN, FAIL)]).
Proof.
  intros Hrun Ht Hp Hg st owned. split; [|split; [|split]].
  - destruct (consumer_body_post (consumer_depth 1) s test p method success errors
                s1 is_first first group Hrun Ht Hp Hg)
      as (s5 & Hbody & Hc & _ & Htr & Hfiles & _).
    fold st in Htr, Hfiles. exists s5. split.
    + change (_consumer test p method s)
        with (consumer_body (consumer_depth 1) test p method s).
      rewrite Hbody.
      unfold when. destruct (success && negb (_no_run (cfg s1))
                             && negb (_no_batch (cfg s1)) && bool_decide (p = MODEL_BUILD));
        [|reflexivity].
      apply bind_ext_on. intros ? ? _. apply bind_ext_on. intros [] ? _.
      apply (consumer_chained_RUN test _run_phase).
    + assert (Hiff : owned <->
                bool_decide (p ∈ [CREATE_NEWCASE; XML])
                || (negb is_first && bool_decide (p ∈ [SHAREDLIB_BUILD; MODEL_BUILD]))
                = true).
      { subst owned. rewrite orb_true_iff, andb_true_iff, negb_true_iff.
        rewrite !bool_decide_eq_true, !elem_of_cons, !elem_of_nil. tauto. }
      split.
      * intros Ho. apply Hiff in Ho. rewrite Ho in Htr, Hfiles.
        rewrite Htr, Hfiles. rewrite !status_writes_app. simpl.
        split.
        -- destruct (bool_decide (p = XML)); simpl; rewrite ?app_nil_r; reflexivity.
        -- eexists. split; [apply lookup_insert_eq | apply get_set_status].
      * intros Ho.
        destruct (bool_decide (p ∈ [CREATE_NEWCASE; XML])
                  || (negb is_first && bool_decide (p ∈ [SHAREDLIB_BUILD; MODEL_BUILD])))
          eqn:E; [exfalso; apply Ho, Hiff; reflexivity|].
        rewrite Htr, Hfiles. rewrite !status_writes_app. simpl.
        split; [|reflexivity].
        destruct (bool_decide (p = XML)); simpl; rewrite ?app_nil_r; reflexivity.
  - intros s0 opts Ho HB. eapply run_phase_skipped; eauto.
  - intros s0 s' r Ho Hr. eapply run_phase_submits; eauto.
  - intros s0 q c Hnd Ht0 Hnext Hc Hgt.
    destruct (launch_over_budget_run s0 test q c Hnd Ht0 Hnext Hc Hgt)
      as (s' & Hl & _ & _ & _ & Htr & _).
    exists s'. split; [exact Hl|]. rewrite Htr, status_writes_app. reflexivity.
Qed.

Lemma consumer_status_writes_witness :
  exists s5,
    _consumer follow SHAREDLIB_BUILD _sharedlib_build_phase
      (scenario (MODEL_BUILD, PEND) (SHAREDLIB_BUILD, PEND)) = Ret tt s5 /\
    status_writes (trace s5) = [(follow, SHAREDLIB_BUILD, PASS)].
Proof.
  destruct (consumer_status_writes
              (scenario (MODEL_BUILD, PEND) (SHAREDLIB_BUILD, PEND))
              follow SHAREDLIB_BUILD _sharedlib_build_phase true ""
              (scenario (MODEL_BUILD, PEND) (SHAREDLIB_BUILD, PEND))
              false lead [lead; follow])
    as ((s5 & Hrun & Howned & _) & _).
  - vm_compute. reflexivity.
  - vm_compute. reflexivity.
  - apply (bool_decide_unpack _). vm_compute. exact I.
  - vm_compute. reflexivity.
  - exists s5. split; [exact Hrun|].
    destruct Howned as [Hw _]; [right; right; auto|]. exact Hw.
Defined.

(** C6 as stated fails: the worker of a leader that runs RUN for a test
    with option B leaves SUBMIT=PASS and RUN=PASS in the status file, written
    by the scheduler's own RUN routine, although RUN is none of the listed
    phases. *)
Lemma status_writes_counterexample :
  _get_build_group (build_only (RUN, PEND) (SETUP, PASS)) lead
    = Val (true, lead, [lead; follow]) /\
  exists s',
    _consumer lead RUN _run_phase (build_only (RUN, PEND) (SETUP, PASS)) = Ret tt s' /\
    status_writes (trace s') = [(lead, SUBMIT, PASS); (lead, RUN, PASS)] /\
    status_files s' !! lead = Some [(SUBMIT, (PASS, None)); (RUN, (PASS, None))].
Proof.
  split; [vm_compute; reflexivity|].
  eexists. split; [vm_compute; reflexivity|].
  split; vm_compute; reflexivity.
Qed.

(** ** Chaining MODEL_BUILD into RUN *)




(** ** Resuming from existing test directories *)

Lemma replay_skip (test : string) (p : phase) (st : status)
    (rest : list (phase * status)) (s : state) :
  p ∉ CORE_PHASES (env (cfg s)) \/ (p = SUBMIT /\ st = PASS) ->
  replay test ((p, st) :: rest) s = replay test rest s.
Proof.
  intros Hskip. simpl. unfold bind at 1. unfold get at 1.
  destruct (bool_decide (p ∈ CORE_PHASES (env (cfg s)))) eqn:E; [|reflexivity].
  apply bool_decide_eq_true in E.
  destruct Hskip as [Hno | [-> ->]]; [contradiction|]. reflexivity.
Qed.

Lemma replay_pass (test : string) (p q : phase) (rest : list (phase * status))
    (s : state) :
  NoDup (_phases (cfg s)) ->
  _tests s !! test = Some (q, PASS) ->
  next_phase_of (_phases (cfg s)) q p ->
  bool_decide (p ∈ CORE_PHASES (env (cfg s))) && bool_decide (p <> SUBMIT) = true ->
  replay test ((p, PASS) :: rest) s
  = replay test rest (set_tests (<[test := (p, PASS)]>) s).
Proof.
  intros Hnd Ht Hnext Hcore. apply andb_prop in Hcore as [Hcore Hsub].
  simpl. unfold bind at 1. unfold get at 1. rewrite Hcore. simpl. rewrite Hsub.
  simpl. unfold bind at 1. unfold bind at 1.
  rewrite (update_enter s test q p Hnd Ht Hnext).
  rewrite (update_finish _ test p PASS).
  - f_equal. unfold set_tests. simpl. rewrite insert_insert_eq. reflexivity.
  - simpl. destruct Hnext as (n & _ & Hn). eapply list_elem_of_lookup_2. exact Hn.
  - simpl. apply lookup_insert_eq.
  - discriminate.
Qed.

(** The walk over the records before the stop. *)
Lemma replay_walk (test : string) (pre : list (phase * status)) :
  forall (s : state) (q : phase),
    NoDup (_phases (cfg s)) ->
    _tests s !! test = Some (q, PASS) ->
    (forall p st, (p, st) ∈ pre -> p ∈ CORE_PHASES (env (cfg s)) -> st = PASS) ->
    chain_from (_phases (cfg s)) q (passed_phases (CORE_PHASES (env (cfg s))) pre) ->
    exists s',
      (forall tail, replay test (pre ++ tail) s = replay test tail s') /\
      _tests s' !! test
      = Some (default q (last (passed_phases (CORE_PHASES (env (cfg s))) pre)), PASS) /\
      (forall t, t <> test -> _tests s' !! t = _tests s !! t) /\
      status_files s' = status_files s /\
      trace s' = trace s /\
      cfg s' = cfg s.
Proof.
  induction pre as [|[p st] pre IH]; intros s q Hnd Ht Hpass Hchain.
  - exists s. simpl. repeat split; auto.
  - simpl in Hchain.
    destruct (bool_decide (p ∈ CORE_PHASES (env (cfg s))) && bool_decide (p <> SUBMIT))
      eqn:E.
    + assert (st = PASS) as ->.
      { apply (Hpass p st); [left|].
        apply andb_prop in E as [E _]. apply bool_decide_eq_true in E. exact E. }
      destruct Hchain as [Hnext Hchain].
      destruct (IH (set_tests (<[test := (p, PASS)]>) s) p) as
        (s' & Hwalk & Hlast & Hothers & Hfiles & Htr & Hc).
      * exact Hnd.
      * simpl. apply lookup_insert_eq.
      * intros p' st' Hin. apply (Hpass p' st'). right. exact Hin.
      * exact Hchain.
      * exists s'. split.
        -- intros tail. simpl app.
           rewrite (replay_pass test p q (pre ++ tail) s Hnd Ht Hnext E).
           apply Hwalk.
        -- simpl in Hlast, Hothers, Hfiles, Htr, Hc. simpl. rewrite E.
           split.
           { rewrite Hlast. rewrite last_cons.
             destruct (last (passed_phases (CORE_PHASES (env (cfg s))) pre)); reflexivity. }
           split; [|auto].
           intros t Hne. rewrite (Hothers t Hne). apply lookup_insert_ne. congruence.
    + destruct (IH s q Hnd Ht) as (s' & Hwalk & Hrest).
      * intros p' st' Hin. apply (Hpass p' st'). right. exact Hin.
      * exact Hchain.
      * exists s'. split.
        -- intros tail. simpl app. rewrite replay_skip; [apply Hwalk|].
           apply andb_false_iff in E as [E|E].
           ++ left. apply bool_decide_eq_false in E. exact E.
           ++ apply bool_decide_eq_false in E.
              destruct (decide (p = SUBMIT)) as [->|Hne]; [|contradiction].
              destruct (decide (SUBMIT ∈ CORE_PHASES (env (cfg s)))) as [Hin|Hout].
              ** right. split; [reflexivity|]. apply (Hpass SUBMIT st); [left | exact Hin].
              ** left. exact Hout.
        -- simpl. rewrite E. exact Hrest.
Qed.





(** ** What the constructor computes *)

Lemma settled_refl (s : state) : settled s s.
Proof. unfold settled. auto. Qed.

Lemma settled_trans (s1 s2 s3 : state) :
  settled s1 s2 -> settled s2 s3 -> settled s1 s3.
Proof. unfold settled. intros (-> & -> & ->) (-> & -> & ->). auto. Qed.

Lemma update_test_status_ret (test : string) (p : phase) (st : status)
    (s s' : state) (a : unit) :
  _update_test_status test p st s = Ret a s' ->
  s' = set_tests (<[test := (p, st)]>) s.
Proof.
  unfold _update_test_status, bind, get, lift, _get_test_data.
  destruct (index p (_phases (cfg s))) as [i|]; [|discriminate].
  destruct (_tests s !! test) as [[old_phase old_status]|]; [|discriminate].
  destruct (decide (old_phase = p)).
  - unfold expect. destruct (bool_decide (old_status = PEND)); [|discriminate].
    unfold ret. destruct (bool_decide (st <> PEND)); [|discriminate].
    unfold modify. intros H. symmetry. congruence.
  - unfold expect. destruct (bool_decide (old_status = PASS)); [|discriminate].
    unfold ret. destruct (bool_decide (st = PEND)); [|discriminate].
    destruct (index old_phase (_phases (cfg s))) as [j|]; [|discriminate].
    destruct (j =? i - 1); [|discriminate].
    unfold modify. intros H. symmetry. congruence.
Qed.

Lemma replay_settled (test : string) (records : list (phase * status)) :
  forall s s', replay test records s = Ret tt s' -> settled s s'.
Proof.
  induction records as [|[p st] records IH]; intros s s'; simpl.
  - unfold ret. intros [= <-]. apply settled_refl.
  - unfold bind at 1. unfold get at 1.
    destruct (bool_decide (p ∈ CORE_PHASES (env (cfg s)))); [|apply IH].
    destruct (bool_decide (st ∈ [PEND; FAIL])).
    + destruct (bool_decide (st = FAIL)); simpl.
      * unfold ts_set_status, modify. intros [= <-]. unfold settled. auto.
      * unfold ret. intros [= <-]. apply settled_refl.
    + destruct (bool_decide (p <> SUBMIT)); simpl.
      * unfold bind at 1. unfold bind at 1.
        destruct (_update_test_status test p PEND s) as [[] s1| |] eqn:E1; try discriminate.
        destruct (_update_test_status test p st s1) as [[] s2| |] eqn:E2; try discriminate.
        apply update_test_status_ret in E1, E2. subst s1 s2.
        intros Hrest. apply IH in Hrest. unfold settled in *. simpl in Hrest. exact Hrest.
      * unfold bind at 1. unfold ret at 1. apply IH.
Qed.

Lemma for_each_settled (body : string -> M unit) (tests : list string) :
  (forall t s s', body t s = Ret tt s' -> settled s s') ->
  forall s s', for_each tests body s = Ret tt s' -> settled s s'.
Proof.
  intros Hbody. induction tests as [|t tests IH]; intros s s'; simpl.
  - unfold ret. intros [= <-]. apply settled_refl.
  - unfold bind. destruct (body t s) as [[] s1| |] eqn:E; try discriminate.
    intros Hrest. eapply settled_trans; [eapply Hbody; exact E | apply IH; exact Hrest].
Qed.

Lemma use_existing_test_settled (force : bool) (test : string) (s s' : state) :
  use_existing_test force test s = Ret tt s' -> settled s s'.
Proof.
  unfold use_existing_test. destruct force; simpl.
  - unfold bind, ts_set_status, modify, get. intros H.
    apply replay_settled in H. unfold settled in *. simpl in H. exact H.
  - unfold bind, ret, get. apply replay_settled.
Qed.





(** Once an XML phase has lowered the stored cost to the pool, the XML
    phases of the later cases find nothing to scale back: their GMAKE_J
    stays as it was. *)
Lemma scale_back_first_case_only :
  exists s1 s2,
    _xml_phase lead (small_pool (XML, PEND) (XML, PEND)) = Ret (true, "") s1 /\
    _xml_phase follow s1 = Ret (true, "") s2 /\
    case_gmake_j s2 !! lead = Some 2 /\
    case_gmake_j s2 !! follow = None /\
    _model_build_cost s2 = 2.
Proof.
  eexists _, _. split; [vm_compute; reflexivity|].
  split; [vm_compute; reflexivity|].
  repeat split; vm_compute; reflexivity.
Qed.







(** * Further properties of the scheduler *)

(** ** Progress of a test *)

Lemma index_bound {A} `{EqDecision A} (x : A) (l : list A) (i : Z) :
  index x l = Val i -> 0 <= i < Z.of_nat (length l).
Proof.
  intros Hi. destruct (index_lookup x l i Hi) as [H0 Hl].
  apply lookup_lt_Some in Hl. lia.
Qed.

(** X1.  Every update [_update_test_status] accepts advances the test by
    exactly one step of the measure [2 * position + (0 if PEND else 1)], and
    the measure stays below twice the number of phases: a test is never
    moved backwards and is updated at most [2 * len(phases) - 1] times. *)
Theorem update_test_status_progress (s s' : state) (test : string) (p : phase)
    (st : status) (old : phase * status) :
  _tests s !! test = Some old ->
  _update_test_status test p st s = Ret tt s' ->
  exists m,
    progress (_phases (cfg s)) old = Val m /\
    progress (_phases (cfg s)) (p, st) = Val (m + 1) /\
    0 <= m /\ m + 1 < 2 * Z.of_nat (length (_phases (cfg s))) /\
    _tests s' !! test = Some (p, st).
Proof.
  intros Ht Hupd. destruct old as [old_phase old_status].
  pose proof (update_test_status_ret test p st s s' tt Hupd) as ->.
  revert Hupd. unfold _update_test_status, bind, get, lift, _get_test_data.
  destruct (index p (_phases (cfg s))) as [i|] eqn:Hi; [|discriminate].
  rewrite Ht. destruct (index_bound _ _ _ Hi) as [Hi0 Hil].
  unfold progress. simpl. rewrite Hi. simpl.
  destruct (decide (old_phase = p)) as [->|Hne].
  - unfold expect. destruct old_status; simpl; try discriminate.
    destruct st; simpl; try discriminate; intros _; rewrite Hi; simpl;
      (eexists; split; [reflexivity|]); rewrite lookup_insert_eq;
      repeat split; try lia; f_equal; lia.
  - unfold expect. destruct old_status; simpl; try discriminate.
    destruct st; simpl; try discriminate.
    destruct (index old_phase (_phases (cfg s))) as [j|] eqn:Hj; [|discriminate].
    destruct (index_bound _ _ _ Hj) as [Hj0 Hjl].
    destruct (j =? i - 1) eqn:E; [|discriminate]. apply Z.eqb_eq in E. intros _.
    simpl. eexists. split; [reflexivity|]. rewrite lookup_insert_eq.
    repeat split; try lia. f_equal. lia.
Qed.

Lemma update_test_status_progress_witness :
  exists m,
    progress PHASES (XML, PASS) = Val m /\
    progress PHASES (SETUP, PEND) = Val (m + 1).
Proof.
  destruct (update_test_status_progress
              (scenario (XML, PASS) (CREATE_NEWCASE, PASS))
              (set_tests (<[lead := (SETUP, PEND)]>)
                 (scenario (XML, PASS) (CREATE_NEWCASE, PASS)))
              lead SETUP PEND (XML, PASS))
    as (m & Hold & Hnew & _).
  - vm_compute. reflexivity.
  - vm_compute. reflexivity.
  - exists m. split; [exact Hold | exact Hnew].
Defined.

(** ** What the launch decision refuses *)

(** X2.  [_producer_indv_test_launch] raises, and changes nothing, for a
    test that is not in the dict (KeyError), for a test whose current phase
    is still pending (the [expect]), and for a test that stands at the last
    phase of the list (the subscript [idx + 1] is out of range). *)
Theorem launch_guards (s : state) (test : string) :
  (_tests s !! test = None ->
   _producer_indv_test_launch test s = Exc (KeyError test) s) /\
  (forall p, _tests s !! test = Some (p, PEND) ->
   _producer_indv_test_launch test s = Exc (CIMEError test) s) /\
  (forall p st, _tests s !! test = Some (p, st) -> st <> PEND ->
   NoDup (_phases (cfg s)) -> last (_phases (cfg s)) = Some p ->
   _producer_indv_test_launch test s = Exc IndexError s).
Proof.
  split; [|split].
  - intros Ht. unfold _producer_indv_test_launch, bind, get, lift, _get_test_data.
    rewrite Ht. reflexivity.
  - intros p Ht. unfold _producer_indv_test_launch, bind, get, lift, _get_test_data.
    rewrite Ht. reflexivity.
  - intros p st Ht Hst Hnd Hlast.
    unfold _producer_indv_test_launch, bind, get, lift, _get_test_data.
    rewrite Ht. simpl. rewrite bool_decide_true by exact Hst. simpl.
    rewrite last_lookup in Hlast.
    rewrite (index_of_lookup p _ _ Hnd Hlast). simpl.
    unfold subscript.
    destruct (Z.of_nat (Nat.pred (length (_phases (cfg s)))) + 1 <? 0) eqn:E;
      [apply Z.ltb_lt in E; lia|].
    rewrite lookup_ge_None_2; [reflexivity|].
    apply lookup_lt_Some in Hlast. lia.
Qed.

Lemma launch_guards_witness :
  _producer_indv_test_launch lead (scenario (RUN, PASS) (SETUP, PASS))
  = Exc IndexError (scenario (RUN, PASS) (SETUP, PASS)).
Proof.
  destruct (launch_guards (scenario (RUN, PASS) (SETUP, PASS)) lead)
    as (_ & _ & Hlast).
  apply (Hlast RUN PASS).
  - vm_compute. reflexivity.
  - discriminate.
  - apply (bool_decide_unpack _). vm_compute. exact I.
  - reflexivity.
Defined.

(** ** Accounting of cores and workers *)

Lemma in_flight_procs_insert (threads : gmap string (Z * phase)) (test : string)
    (info : Z * phase) :
  threads !! test = None ->
  in_flight_procs (<[test := info]> threads) = info.1 + in_flight_procs threads.
Proof.
  intros Hfresh. unfold in_flight_procs.
  apply (map_fold_insert_L (fun _ info acc => info.1 + acc)); [|exact Hfresh].
  intros. lia.
Qed.

Lemma in_flight_procs_delete (threads : gmap string (Z * phase)) (test : string)
    (info : Z * phase) :
  threads !! test = Some info ->
  in_flight_procs threads = info.1 + in_flight_procs (delete test threads).
Proof.
  intros Hin. unfold in_flight_procs.
  apply (map_fold_delete_L (fun _ info acc => info.1 + acc)); [|exact Hin].
  intros. lia.
Qed.

(** The three ways [_producer_indv_test_launch] returns. *)
Lemma launch_ret_inv (s s' : state) (test : string) (b : bool) :
  _producer_indv_test_launch test s = Ret b s' ->
  (b = false /\ s' = s) \/
  (b = true /\ threads_in_flight s' = threads_in_flight s /\
   _procs_avail s' = _procs_avail s /\
   _tests s' = <[test := (RUN, FAIL)]> (_tests s) /\
   cfg s' = cfg s /\
   exists c, c > _proc_pool (cfg s) /\
     _get_procs_needed s test RUN (Some (threads_in_flight s)) false = Val (Some c)) \/
  (b = true /\
   exists c next,
     _get_procs_needed s test next (Some (threads_in_flight s)) false = Val (Some c) /\
     c <= _proc_pool (cfg s) /\ c <= _procs_avail s /\
     s' = emit (EvThreadStart test next)
            (set_threads_in_flight (<[test := (c, next)]>)
               (set_tests (<[test := (next, PEND)]>)
                  (set_procs_avail (fun avail => avail - c) s)))).
Proof.
  unfold _producer_indv_test_launch. unfold bind at 1. unfold get at 1.
  unfold bind at 1. unfold lift at 1.
  destruct (_get_test_data s test) as [[test_phase test_status]|]; [|discriminate].
  unfold bind at 1. unfold expect at 1.
  destruct (bool_decide (test_status <> PEND)); [|discriminate].
  unfold ret at 1. unfold bind at 1. unfold lift at 1.
  destruct (index test_phase (_phases (cfg s))) as [idx|]; [|discriminate].
  unfold bind at 1. unfold lift at 1.
  destruct (subscript (_phases (cfg s)) (idx + 1)) as [next|]; [|discriminate].
  unfold bind at 1. unfold lift at 1.
  destruct (_get_procs_needed s test next (Some (threads_in_flight s)) false)
    as [[c|]|] eqn:Hc; [| |discriminate].
  2: { unfold ret. intros [= <- <-]. left. auto. }
  destruct (c >? _proc_pool (cfg s)) eqn:Egt.
  - apply Z.gtb_gt in Egt.
    unfold bind at 1. unfold expect at 1.
    destruct (bool_decide (next = RUN)) eqn:Erun; [|discriminate].
    apply bool_decide_eq_true in Erun. subst next.
    unfold ret at 1.
    unfold bind, _update_test_status_file, ts_set_status, modify, _log_output, ret.
    match goal with |- context [_update_test_status test RUN PEND ?s2] =>
      destruct (_update_test_status test RUN PEND s2) as [[] s3| |] eqn:E1;
        [|discriminate..]
    end.
    destruct (_update_test_status test RUN FAIL s3) as [[] s4| |] eqn:E2;
      [|discriminate..].
    apply update_test_status_ret in E1, E2. subst s3 s4.
    intros [= <- <-].
    right. left. simpl. rewrite insert_insert_eq. repeat split; try reflexivity.
    exists c. split; [lia | exact Hc].
  - destruct (c <=? _procs_avail s) eqn:Ele.
    + apply Z.leb_le in Ele.
      unfold bind, modify, ret.
      match goal with |- context [_update_test_status test next PEND ?s2] =>
        destruct (_update_test_status test next PEND s2) as [[] s3| |] eqn:E1;
          [|discriminate..]
      end.
      apply update_test_status_ret in E1. subst s3.
      intros [= <- <-].
      right. right. split; [reflexivity|]. exists c, next.
      split; [exact Hc|]. split; [|split; [exact Ele | reflexivity]].
      destruct (c >? _proc_pool (cfg s)) eqn:E; [discriminate|].
      rewrite Z.gtb_ltb in E. apply Z.ltb_ge in E. exact E.
    + unfold ret. intros [= <- <-]. left. auto.
Qed.

Lemma launch_effect (s s' : state) (test : string) (b : bool) :
  threads_in_flight s !! test = None ->
  _producer_indv_test_launch test s = Ret b s' ->
  _procs_avail s' + in_flight_procs (threads_in_flight s')
  = _procs_avail s + in_flight_procs (threads_in_flight s) /\
  (0 <= _procs_avail s -> 0 <= _procs_avail s') /\
  (size (threads_in_flight s') <= S (size (threads_in_flight s)))%nat /\
  (forall t, t <> test -> _tests s' !! t = _tests s !! t) /\
  (b = false -> s' = s) /\
  cfg s' = cfg s.
Proof.
  intros Hfresh Hlaunch.
  destruct (launch_ret_inv s s' test b Hlaunch)
    as [[-> ->] | [(-> & Htif & Havail & Htests & Hcfg & _)
                  | (-> & c & next & _ & _ & Hle & ->)]].
  - repeat split; auto; lia.
  - rewrite Htif, Havail, Htests.
    split; [reflexivity|]. split; [auto|]. split; [lia|].
    split; [|split; [discriminate | exact Hcfg]].
    intros t Hne. apply lookup_insert_ne. congruence.
  - simpl. rewrite (in_flight_procs_insert _ _ _ Hfresh). simpl.
    rewrite (map_size_insert_None _ _ _ Hfresh).
    split; [lia|]. split; [lia|]. split; [lia|].
    split; [|split; [discriminate | reflexivity]].
    intros t Hne. apply lookup_insert_ne. congruence.
Qed.

(** X3.  Whenever [_producer_indv_test_launch] returns for a test that is
    not already in flight, the free cores plus the cores reserved by the
    workers in flight are what they were before the call, free cores that
    were not negative stay so, at most one worker is added, the other tests
    keep their states, and a call that returns False has changed nothing. *)
Theorem launch_accounting (s s' : state) (test : string) (b : bool) :
  threads_in_flight s !! test = None ->
  _producer_indv_test_launch test s = Ret b s' ->
  _procs_avail s' + in_flight_procs (threads_in_flight s')
  = _procs_avail s + in_flight_procs (threads_in_flight s) /\
  (0 <= _procs_avail s -> 0 <= _procs_avail s') /\
  (size (threads_in_flight s') <= S (size (threads_in_flight s)))%nat /\
  (forall t, t <> test -> _tests s' !! t = _tests s !! t) /\
  (b = false -> s' = s).
Proof.
  intros Hfresh Hlaunch.
  destruct (launch_effect s s' test b Hfresh Hlaunch) as (H1 & H2 & H3 & H4 & H5 & _).
  auto.
Qed.

Lemma launch_accounting_witness :
  exists s',
    _producer_indv_test_launch lead (scenario (SHAREDLIB_BUILD, PASS) (SETUP, PASS))
    = Ret true s' /\
    _procs_avail s' + in_flight_procs (threads_in_flight s') = 8.
Proof.
  eexists. split; [vm_compute; reflexivity|].
  match goal with |- context [_procs_avail ?s'] =>
    destruct (launch_accounting (scenario (SHAREDLIB_BUILD, PASS) (SETUP, PASS))
                s' lead true) as [Hsum _]
  end.
  - reflexivity.
  - vm_compute. reflexivity.
  - rewrite Hsum. vm_compute. reflexivity.
Defined.

(** ** Waiting for workers *)

Lemma finished_tests_elem (is_alive : string -> bool)
    (threads : gmap string (Z * phase)) (t : string) (procs : Z) :
  (t, procs) ∈ finished_tests is_alive threads <->
  is_alive t = false /\ exists p, threads !! t = Some (procs, p).
Proof.
  unfold finished_tests. rewrite list_elem_of_fmap. split.
  - intros ([t' [procs' p]] & [= -> ->] & Hin).
    apply list_elem_of_In, List.filter_In in Hin as [Hin Halive].
    apply list_elem_of_In, elem_of_map_to_list in Hin. simpl in *.
    split; [destruct (is_alive t'); [discriminate | reflexivity]|]. eauto.
  - intros (Halive & p & Hp). exists (t, (procs, p)). split; [reflexivity|].
    apply list_elem_of_In, List.filter_In. split.
    + apply list_elem_of_In, elem_of_map_to_list. exact Hp.
    + simpl. rewrite Halive. reflexivity.
Qed.

Lemma finished_tests_NoDup (is_alive : string -> bool)
    (threads : gmap string (Z * phase)) :
  NoDup (finished_tests is_alive threads).*1.
Proof.
  unfold finished_tests. rewrite <- list_fmap_compose.
  apply (sublist_NoDup _ (map_to_list threads).*1);
    [apply (NoDup_fst_map_to_list threads)|].
  induction (map_to_list threads) as [|kv l IH]; simpl; [constructor|].
  destruct (negb (is_alive kv.1)); simpl.
  - apply sublist_skip. exact IH.
  - apply sublist_cons. exact IH.
Qed.

Lemma release_effect (finished : list (string * Z)) :
  forall s,
    NoDup finished.*1 ->
    (forall t procs, (t, procs) ∈ finished ->
       exists p, threads_in_flight s !! t = Some (procs, p)) ->
    exists s',
      release finished s = Ret tt s' /\
      _procs_avail s' + in_flight_procs (threads_in_flight s')
      = _procs_avail s + in_flight_procs (threads_in_flight s) /\
      (forall t, threads_in_flight s' !! t
                 = if decide (t ∈ finished.*1) then None
                   else threads_in_flight s !! t) /\
      (size (threads_in_flight s') + length finished
       = size (threads_in_flight s))%nat /\
      _tests s' = _tests s /\ cfg s' = cfg s /\
      (Forall (fun f => 0 <= f.2) finished ->
       0 <= _procs_avail s -> 0 <= _procs_avail s').
Proof.
  induction finished as [|[t procs] finished IH]; intros s Hnd Hin.
  - exists s. simpl. repeat split; auto.
  - simpl in Hnd. apply NoDup_cons in Hnd as [Hnotin Hnd].
    destruct (Hin t procs) as [p Hp]; [left|].
    set (s1 := set_threads_in_flight (delete t)
                 (set_procs_avail (fun avail => avail + procs) s)).
    destruct (IH s1 Hnd) as (s' & Hrel & Hsum & Hlook & Hsize & Ht & Hc & Hpos).
    { intros t' procs' Hin'. destruct (Hin t' procs') as [p' Hp']; [right; exact Hin'|].
      exists p'. simpl. rewrite lookup_delete_ne; [exact Hp'|].
      intros ->. apply Hnotin. apply list_elem_of_fmap.
      exists (t', procs'). auto. }
    exists s'. split; [exact Hrel|]. simpl in Hsum, Hlook, Hsize, Ht, Hc, Hpos.
    split; [|split; [|split; [|split; [|split]]]].
    + rewrite Hsum. rewrite (in_flight_procs_delete _ t _ Hp). simpl. lia.
    + intros t'. rewrite Hlook. simpl.
      destruct (decide (t' ∈ finished.*1)) as [Hin'|Hout].
      * rewrite decide_True by (right; exact Hin'). reflexivity.
      * destruct (decide (t' = t)) as [->|Hne].
        -- rewrite decide_True by left. apply lookup_delete_eq.
        -- rewrite decide_False by (rewrite elem_of_cons; tauto).
           apply lookup_delete_ne. congruence.
    + rewrite map_size_delete, Hp in Hsize. simpl in Hsize |- *.
      assert (size (threads_in_flight s) <> 0%nat)
        by (intros H0; apply map_size_empty_inv in H0; rewrite H0 in Hp; discriminate).
      lia.
    + exact Ht.
    + exact Hc.
    + intros Hall Havail. apply Forall_cons in Hall as [Hprocs Hall]. simpl in Hprocs.
      apply (Hpos Hall). lia.
Qed.

Lemma wait_poll_some (polls : list (string -> bool))
    (threads : gmap string (Z * phase)) (s : state) :
  match wait_poll polls threads s with
  | Ret finished s1 =>
      finished <> [] /\
      (exists is_alive : string -> bool,
         is_alive ∈ polls /\ finished = finished_tests is_alive threads) /\
      threads_in_flight s1 = threads_in_flight s /\
      _procs_avail s1 = _procs_avail s /\ _tests s1 = _tests s /\
      cfg s1 = cfg s /\
      exists sleeps, trace s1 = trace s ++ replicate sleeps EvSleep
  | Exc _ _ => False
  | Unfinished => True
  end.
Proof.
  revert s. induction polls as [|is_alive polls IH]; intros s; simpl; [exact I|].
  destruct (finished_tests is_alive threads) as [|f fs] eqn:E.
  - unfold bind, sleep, modify. specialize (IH (emit EvSleep s)).
    destruct (wait_poll polls threads (emit EvSleep s)) as [finished s1|e s1|];
      [|exact IH|exact I].
    destruct IH as (Hne & (a & Ha & Hf) & Hth & Hp & Ht & Hc & sleeps & Htr).
    split; [exact Hne|]. split; [exists a; split; [right; exact Ha | exact Hf]|].
    repeat (split; [assumption|]).
    exists (S sleeps). rewrite Htr. simpl. rewrite <- app_assoc. reflexivity.
  - unfold ret. split; [discriminate|].
    split; [exists is_alive; split; [left | symmetry; exact E]|].
    repeat (split; [reflexivity|]). exists 0%nat. simpl. rewrite app_nil_r.
    reflexivity.
Qed.

Lemma wait_poll_empty (polls : list (string -> bool)) (s : state) :
  wait_poll polls ∅ s = Unfinished.
Proof.
  revert s. induction polls as [|is_alive polls IH]; intros s; simpl; [reflexivity|].
  unfold finished_tests. rewrite map_to_list_empty. simpl.
  unfold bind, sleep, modify. apply IH.
Qed.

(** X4.  [_wait_for_something_to_finish] raises "Oversubscribed?" when more
    workers are in flight than there are slots, and never returns when no
    worker is in flight.  When it returns, it has removed from the workers
    in flight exactly those reported dead in the last pass, at least one,
    and has given their cores back: free cores plus reserved cores are
    unchanged, and no test state was touched. *)
Theorem wait_releases (polls : list (string -> bool)) (s : state) :
  (_parallel_jobs (cfg s) < Z.of_nat (size (threads_in_flight s)) ->
   _wait_for_something_to_finish polls s = Exc (CIMEError "Oversubscribed?") s) /\
  (threads_in_flight s = ∅ -> 0 <= _parallel_jobs (cfg s) ->
   _wait_for_something_to_finish polls s = Unfinished) /\
  (forall s',
     _wait_for_something_to_finish polls s = Ret tt s' ->
     _procs_avail s' + in_flight_procs (threads_in_flight s')
     = _procs_avail s + in_flight_procs (threads_in_flight s) /\
     (size (threads_in_flight s') < size (threads_in_flight s))%nat /\
     (exists is_alive : string -> bool,
        is_alive ∈ polls /\
        forall t, threads_in_flight s' !! t
                  = if is_alive t then threads_in_flight s !! t else None) /\
     _tests s' = _tests s).
Proof.
  unfold _wait_for_something_to_finish, bind, get, expect.
  split; [|split].
  - intros Hover.
    replace (Z.of_nat (size (threads_in_flight s)) <=? _parallel_jobs (cfg s))
      with false by (symmetry; apply Z.leb_gt; lia).
    reflexivity.
  - intros Hempty Hjobs. rewrite Hempty, map_size_empty.
    destruct (Z.of_nat 0 <=? _parallel_jobs (cfg s)) eqn:E.
    + unfold ret. rewrite wait_poll_empty. reflexivity.
    + apply Z.leb_gt in E. simpl in E. lia.
  - intros s'.
    destruct (Z.of_nat (size (threads_in_flight s)) <=? _parallel_jobs (cfg s));
      [|discriminate].
    unfold ret. pose proof (wait_poll_some polls (threads_in_flight s) s) as Hw.
    destruct (wait_poll polls (threads_in_flight s) s) as [finished s0|e s0|];
      [|discriminate|discriminate].
    destruct Hw as (Hne & (is_alive & Hpoll & ->) & Hth & Hp & Ht0 & _).
    destruct (release_effect (finished_tests is_alive (threads_in_flight s)) s0)
      as (s1 & Hrel & Hsum & Hlook & Hsize & Ht & _).
    + apply finished_tests_NoDup.
    + intros t procs Hin. apply finished_tests_elem in Hin. rewrite Hth. apply Hin.
    + rewrite Hrel. intros [= <-]. rewrite Hth, Hp in Hsum. rewrite Hth in Hsize.
      split; [exact Hsum|]. split.
      * destruct (finished_tests is_alive (threads_in_flight s)); [contradiction|].
        simpl in Hsize. lia.
      * split; [|rewrite Ht; exact Ht0]. exists is_alive. split; [exact Hpoll|].
        intros t. rewrite Hlook, Hth.
        destruct (decide (t ∈ (finished_tests is_alive (threads_in_flight s)).*1))
          as [Hin|Hout].
        -- apply list_elem_of_fmap in Hin as ([t' procs] & -> & Hin).
           apply finished_tests_elem in Hin as [Hdead _]. simpl. rewrite Hdead.
           reflexivity.
        -- destruct (is_alive t) eqn:Ealive; [reflexivity|].
           destruct (threads_in_flight s !! t) as [[procs p]|] eqn:Et; [|reflexivity].
           exfalso. apply Hout. apply list_elem_of_fmap. exists (t, procs).
           split; [reflexivity|]. apply finished_tests_elem. eauto.
Qed.

Lemma wait_releases_witness :
  exists s',
    _wait_for_something_to_finish
      [fun _ => true; fun t => negb (String.eqb t lead)] one_in_flight
    = Ret tt s' /\
    _procs_avail s' + in_flight_procs (threads_in_flight s') = 8.
Proof.
  destruct (wait_releases [fun _ => true; fun t => negb (String.eqb t lead)]
              one_in_flight) as (_ & _ & Hret).
  eexists. split; [vm_compute; reflexivity|].
  match goal with |- context [_procs_avail ?s'] =>
    destruct (Hret s') as [Hsum _]; [vm_compute; reflexivity|]
  end.
  rewrite Hsum. vm_compute. reflexivity.
Defined.

(** ** One pass of the producer *)

(** X5.  One pass of the producer's loop over the tests never takes the
    number of workers in flight above the number of slots, keeps free plus
    reserved cores constant and free cores non-negative, only ever counts
    launches upwards, and has changed nothing when it counted none (which
    is when the producer goes to wait). *)
Theorem producer_pass_invariants (order : list string) :
  forall (w : bool) (n : Z) (s : state) (w' : bool) (n' : Z) (s' : state),
    producer_pass order w n s = Ret (w', n') s' ->
    (Z.of_nat (size (threads_in_flight s)) <= _parallel_jobs (cfg s) ->
     Z.of_nat (size (threads_in_flight s')) <= _parallel_jobs (cfg s')) /\
    _procs_avail s' + in_flight_procs (threads_in_flight s')
    = _procs_avail s + in_flight_procs (threads_in_flight s) /\
    (0 <= _procs_avail s -> 0 <= _procs_avail s') /\
    n <= n' /\ (n' = n -> s' = s) /\ cfg s' = cfg s.
Proof.
  induction order as [|test order IH]; intros w n s w' n' s'; simpl.
  - unfold ret. intros [= <- <- <-]. repeat split; auto; lia.
  - unfold bind at 1. unfold get at 1. unfold bind at 1. unfold lift at 1.
    destruct (_work_remains s test) as [[|]|]; [| |discriminate].
    + destruct (Z.of_nat (size (threads_in_flight s)) =? _parallel_jobs (cfg s)) eqn:Efull.
      * unfold ret. intros [= <- <- <-]. repeat split; auto; lia.
      * apply Z.eqb_neq in Efull.
        destruct (threads_in_flight s !! test) eqn:Efl; [apply IH|].
        unfold bind at 1.
        destruct (_producer_indv_test_launch test s) as [b s1| |] eqn:El;
          [|discriminate..].
        intros Hrest. apply IH in Hrest.
        destruct Hrest as (Hslots & Hsum & Hpos & Hn & Hsame & Hcfg).
        destruct (launch_effect s s1 test b Efl El)
          as (Hsum1 & Hpos1 & Hsize1 & _ & Hfalse & Hcfg1).
        split; [|split; [|split; [|split; [|split]]]].
        -- intros Hle. apply Hslots. rewrite Hcfg1. lia.
        -- lia.
        -- auto.
        -- destruct b; lia.
        -- intros ->. destruct b; [lia|]. rewrite Hsame by reflexivity.
           apply Hfalse. reflexivity.
        -- congruence.
    + apply IH.
Qed.

Lemma producer_pass_invariants_witness :
  exists w n s',
    producer_pass [lead; follow] false 0
      (scenario (SHAREDLIB_BUILD, PASS) (SETUP, PASS)) = Ret (w, n) s' /\
    n = 2 /\
    Z.of_nat (size (threads_in_flight s')) <= 2.
Proof.
  eexists _, _, _. split; [vm_compute; reflexivity|]. split; [reflexivity|].
  match goal with |- context [threads_in_flight ?s'] =>
    destruct (producer_pass_invariants [lead; follow] false 0
                (scenario (SHAREDLIB_BUILD, PASS) (SETUP, PASS)) true 2 s')
      as [Hslots _]
  end.
  - vm_compute. reflexivity.
  - apply Hslots. vm_compute. discriminate.
Defined.

(** ** What a worker leaves behind *)

Lemma work_remains_eq (s : state) (test : string) (p final : phase) (st : status) :
  _tests s !! test = Some (p, st) -> last (_phases (cfg s)) = Some final ->
  _work_remains s test
  = Val (bool_decide (st <> FAIL) && bool_decide (p <> final)).
Proof.
  intros Ht Hl. unfold _work_remains, _get_test_data, subscript_last.
  rewrite Ht, Hl. simpl. destruct st; reflexivity.
Qed.

(** The worker's bookkeeping after the phase routine, with the counter of
    completed tests. *)
Lemma consumer_body_count
    (rec : string -> phase -> (string -> M (bool * string)) -> M unit)
    (s : state) (test : string) (p final : phase)
    (method : string -> M (bool * string)) (success : bool) (errors : string)
    (s1 : state) (is_first : bool) (first : string) (group : list string) :
  _run_catch_exceptions test p method s = Ret (success, errors) s1 ->
  _tests s1 !! test = Some (p, PEND) ->
  p ∈ _phases (cfg s1) ->
  last (_phases (cfg s1)) = Some final ->
  _get_build_group s1 test = Val (is_first, first, group) ->
  let st := if success then
              if bool_decide (p = RUN) && negb (_no_batch (cfg s1)) then PEND else PASS
            else FAIL in
  exists s5,
    consumer_body rec test p method s =
      when (success && negb (_no_run (cfg s1)) && negb (_no_batch (cfg s1))
            && bool_decide (p = MODEL_BUILD))
        (lift (_get_procs_needed s5 test RUN None true) ;;
         _update_test_status test RUN PEND ;;
         rec test RUN _run_phase) s5 /\
    _tests s5 = <[test := (p, st)]> (_tests s1) /\
    _completed_tests s5
    = _completed_tests s1
      + (if bool_decide (st <> FAIL) && bool_decide (p <> final) then 0 else 1) /\
    (forall ev, ev ∈ trace s1 -> ev ∈ trace s5) /\
    threads_in_flight s5 = threads_in_flight s1 /\
    _procs_avail s5 = _procs_avail s1.
Proof.
  intros Hrun Ht Hp Hlast Hg st.
  set (owned := bool_decide (p ∈ [CREATE_NEWCASE; XML])
                || (negb is_first && bool_decide (p ∈ [SHAREDLIB_BUILD; MODEL_BUILD]))).
  set (s2 := if bool_decide (st <> PEND) then set_tests (<[test := (p, st)]>) s1 else s1).
  assert (Hupd : when (bool_decide (st <> PEND)) (_update_test_status test p st) s1
                 = Ret tt s2).
  { subst s2. destruct (bool_decide (st <> PEND)) eqn:E; [|reflexivity].
    apply bool_decide_eq_true in E. simpl. apply update_finish; assumption. }
  assert (Ht2 : _tests s2 = <[test := (p, st)]> (_tests s1)).
  { subst s2. destruct (bool_decide (st <> PEND)) eqn:E; simpl; [reflexivity|].
    apply bool_decide_eq_false in E. destruct (decide (st = PEND)) as [->|]; [|contradiction].
    symmetry. apply insert_id. exact Ht. }
  assert (Hc2 : cfg s2 = cfg s1).
  { subst s2. destruct (bool_decide (st <> PEND)); reflexivity. }
  assert (Hr : _work_remains s2 test
               = Val (bool_decide (st <> FAIL) && bool_decide (p <> final))).
  { apply work_remains_eq; [rewrite Ht2; apply lookup_insert_eq | rewrite Hc2; exact Hlast]. }
  set (r := bool_decide (st <> FAIL) && bool_decide (p <> final)) in *.
  set (s3 := if negb r then set_completed_tests (fun n => n + 1) s2 else s2).
  assert (Hc3 : cfg s3 = cfg s1).
  { subst s3. destruct (negb r); [simpl|]; exact Hc2. }
  set (s4 := if owned
             then emit (EvStatusWrite test p st None)
                    (set_status_files
                       (<[test := set_status (default [] (status_files s3 !! test)) p st None]>)
                       s3)
             else s3).
  set (s5 := if bool_decide (p = XML) then emit (EvReadme test) s4 else s4).
  assert (Hc5 : cfg s5 = cfg s1).
  { subst s5 s4. destruct (bool_decide (p = XML)), owned; simpl; exact Hc3. }
  exists s5. split.
  - unfold consumer_body.
    rewrite (bind_ret _ _ s s1 (success, errors) Hrun).
    rewrite (bind_ret get _ s1 s1 s1 eq_refl).
    fold st. rewrite (bind_ret _ _ s1 s2 tt Hupd).
    rewrite (bind_ret get _ s2 s2 s2 eq_refl).
    rewrite (bind_ret (lift (_work_remains s2 test)) _ s2 s2 r)
      by (unfold lift; rewrite Hr; reflexivity).
    rewrite (bind_ret _ _ s2 s3 tt (when_modify _ _ _)).
    rewrite (bind_ret get _ s3 s3 s3 eq_refl).
    rewrite (bind_ret (lift (_get_build_group s3 test)) _ s3 s3 (is_first, first, group))
      by (unfold lift; rewrite (get_build_group_cfg s3 s1 test Hc3), Hg; reflexivity).
    fold owned.
    unfold _update_test_status_file, ts_set_status.
    rewrite (bind_ret _ _ s3 s4 tt (when_modify _ _ _)).
    rewrite (bind_ret _ _ s4 s5 tt (when_modify _ _ _)).
    rewrite (bind_ret get _ s5 s5 s5 eq_refl).
    rewrite Hc5. reflexivity.
  - assert (Hs5 : _tests s5 = _tests s2 /\
                  _completed_tests s5 = _completed_tests s2 + (if r then 0 else 1) /\
                  (forall ev, ev ∈ trace s2 -> ev ∈ trace s5) /\
                  threads_in_flight s5 = threads_in_flight s2 /\
                  _procs_avail s5 = _procs_avail s2).
    { subst s5 s4 s3.
      destruct (bool_decide (p = XML)), owned, r; simpl;
        repeat split; try lia; intros ev Hev; rewrite ?elem_of_app; auto. }
    destruct Hs5 as (H1 & H2 & H3 & H4 & H5).
    assert (Hs2 : _completed_tests s2 = _completed_tests s1 /\ trace s2 = trace s1 /\
                  threads_in_flight s2 = threads_in_flight s1 /\
                  _procs_avail s2 = _procs_avail s1).
    { subst s2. destruct (bool_decide (st <> PEND)); simpl; auto. }
    destruct Hs2 as (H6 & H7 & H8 & H9).
    rewrite H1, H2, H4, H5, Ht2, H6, H8, H9. rewrite H7 in H3. auto.
Qed.

(** X6.  An exception raised by the phase routine never leaves the worker:
    it is logged to the test's log, the test becomes (phase, FAIL) in
    memory, the counter of completed tests goes up by one, and the worker
    returns normally without starting RUN. *)
Theorem worker_exception_fails (s s0 : state) (test : string) (p final : phase)
    (method : string -> M (bool * string)) (e : exn)
    (is_first : bool) (first : string) (group : list string) :
  method test s = Exc e s0 ->
  _tests s0 !! test = Some (p, PEND) ->
  p ∈ _phases (cfg s0) ->
  last (_phases (cfg s0)) = Some final ->
  _get_build_group s0 test = Val (is_first, first, group) ->
  exists s' errput,
    _consumer test p method s = Ret tt s' /\
    _tests s' = <[test := (p, FAIL)]> (_tests s0) /\
    _completed_tests s' = _completed_tests s0 + 1 /\
    EvTestLog test errput ∈ trace s' /\
    errput = "Test '" +:+ test +:+ "' failed in phase '" +:+ phase_name p
               +:+ "' with exception '" +:+ str_of_exn (env (cfg s0)) e +:+ "'" +:+ nl
               +:+ format_tb (env (cfg s0)) e.
Proof.
  intros Hexc Ht Hp Hlast Hg.
  set (errput := "Test '" +:+ test +:+ "' failed in phase '" +:+ phase_name p
                   +:+ "' with exception '" +:+ str_of_exn (env (cfg s0)) e +:+ "'" +:+ nl
                   +:+ format_tb (env (cfg s0)) e).
  assert (Hrun : _run_catch_exceptions test p method s
                 = Ret (false, errput) (emit (EvTestLog test errput) s0)).
  { unfold _run_catch_exceptions, try_except. rewrite Hexc. reflexivity. }
  destruct (consumer_body_count (consumer_depth 1) s test p final method false errput
              (emit (EvTestLog test errput) s0) is_first first group Hrun Ht Hp Hlast Hg)
    as (s5 & Hbody & Htests & Hcount & Htrace & _).
  exists s5, errput. simpl in Hbody, Htests, Hcount, Htrace.
  split; [exact Hbody|]. split; [exact Htests|]. split; [exact Hcount|].
  split; [|reflexivity]. apply Htrace. apply elem_of_app. right. left.
Qed.

Lemma worker_exception_fails_witness :
  exists s',
    _consumer lead SETUP (raising_phase (ExternalError "disk full"))
      (scenario (SETUP, PEND) (XML, PASS)) = Ret tt s' /\
    _tests s' !! lead = Some (SETUP, FAIL) /\
    _completed_tests s' = 1.
Proof.
  destruct (worker_exception_fails (scenario (SETUP, PEND) (XML, PASS))
              (scenario (SETUP, PEND) (XML, PASS)) lead SETUP RUN
              (raising_phase (ExternalError "disk full")) (ExternalError "disk full")
              true lead [lead; follow])
    as (s' & errput & Hrun & Htests & Hcount & _).
  - reflexivity.
  - vm_compute. reflexivity.
  - apply (bool_decide_unpack _). vm_compute. exact I.
  - reflexivity.
  - vm_compute. reflexivity.
  - exists s'. split; [exact Hrun|]. rewrite Htests, Hcount.
    split; [apply lookup_insert_eq | reflexivity].
Defined.

(** X7.  When the phase routine returns and no RUN is chained, the worker
    leaves the test at (phase, FAIL) after a failure, at (RUN, PEND) after a
    successful RUN on a batch system, and at (phase, PASS) after any other
    success; it counts the test as completed exactly when the phase failed
    or was the last of the list; and it neither starts a worker nor touches
    the free cores. *)
Theorem worker_result (s s1 : state) (test : string) (p final : phase)
    (method : string -> M (bool * string)) (success : bool) (errors : string)
    (is_first : bool) (first : string) (group : list string) :
  _run_catch_exceptions test p method s = Ret (success, errors) s1 ->
  _tests s1 !! test = Some (p, PEND) ->
  p ∈ _phases (cfg s1) ->
  last (_phases (cfg s1)) = Some final ->
  _get_build_group s1 test = Val (is_first, first, group) ->
  success && negb (_no_run (cfg s1)) && negb (_no_batch (cfg s1))
    && bool_decide (p = MODEL_BUILD) = false ->
  exists s' st,
    _consumer test p method s = Ret tt s' /\
    _tests s' = <[test := (p, st)]> (_tests s1) /\
    (success = false -> st = FAIL) /\
    (success = true -> p = RUN -> _no_batch (cfg s1) = false -> st = PEND) /\
    (success = true -> p <> RUN \/ _no_batch (cfg s1) = true -> st = PASS) /\
    _completed_tests s'
    = _completed_tests s1 + (if decide (st = FAIL \/ p = final) then 1 else 0) /\
    threads_in_flight s' = threads_in_flight s1 /\
    _procs_avail s' = _procs_avail s1.
Proof.
  intros Hrun Ht Hp Hlast Hg Hnochain.
  destruct (consumer_body_count (consumer_depth 1) s test p final method success errors
              s1 is_first first group Hrun Ht Hp Hlast Hg)
    as (s5 & Hbody & Htests & Hcount & _ & Htif & Havail).
  rewrite Hnochain in Hbody. simpl in Hbody.
  eexists s5, _. split; [exact Hbody|]. split; [exact Htests|].
  split; [intros ->; reflexivity|].
  split; [intros -> -> ->; reflexivity|].
  split.
  { intros -> [Hne | Hnb].
    - rewrite bool_decide_false by exact Hne. reflexivity.
    - rewrite Hnb, andb_false_r. reflexivity. }
  split; [|auto]. rewrite Hcount.
  match goal with |- context [bool_decide (?x <> FAIL)] => set (st := x) end.
  destruct (decide (st = FAIL \/ p = final)) as [[Hst | Hfin] | Hno].
  - rewrite (bool_decide_false (st <> FAIL)) by tauto. reflexivity.
  - rewrite (bool_decide_false (p <> final)) by tauto. rewrite andb_false_r. reflexivity.
  - rewrite !bool_decide_true by tauto. reflexivity.
Qed.

Lemma worker_result_witness :
  exists s',
    _consumer lead RUN _run_phase
      (with_results [(0, "submitted", "")] (scenario (RUN, PEND) (SETUP, PASS)))
    = Ret tt s' /\
    _tests s' !! lead = Some (RUN, PEND) /\
    _completed_tests s' = 1.
Proof.
  set (s0 := with_results [(0, "submitted", "")] (scenario (RUN, PEND) (SETUP, PASS))).
  set (s1 := match _run_catch_exceptions lead RUN _run_phase s0 with
             | Ret _ s1 => s1
             | _ => s0
             end).
  destruct (worker_result s0 s1 lead RUN RUN _run_phase true "" true lead [lead; follow])
    as (s' & st & Hrun & Htests & _ & Hpend & _ & Hcount & _).
  - vm_compute. reflexivity.
  - vm_compute. reflexivity.
  - apply (bool_decide_unpack _). vm_compute. exact I.
  - reflexivity.
  - vm_compute. reflexivity.
  - reflexivity.
  - exists s'. split; [exact Hrun|].
    rewrite Htests, Hcount, (Hpend eq_refl eq_refl eq_refl).
    split; [apply lookup_insert_eq | reflexivity].
Defined.

(** ** SETUP and the leader's SHAREDLIB_BUILD *)

(** One invocation that is not retried. *)
Lemma shell_cmd_once (s : state) (test cmd : string) (p : phase)
    (r : Z * string * string) (rest : list (Z * string * string)) :
  subprocess s !! test = Some (r :: rest) ->
  transient r = false ->
  exists s1,
    _shell_cmd_for_phase test cmd p s = Ret (r.1.1 =? 0, r.2) s1 /\
    subprocess s1 = <[test := rest]> (subprocess s) /\
    status_files s1 = status_files s /\
    _tests s1 = _tests s /\ cfg s1 = cfg s /\
    status_writes (trace s1) = status_writes (trace s) /\
    count is_run (trace s1) = S (count is_run (trace s)).
Proof.
  intros Hsub Htr. destruct r as [[rc output] errput].
  unfold _shell_cmd_for_phase, pending_results. rewrite Hsub. simpl.
  unfold bind at 1. unfold run_cmd. rewrite Hsub.
  unfold transient in Htr. simpl in Htr |- *.
  destruct (rc =? 0); simpl in *.
  - eexists. split; [reflexivity|]. simpl.
    rewrite !status_writes_app, !count_app. simpl. rewrite !app_nil_r.
    unfold count. simpl. repeat split; lia.
  - rewrite Htr. eexists. split; [reflexivity|]. simpl.
    rewrite !status_writes_app, !count_app. simpl. rewrite !app_nil_r.
    unfold count. simpl. repeat split; lia.
Qed.

Lemma run_cmpgen_once (s : state) (test : string) (r : Z * string * string)
    (rest : list (Z * string * string)) :
  subprocess s !! test = Some (r :: rest) ->
  _run_cmpgen_namelists test s
  = Ret (r.1.1, r.1.2)
      (emit (EvRunCmd test "./case.cmpgen_namelists")
         (set_subprocess (<[test := rest]>) s)).
Proof.
  intros Hsub. unfold _run_cmpgen_namelists, bind, run_cmd. rewrite Hsub.
  destruct r as [[rc output] errput]. reflexivity.
Qed.

(** X8.  SETUP runs [case.cmpgen_namelists] exactly when [case.setup]
    succeeded, and returns the result of [case.setup] whatever the
    comparison gave.  In single-executable mode a test case that does not
    support a shared executable gets SETUP=FAIL written to its status file
    and the exception is raised again, also when [case.setup] itself had
    failed. *)
Theorem setup_phase_outcomes (s : state) (test : string)
    (r : Z * string * string) (rest : list (Z * string * string)) :
  subprocess s !! test = Some (r :: rest) ->
  transient r = false ->
  (_single_exe (cfg s) = false -> r.1.1 <> 0 ->
   exists s',
     _setup_phase test s = Ret (false, r.2) s' /\
     subprocess s' !! test = Some rest /\
     status_files s' = status_files s) /\
  (_single_exe (cfg s) = false -> r.1.1 = 0 ->
   forall c rest', rest = c :: rest' ->
   exists s',
     _setup_phase test s = Ret (true, r.2) s' /\
     subprocess s' !! test = Some rest' /\
     status_files s' = status_files s) /\
  (_single_exe (cfg s) = true ->
   forall e, single_exe_raises (env (cfg s)) test = Some e ->
   r.1.1 <> 0 \/ (exists c rest', rest = c :: rest') ->
   exists s' ts,
     _setup_phase test s = Exc e s' /\
     status_files s' !! test = Some ts /\
     get_status ts SETUP = Some (FAIL, None)).
Proof.
  intros Hsub Htr.
  destruct (shell_cmd_once s test "./case.setup" SETUP r rest Hsub Htr)
    as (s1 & Hrun & Hsub1 & Hfiles1 & _ & Hcfg1 & _).
  split; [|split].
  - intros Hse Hrc. exists s1. unfold _setup_phase.
    rewrite (bind_ret _ _ s s1 _ Hrun). simpl.
    replace (r.1.1 =? 0) with false by (symmetry; apply Z.eqb_neq; exact Hrc).
    simpl. unfold bind, ret, get. rewrite Hcfg1, Hse. simpl.
    split; [reflexivity|]. rewrite Hsub1, lookup_insert_eq. auto.
  - intros Hse Hrc c rest' ->.
    assert (Hsub1' : subprocess s1 !! test = Some (c :: rest'))
      by (rewrite Hsub1; apply lookup_insert_eq).
    eexists. unfold _setup_phase.
    rewrite (bind_ret _ _ s s1 _ Hrun). simpl.
    replace (r.1.1 =? 0) with true by (symmetry; apply Z.eqb_eq; exact Hrc).
    simpl. unfold bind at 1. unfold bind at 1.
    rewrite (run_cmpgen_once s1 test c rest' Hsub1'). unfold ret at 1.
    unfold bind, get. simpl. rewrite Hcfg1, Hse. simpl.
    split; [reflexivity|]. simpl. rewrite lookup_insert_eq. auto.
  - intros Hse e He Hcases. unfold _setup_phase.
    rewrite (bind_ret _ _ s s1 _ Hrun). simpl.
    destruct (r.1.1 =? 0) eqn:Erc; simpl.
    + destruct Hcases as [Hrc | (c & rest' & ->)];
        [apply Z.eqb_eq in Erc; contradiction|].
      assert (Hsub1' : subprocess s1 !! test = Some (c :: rest'))
        by (rewrite Hsub1; apply lookup_insert_eq).
      unfold bind at 1. unfold bind at 1.
      rewrite (run_cmpgen_once s1 test c rest' Hsub1'). unfold ret at 1.
      unfold bind, get. simpl. rewrite Hcfg1, Hse, He. simpl.
      eexists _, _. split; [reflexivity|]. simpl. rewrite lookup_insert_eq.
      split; [reflexivity | apply get_set_status].
    + unfold bind, ret, get. rewrite Hcfg1, Hse, He. simpl.
      eexists _, _. split; [reflexivity|]. simpl. rewrite lookup_insert_eq.
      split; [reflexivity | apply get_set_status].
Qed.

Lemma setup_phase_outcomes_witness :
  exists s' ts,
    _setup_phase lead
      (with_results [(0, "setup done", ""); (0, "", "")]
         (single_exe_run (SETUP, PEND) (XML, PASS)))
    = Exc (CIMEError "does not support single exe") s' /\
    status_files s' !! lead = Some ts /\
    get_status ts SETUP = Some (FAIL, None).
Proof.
  destruct (setup_phase_outcomes
              (with_results [(0, "setup done", ""); (0, "", "")]
                 (single_exe_run (SETUP, PEND) (XML, PASS)))
              lead (0, "setup done", "") [(0, "", "")])
    as (_ & _ & Hsingle).
  - vm_compute. reflexivity.
  - reflexivity.
  - apply (Hsingle eq_refl (CIMEError "does not support single exe") eq_refl).
    right. eauto.
Defined.

(** X9.  The leader's SHAREDLIB_BUILD runs [case.build --sharedlib-only]
    and then [case.cmpgen_namelists], also when the build failed.  If the
    comparison exits with 0 or with the tests-failed code, the phase returns
    the result of the build; with any other code SETUP=FAIL is written to
    the status file and "Fatal error in case.cmpgen_namelists" is raised. *)
Theorem sharedlib_build_leader (s : state) (test : string) (group : list string)
    (build : Z * string * string) (cmdstat : Z) (output errput : string)
    (rest : list (Z * string * string)) :
  _get_build_group s test = Val (true, test, group) ->
  subprocess s !! test = Some (build :: (cmdstat, output, errput) :: rest) ->
  transient build = false ->
  (cmdstat = 0 \/ cmdstat = TESTS_FAILED_ERR_CODE (env (cfg s)) ->
   exists s',
     _sharedlib_build_phase test s = Ret (build.1.1 =? 0, build.2) s' /\
     subprocess s' !! test = Some rest /\
     status_files s' = status_files s) /\
  (cmdstat <> 0 -> cmdstat <> TESTS_FAILED_ERR_CODE (env (cfg s)) ->
   exists s' ts,
     _sharedlib_build_phase test s
     = Exc (CIMEError ("Fatal error in case.cmpgen_namelists: " +:+ output)) s' /\
     subprocess s' !! test = Some rest /\
     status_files s' !! test = Some ts /\
     get_status ts SETUP = Some (FAIL, None)).
Proof.
  intros Hg Hsub Htr.
  destruct (shell_cmd_once s test "./case.build --sharedlib-only" SHAREDLIB_BUILD
              build _ Hsub Htr)
    as (s1 & Hrun & Hsub1 & Hfiles1 & _ & Hcfg1 & _).
  assert (Hsub1' : subprocess s1 !! test = Some ((cmdstat, output, errput) :: rest))
    by (rewrite Hsub1; apply lookup_insert_eq).
  assert (Hunfold :
    _sharedlib_build_phase test s =
      (try_except
         (expect (bool_decide (cmdstat ∈ [0; TESTS_FAILED_ERR_CODE (env (cfg s))]))
            ("Fatal error in case.cmpgen_namelists: " +:+ output))
         (fun e => _update_test_status_file test SETUP FAIL ;; raise e) ;;
       ret (build.1.1 =? 0, build.2))
        (emit (EvRunCmd test "./case.cmpgen_namelists")
           (set_subprocess (<[test := rest]>) s1))).
  { unfold _sharedlib_build_phase.
    rewrite (bind_ret get _ s s s eq_refl).
    rewrite (bind_ret (lift (_get_build_group s test)) _ s s (true, test, group))
      by (unfold lift; rewrite Hg; reflexivity).
    change (negb true) with false. cbv beta iota.
    rewrite (bind_ret _ _ s s1 _ Hrun).
    rewrite (bind_ret _ _ s1 _ _ (run_cmpgen_once s1 test _ rest Hsub1')).
    reflexivity. }
  rewrite Hunfold. split.
  - intros Hok.
    unfold bind, try_except, expect.
    rewrite bool_decide_true by (rewrite !elem_of_cons; tauto).
    eexists. split; [reflexivity|]. simpl. rewrite lookup_insert_eq. auto.
  - intros Hne0 Hnet.
    unfold bind, try_except, expect.
    rewrite bool_decide_false
      by (rewrite !elem_of_cons, elem_of_nil; tauto).
    eexists _, _. split; [reflexivity|]. simpl. rewrite !lookup_insert_eq.
    split; [reflexivity|]. split; [reflexivity | apply get_set_status].
Qed.

Lemma sharedlib_build_leader_witness :
  exists s',
    _sharedlib_build_phase lead
      (with_results [(1, "ld: undefined symbol", "build failed");
                     (100, "namelists differ", "")]
         (scenario (SHAREDLIB_BUILD, PEND) (SETUP, PASS)))
    = Ret (false, "build failed") s' /\
    subprocess s' !! lead = Some [].
Proof.
  destruct (sharedlib_build_leader
              (with_results [(1, "ld: undefined symbol", "build failed");
                             (100, "namelists differ", "")]
                 (scenario (SHAREDLIB_BUILD, PEND) (SETUP, PASS)))
              lead [lead; follow] (1, "ld: undefined symbol", "build failed")
              100 "namelists differ" "" [])
    as [Hok _].
  - vm_compute. reflexivity.
  - vm_compute. reflexivity.
  - reflexivity.
  - destruct Hok as (s' & Hrun & Hsub & _); [right; reflexivity|].
    exists s'. split; [exact Hrun | exact Hsub].
Defined.

(** ** Serialized shared-library builds *)

(** X10.  With [serialize_sharedlib_builds], SHAREDLIB_BUILD of a build
    group's leader is ineligible exactly while some worker in flight is
    running SHAREDLIB_BUILD, and costs one core otherwise. *)
Theorem sharedlib_build_serialized (s : state) (test : string)
    (group : list string) (threads : gmap string (Z * phase)) (nb : bool) :
  serialize_sharedlib_builds (cfg s) = true ->
  _get_build_group s test = Val (true, test, group) ->
  ((exists t procs, threads !! t = Some (procs, SHAREDLIB_BUILD)) ->
   _get_procs_needed s test SHAREDLIB_BUILD (Some threads) nb = Val None) /\
  ((forall t procs p, threads !! t = Some (procs, p) -> p <> SHAREDLIB_BUILD) ->
   _get_procs_needed s test SHAREDLIB_BUILD (Some threads) nb = Val (Some 1)).
Proof.
  intros Hser Hg. unfold _get_procs_needed. rewrite Hg, Hser. simpl. split.
  - intros (t & procs & Ht).
    replace (existsb _ (map_to_list threads)) with true; [reflexivity|].
    symmetry. apply existsb_exists. exists (t, (procs, SHAREDLIB_BUILD)). split.
    + apply list_elem_of_In, elem_of_map_to_list. exact Ht.
    + reflexivity.
  - intros Hnone.
    replace (existsb _ (map_to_list threads)) with false; [reflexivity|].
    symmetry. apply not_true_is_false. intros Hex.
    apply existsb_exists in Hex as ([t [procs p]] & Hin & Hp).
    apply list_elem_of_In, elem_of_map_to_list in Hin. simpl in Hp.
    apply bool_decide_eq_true in Hp. exact (Hnone t procs p Hin Hp).
Qed.

Lemma sharedlib_build_serialized_witness :
  _get_procs_needed (serialized (SETUP, PASS) (SHAREDLIB_BUILD, PEND)) lead
    SHAREDLIB_BUILD (Some (<[follow := (1, SHAREDLIB_BUILD)]> ∅)) false
  = Val None.
Proof.
  destruct (sharedlib_build_serialized
              (serialized (SETUP, PASS) (SHAREDLIB_BUILD, PEND)) lead [lead]
              (<[follow := (1, SHAREDLIB_BUILD)]> ∅) false) as [Hbusy _].
  - reflexivity.
  - vm_compute. reflexivity.
  - apply Hbusy. exists follow, 1. vm_compute. reflexivity.
Defined.

(** ** The constructor's phase list, tests and build groups *)

(** X11.  The constructor's phase list: [no_setup] leaves INIT,
    CREATE_NEWCASE and XML; otherwise [no_build] or [namelists_only] leaves
    those and SETUP; otherwise [no_run] drops only RUN; otherwise all seven
    phases are kept.  Pruning never raises. *)
Theorem init_phases_pruned (a : Args) :
  init_phases a = Val
    (if no_setup a then [INIT; CREATE_NEWCASE; XML]
     else if no_build a || namelists_only a
          then [INIT; CREATE_NEWCASE; XML; SETUP]
     else if no_run a
          then [INIT; CREATE_NEWCASE; XML; SETUP; SHAREDLIB_BUILD; MODEL_BUILD]
     else PHASES).
Proof.
  unfold init_phases, init_no_run, init_no_build.
  destruct (no_setup a), (no_build a), (namelists_only a), (no_run a); reflexivity.
Qed.



Lemma ordered_keys_elem (names seen : list string) (t : string) :
  t ∈ ordered_keys seen names <-> t ∈ names /\ t ∉ seen.
Proof.
  revert seen. induction names as [|n names IH]; intros seen; simpl.
  - rewrite elem_of_nil. split; [tauto|]. intros [H _]. inversion H.
  - destruct (bool_decide (n ∈ seen)) eqn:E.
    + apply bool_decide_eq_true in E. rewrite IH, elem_of_cons. split.
      * intros [H1 H2]. auto.
      * intros [[->|H1] H2]; [contradiction | auto].
    + apply bool_decide_eq_false in E. rewrite elem_of_cons, IH, !elem_of_cons.
      split.
      * intros [->|[H1 H2]]; [auto|]. split; [auto|]. tauto.
      * intros [[->|H1] H2]; [auto|].
        destruct (decide (t = n)) as [->|Hne]; [auto|]. right. tauto.
Qed.



Lemma init_cfg_groups (a : Args) (machobj : Machine) (config : Config) (e : Env)
    (w : World) (s : state) :
  __init__ a machobj config e w = Ret tt s ->
  _build_groups (cfg s)
  = init_build_groups a config
      (ordered_keys [] (filter (fun t => t ∉ tests_to_skip a) (test_names a))).
Proof.
  unfold __init__.
  destruct (expect_res _ _) as [[]|]; simpl; [|discriminate].
  destruct (init_parallel_jobs a machobj) as [jobs|]; simpl; [|discriminate].
  destruct (init_phases a) as [phases|]; simpl; [|discriminate].
  intros Hloop.
  match type of Hloop with _ ?s0 = _ => assert (Hs : settled s0 s) end.
  { destruct (use_existing a).
    - eapply for_each_settled; [|exact Hloop].
      intros t s1 s2. apply use_existing_test_settled.
    - eapply for_each_settled; [|exact Hloop].
      intros t s1 s2. unfold expect.
      destruct (negb (test_dir_exists e t)); [|discriminate].
      unfold ret. intros [= <-]. apply settled_refl. }
  destruct Hs as (Hc & _). rewrite Hc. reflexivity.
Qed.

Lemma find_build_group_singletons (keys : list string) (t : string) :
  t ∈ keys -> find_build_group t (map (fun item => [item]) keys) = Some [t].
Proof.
  induction keys as [|k keys IH]; intros Hin; [inversion Hin|]. simpl.
  destruct (decide (t = k)) as [->|Hne].
  - rewrite bool_decide_true by left. reflexivity.
  - rewrite bool_decide_false
      by (rewrite elem_of_cons, elem_of_nil; tauto).
    apply IH. apply elem_of_cons in Hin as [?|?]; [contradiction | assumption].
Qed.

Lemma find_build_group_none (groups : list (list string)) (t : string) :
  (forall g, g ∈ groups -> t ∉ g) -> find_build_group t groups = None.
Proof.
  induction groups as [|g groups IH]; intros Hout; [reflexivity|]. simpl.
  rewrite bool_decide_false by (apply Hout; left).
  apply IH. intros g' Hg'. apply Hout. right. exact Hg'.
Qed.

(** X13.  The build groups of a constructed scheduler partition its tests:
    in single-executable mode there is one group of all the tests, led by
    the first test name; without shared executables every test is alone in
    its group and leads it.  A name that is not a test has no build group,
    and asking for it raises. *)
Theorem init_build_groups_partition (a : Args) (machobj : Machine)
    (config : Config) (e : Env) (w : World) (s : state) :
  __init__ a machobj config e w = Ret tt s ->
  (single_exe a = true ->
   forall first more,
     filter (fun t => t ∉ tests_to_skip a) (test_names a) = first :: more ->
     forall t, t ∈ first :: more ->
       exists group,
         _get_build_group s t = Val (bool_decide (t = first), first, group) /\
         forall t', t' ∈ group <-> t' ∈ first :: more) /\
  (single_exe a = false -> share_exes config = false ->
   forall t, t ∈ test_names a -> t ∉ tests_to_skip a ->
     _get_build_group s t = Val (true, t, [t])) /\
  (single_exe a = true \/ share_exes config = false ->
   forall t, ~ (t ∈ test_names a /\ t ∉ tests_to_skip a) ->
     _get_build_group s t = Err (CIMEError ("No build group for test '" +:+ t +:+ "'"))).
Proof.
  intros Hinit. pose proof (init_cfg_groups a machobj config e w s Hinit) as Hgroups.
  unfold _get_build_group. rewrite Hgroups. unfold init_build_groups.
  split; [|split].
  - intros Hse first more Hnames t Hin. rewrite Hse, Hnames.
    exists (ordered_keys [] (first :: more)).
    assert (Hk : t ∈ ordered_keys [] (first :: more))
      by (apply ordered_keys_elem; split; [exact Hin | apply not_elem_of_nil]).
    unfold find_build_group. rewrite bool_decide_true by exact Hk.
    split; [reflexivity|].
    intros t'. rewrite ordered_keys_elem. split; [tauto|].
    intros H. split; [exact H | apply not_elem_of_nil].
  - intros Hse Hshare t Hin Hskip. rewrite Hse, Hshare.
    rewrite find_build_group_singletons.
    + simpl. rewrite bool_decide_true by reflexivity. reflexivity.
    + apply ordered_keys_elem. split; [|apply not_elem_of_nil].
      apply list_elem_of_filter. auto.
  - intros Hmode t Hout.
    assert (Hkeys : t ∉ ordered_keys []
                      (filter (fun t => t ∉ tests_to_skip a) (test_names a))).
    { rewrite ordered_keys_elem, list_elem_of_filter. tauto. }
    rewrite find_build_group_none; [reflexivity|].
    destruct (single_exe a) eqn:Ese.
    + intros g Hg. apply list_elem_of_singleton in Hg. subst g. exact Hkeys.
    + destruct Hmode as [?|Hshare]; [discriminate|]. rewrite Hshare.
      intros g Hg. apply list_elem_of_fmap in Hg as (k & -> & Hk).
      rewrite list_elem_of_singleton. intros ->. contradiction.
Qed.

Lemma init_build_groups_partition_witness :
  exists s,
    __init__ scenario_args scenario_machine scenario_config scenario_env empty_world
    = Ret tt s /\
    exists group, _get_build_group s follow = Val (false, lead, group).
Proof.
  eexists. split; [vm_compute; reflexivity|].
  match goal with |- context [_get_build_group ?s _] =>
    destruct (init_build_groups_partition scenario_args scenario_machine
                scenario_config scenario_env empty_world s) as [Hsingle _]
  end.
  - vm_compute. reflexivity.
  - destruct (Hsingle eq_refl lead [follow] eq_refl follow) as (group & Hg & _).
    + apply (bool_decide_unpack _). vm_compute. exact I.
    + exists group. exact Hg.
Defined.




(** ** Resuming a test that had finished *)

(** X15.  Resuming ([use_existing] without [force_rebuild]) a test whose
    status file records PASS for every core phase up to the last phase of
    the list brings it to (last phase, PASS) with no work remaining, and
    leaves the status file and everything else on disk as they were;
    records of other phases, whatever their status, are passed over. *)
Theorem resume_finished_test (s : state) (test : string) (q final : phase) :
  NoDup (_phases (cfg s)) ->
  _tests s !! test = Some (q, PASS) ->
  (forall p st, (p, st) ∈ ts_iter (default [] (status_files s !! test)) ->
                p ∈ CORE_PHASES (env (cfg s)) -> st = PASS) ->
  chain_from (_phases (cfg s)) q
    (passed_phases (CORE_PHASES (env (cfg s)))
       (ts_iter (default [] (status_files s !! test)))) ->
  last (passed_phases (CORE_PHASES (env (cfg s)))
          (ts_iter (default [] (status_files s !! test)))) = Some final ->
  last (_phases (cfg s)) = Some final ->
  exists s',
    use_existing_test false test s = Ret tt s' /\
    _tests s' !! test = Some (final, PASS) /\
    _work_remains s' test = Val false /\
    status_files s' = status_files s /\
    trace s' = trace s.
Proof.
  intros Hnd Ht Hpass Hchain Hfinal Hlast.
  destruct (replay_walk test (ts_iter (default [] (status_files s !! test))) s q
              Hnd Ht Hpass Hchain)
    as (s' & Hwalk & Htests & _ & Hfiles & Htr & Hc).
  exists s'. rewrite Hfinal in Htests. simpl in Htests.
  split.
  - unfold use_existing_test. simpl. unfold bind, ret, get.
    specialize (Hwalk []). rewrite app_nil_r in Hwalk. exact Hwalk.
  - split; [exact Htests|]. split; [|auto].
    rewrite (work_remains_eq s' test final final PASS Htests)
      by (rewrite Hc; exact Hlast).
    rewrite (bool_decide_false (final <> final)) by tauto.
    rewrite andb_false_r. reflexivity.
Qed.

Lemma resume_finished_test_witness :
  exists s',
    use_existing_test false lead completed_run = Ret tt s' /\
    _tests s' !! lead = Some (RUN, PASS) /\
    _work_remains s' lead = Val false.
Proof.
  destruct (resume_finished_test completed_run lead INIT RUN)
    as (s' & Hrun & Htests & Hwork & _).
  - apply (bool_decide_unpack _). vm_compute. exact I.
  - vm_compute. reflexivity.
  - intros p st Hin Hcore. vm_compute in Hin.
    repeat (apply elem_of_cons in Hin as [[= -> ->]|Hin];
            [try reflexivity; exfalso; revert Hcore; vm_compute;
             intros Hcore;
             repeat (apply elem_of_cons in Hcore as [Hcore|Hcore];
                     [discriminate|]);
             inversion Hcore|]).
    inversion Hin.
  - change (chain_from PHASES INIT
              [CREATE_NEWCASE; XML; SETUP; SHAREDLIB_BUILD; MODEL_BUILD; RUN]).
    simpl. repeat split;
      [exists 0%nat | exists 1%nat | exists 2%nat | exists 3%nat
       | exists 4%nat | exists 5%nat]; split; reflexivity.
  - vm_compute. reflexivity.
  - reflexivity.
  - exists s'. auto.
Defined.

(** ** Test directories *)

Lemma list_ascii_app (a b : string) :
  String.list_ascii_of_string (a +:+ b) = String.list_ascii_of_string a ++ String.list_ascii_of_string b.
Proof. induction a as [|c a IH]; simpl; [reflexivity | rewrite IH; reflexivity]. Qed.

Lemma list_ascii_inj (a b : string) :
  String.list_ascii_of_string a = String.list_ascii_of_string b -> a = b.
Proof.
  intros H. rewrite <- (String.string_of_list_ascii_of_string a),
    <- (String.string_of_list_ascii_of_string b), H. reflexivity.
Qed.

Lemma string_app_inv_tail (a b x : string) : a +:+ x = b +:+ x -> a = b.
Proof.
  intros H. apply list_ascii_inj. apply (f_equal String.list_ascii_of_string) in H.
  rewrite !list_ascii_app in H. eapply app_inv_tail. exact H.
Qed.

Lemma string_app_inv_head (x a b : string) : x +:+ a = x +:+ b -> a = b.
Proof.
  intros H. apply list_ascii_inj. apply (f_equal String.list_ascii_of_string) in H.
  rewrite !list_ascii_app in H. eapply app_inv_head. exact H.
Qed.

Lemma prefix_slash_cons (c : Ascii.ascii) (t : string) :
  String.prefix "/" (String c t) = if Ascii.ascii_dec slash c then true else false.
Proof.
  change (String.prefix "/" (String c t))
    with (if Ascii.ascii_dec slash c then String.prefix "" t else false).
  destruct (Ascii.ascii_dec slash c); [destruct t|]; reflexivity.
Qed.

Lemma prefix_slash_app (t x : string) :
  String.prefix "/" (t +:+ x) = if bool_decide (t = "") then String.prefix "/" x
                                else String.prefix "/" t.
Proof.
  destruct t as [|c t]; [reflexivity|].
  change (String c t +:+ x) with (String c (t +:+ x)).
  rewrite !prefix_slash_cons. reflexivity.
Qed.

Lemma case_id_shape (l : Layout) (test : string) :
  exists suffix,
    (forall t, _get_case_id l t = t +:+ "." +:+ suffix) /\
    String.prefix "/" (_get_case_id l test) = String.prefix "/" (test +:+ ".").
Proof.
  unfold _get_case_id.
  destruct (0 <? String.length _)%nat.
  - eexists. split; [intros t; reflexivity|].
    rewrite !prefix_slash_app. destruct test; reflexivity.
  - eexists. split; [intros t; reflexivity|].
    rewrite !prefix_slash_app. destruct test; reflexivity.
Qed.

(** X16.  The case id of a test is the test name followed by ".G.", ".C."
    or ".GC." (baseline generation and comparison) or a single "." and the
    test id; different tests have different case ids, and different tests
    whose names do not start with "/" have different test directories. *)
Theorem test_dirs_distinct (l : Layout) (t1 t2 : string) :
  _get_case_id l t1
  = t1 +:+ "."
      +:+ (if truthy (_baseline_gen_name l) || truthy (_baseline_cmp_name l)
           then (if truthy (_baseline_gen_name l) then "G" else "")
                  +:+ (if truthy (_baseline_cmp_name l) then "C" else "") +:+ "."
           else "")
      +:+ _test_id l /\
  (_get_case_id l t1 = _get_case_id l t2 -> t1 = t2) /\
  (String.prefix "/" t1 = false -> String.prefix "/" t2 = false ->
   _get_test_dir l t1 = _get_test_dir l t2 -> t1 = t2).
Proof.
  destruct (case_id_shape l t1) as (suffix & Hshape & Hp1).
  destruct (case_id_shape l t2) as (suffix' & _ & Hp2).
  split; [|split].
  - unfold _get_case_id.
    destruct (truthy (_baseline_gen_name l)), (truthy (_baseline_cmp_name l));
      reflexivity.
  - rewrite (Hshape t1), (Hshape t2). apply string_app_inv_tail.
  - intros H1 H2. unfold _get_test_dir, os_path_join.
    assert (Hno : forall t, String.prefix "/" t = false ->
                            String.prefix "/" (t +:+ ".") = false).
    { intros t Ht. rewrite prefix_slash_app. destruct t; [reflexivity | exact Ht]. }
    rewrite Hp1, Hp2, (Hno t1 H1), (Hno t2 H2).
    rewrite (Hshape t1), (Hshape t2).
    destruct (bool_decide (_test_root l = "") || ends_with_slash (_test_root l)).
    + intros H. apply string_app_inv_head in H. eapply string_app_inv_tail. exact H.
    + intros H. apply string_app_inv_head in H. apply string_app_inv_head in H.
      eapply string_app_inv_tail. exact H.
Qed.

Lemma test_dirs_distinct_witness :
  _get_test_dir scenario_layout lead
  = "/scratch/tests/SMS.f09_g16.A.G.20240101_120000" /\
  (_get_test_dir scenario_layout lead = _get_test_dir scenario_layout follow ->
   lead = follow).
Proof.
  destruct (test_dirs_distinct scenario_layout lead follow) as (_ & _ & Hdir).
  split; [reflexivity|]. apply Hdir; reflexivity.
Defined.

(** ** Forced processor counts *)

Lemma prefix_nil (s : string) : String.prefix "" s = true.
Proof. destruct s; reflexivity. Qed.

Lemma prefix_app (a b : string) : String.prefix a (a +:+ b) = true.
Proof.
  induction a as [|c a IH]; [apply prefix_nil|].
  change (String c a +:+ b) with (String c (a +:+ b)).
  change (String.prefix (String c a) (String c (a +:+ b)))
    with (if Ascii.ascii_dec c c then String.prefix a (a +:+ b) else false).
  destruct (Ascii.ascii_dec c c) as [_|Hne]; [exact IH | destruct (Hne eq_refl)].
Qed.

Lemma string_app_nil_r (s : string) : s +:+ "" = s.
Proof.
  induction s as [|c s IH]; [reflexivity|].
  change (String c s +:+ "") with (String c (s +:+ "")). rewrite IH. reflexivity.
Qed.

Lemma format_popt_shape (procs : pecount) (thrds : option pecount) :
  is_popt (format_popt procs thrds) = true /\
  String.prefix ("P" +:+ format_pe procs) (format_popt procs thrds) = true /\
  (forall t, thrds = Some t ->
     format_popt procs thrds = "P" +:+ format_pe procs +:+ "x" +:+ format_pe t).
Proof.
  split; [|split].
  - unfold is_popt. destruct thrds; apply (prefix_app "P").
  - destruct thrds as [t|]; unfold format_popt.
    + change ("P" +:+ format_pe procs +:+ "x" +:+ format_pe t)
        with (("P" +:+ format_pe procs) +:+ "x" +:+ format_pe t).
      apply prefix_app.
    + rewrite <- (string_app_nil_r ("P" +:+ format_pe procs)) at 2.
      apply prefix_app.
  - intros t ->. reflexivity.
Qed.

Lemma rewrite_popt_shape (fp ft : option pecount) (c new : string) :
  rewrite_popt fp ft c = Val new ->
  is_popt new = true /\
  (forall f, fp = Some f -> String.prefix ("P" +:+ format_pe f) new = true) /\
  (forall t, ft = Some t ->
     exists procs, new = "P" +:+ procs +:+ "x" +:+ format_pe t).
Proof.
  unfold rewrite_popt.
  destruct (if str_contains "x" (str_tail c) then _ else _) as [old|e];
    [|discriminate].
  simpl. intros [= <-].
  set (procs := match fp with Some f => f | None => PeStr old.1 end).
  set (thrds := match ft with Some f => Some f | None => PeStr <$> old.2 end).
  destruct (format_popt_shape procs thrds) as (H1 & H2 & H3).
  split; [exact H1|]. split.
  - intros f ->. exact H2.
  - intros t ->. exists (format_pe procs). apply H3. reflexivity.
Qed.

Lemma rewrite_first_none (fp ft : option pecount) (l : list string) :
  rewrite_first_popt fp ft l = Val None -> existsb is_popt l = false.
Proof.
  induction l as [|c l IH]; simpl; [reflexivity|].
  destruct (is_popt c).
  - destruct (rewrite_popt fp ft c); discriminate.
  - destruct (rewrite_first_popt fp ft l) as [[r|]|e]; simpl; try discriminate.
    intros _. apply IH. reflexivity.
Qed.

Lemma rewrite_first_some (fp ft : option pecount) (l l' : list string) :
  rewrite_first_popt fp ft l = Val (Some l') ->
  exists pre c post new,
    l = pre ++ c :: post /\ existsb is_popt pre = false /\ is_popt c = true /\
    rewrite_popt fp ft c = Val new /\ l' = pre ++ new :: post.
Proof.
  revert l'. induction l as [|c l IH]; simpl; intros l'; [discriminate|].
  destruct (is_popt c) eqn:Hc.
  - destruct (rewrite_popt fp ft c) as [new|e] eqn:Hn; [|discriminate].
    simpl. intros [= <-]. exists [], c, l, new. auto.
  - destruct (rewrite_first_popt fp ft l) as [[r|]|e]; simpl; try discriminate.
    intros [= <-].
    destruct (IH r eq_refl) as (pre & c' & post & new & -> & Hpre & Hc' & Hn & ->).
    exists (c :: pre), c', post, new. simpl. rewrite Hc. auto.
Qed.

Lemma filter_no_popt (l : list string) :
  existsb is_popt l = false ->
  List.filter is_popt l = [] /\
  List.filter (fun c => negb (is_popt c)) l = l /\ List.find is_popt l = None.
Proof.
  induction l as [|c l IH]; simpl; [auto|].
  destruct (is_popt c); simpl; [discriminate|].
  intros H. destruct (IH H) as (-> & -> & ->). auto.
Qed.

(** X17.  Rewriting the options of one test name keeps the options that do
    not start with "P", in their order; the result has one P option where
    there was none and as many as before otherwise; its first P option
    begins with the forced processor count when one is given and ends with
    "x" and the forced thread count when one is given; and the forced
    processor count handed to the next test name is unchanged when a P
    option was rewritten, and is the given one or else "M" otherwise. *)
Theorem translate_caseopts_effect (fp ft : option pecount)
    (opts : option (list string)) (opts' : list string) (fp' : option pecount) :
  translate_caseopts fp ft opts = Val (opts', fp') ->
  List.filter (fun c => negb (is_popt c)) opts'
  = List.filter (fun c => negb (is_popt c)) (default [] opts) /\
  length (List.filter is_popt opts')
  = Nat.max 1 (length (List.filter is_popt (default [] opts))) /\
  (exists new,
     List.find is_popt opts' = Some new /\
     (forall f, fp = Some f -> String.prefix ("P" +:+ format_pe f) new = true) /\
     (forall t, ft = Some t ->
        exists procs, new = "P" +:+ procs +:+ "x" +:+ format_pe t)) /\
  fp' = (if existsb is_popt (default [] opts) then fp
         else Some (default (PeStr "M") fp)).
Proof.
  unfold translate_caseopts.
  destruct (match opts with Some l => _ | None => _ end)
    as [[l'|]|e] eqn:Hr; simpl; [| |discriminate].
  - intros [= <- <-]. destruct opts as [l|]; [|discriminate].
    destruct (rewrite_first_some _ _ _ _ Hr)
      as (pre & c & post & new & -> & Hpre & Hc & Hn & ->).
    destruct (rewrite_popt_shape _ _ _ _ Hn) as (Hnew & Hf & Ht).
    destruct (filter_no_popt pre Hpre) as (Hp1 & Hp2 & Hp3).
    simpl. rewrite !List.filter_app, Hp1, Hp2. simpl. rewrite Hc, Hnew. simpl.
    rewrite existsb_app, Hpre. simpl. rewrite Hc.
    split; [reflexivity|]. split; [|split; [|reflexivity]].
    { simpl. lia. }
    exists new. split; [|split; assumption].
    clear -Hpre Hnew. induction pre as [|x pre IH]; simpl in *.
    + rewrite Hnew. reflexivity.
    + destruct (is_popt x); [discriminate|]. apply IH. exact Hpre.
  - intros [= <- <-].
    set (procs := match fp with Some f => f | None => PeStr "M" end).
    destruct (format_popt_shape procs ft) as (Hnew & Hf & Ht).
    assert (Hno : existsb is_popt (default [] opts) = false).
    { destruct opts as [l|]; [|reflexivity]. eapply rewrite_first_none, Hr. }
    destruct (filter_no_popt _ Hno) as (Hp1 & Hp2 & Hp3).
    rewrite Hno.
    assert (Happ : match opts with None => [format_popt procs ft]
                   | Some l => l ++ [format_popt procs ft] end
                   = default [] opts ++ [format_popt procs ft])
      by (destruct opts; reflexivity).
    rewrite Happ, !List.filter_app, Hp1, Hp2. simpl. rewrite Hnew. simpl.
    split; [rewrite app_nil_r; reflexivity|].
    split; [reflexivity|]. split.
    + exists (format_popt procs ft). split; [|split].
      * clear -Hno Hnew. induction (default [] opts) as [|x l IH]; simpl in *.
        -- rewrite Hnew. reflexivity.
        -- destruct (is_popt x); [discriminate|]. apply IH. exact Hno.
      * intros f ->. exact Hf.
      * intros t ->. exists (format_pe procs). apply Ht. reflexivity.
    + destruct fp; reflexivity.
Qed.

Lemma translate_caseopts_effect_witness :
  translate_caseopts None (Some (PeInt 2)) (Some ["Ld3"; "P4x1"; "P8"])
  = Val (["Ld3"; "P4x2"; "P8"], None) /\
  exists new procs,
    List.find is_popt ["Ld3"; "P4x2"; "P8"] = Some new /\
    new = "P" +:+ procs +:+ "x" +:+ format_pe (PeInt 2).
Proof.
  split; [reflexivity|].
  destruct (translate_caseopts_effect None (Some (PeInt 2))
              (Some ["Ld3"; "P4x1"; "P8"]) ["Ld3"; "P4x2"; "P8"] None eq_refl)
    as (_ & _ & (new & Hfind & _ & Ht) & _).
  destruct (Ht (PeInt 2) eq_refl) as (procs & Hnew).
  exists new, procs. split; [exact Hfind | exact Hnew].
Defined.

Lemma rewrite_first_no_popt (fp ft : option pecount) (l : list string) :
  existsb is_popt l = false -> rewrite_first_popt fp ft l = Val None.
Proof.
  induction l as [|c l IH]; simpl; [reflexivity|].
  destruct (is_popt c); simpl; [discriminate|].
  intros H. rewrite (IH H). reflexivity.
Qed.

Lemma translate_caseopts_no_popt (fp ft : option pecount)
    (opts : option (list string)) :
  existsb is_popt (default [] opts) = false ->
  translate_caseopts fp ft opts
  = Val (default [] opts ++ [format_popt (default (PeStr "M") fp) ft],
         Some (default (PeStr "M") fp)).
Proof.
  intros H. unfold translate_caseopts. destruct opts as [l|]; simpl in *.
  - rewrite (rewrite_first_no_popt fp ft l H). destruct fp; reflexivity.
  - destruct fp; reflexivity.
Qed.

Lemma translate_caseopts_popt (fp ft : option pecount)
    (opts : option (list string)) (r : list string * option pecount) :
  existsb is_popt (default [] opts) = true ->
  translate_caseopts fp ft opts = Val r -> r.2 = fp.
Proof.
  intros H. unfold translate_caseopts.
  destruct (match opts with Some l => _ | None => _ end)
    as [[l'|]|e] eqn:Hr; simpl; [| |discriminate].
  - intros [= <-]. reflexivity.
  - destruct opts as [l|]; [|discriminate].
    apply rewrite_first_none in Hr. simpl in H. congruence.
Qed.

Lemma res_bind_val {A} (r : res A) : (let? a := r in Val a) = r.
Proof. destruct r; reflexivity. Qed.

(** X18.  With no forced processor count, the test names up to the first one
    without a P option keep their own processor counts, and that name and
    every name after it are translated as with the forced processor count
    "M": the "M" put on the first name without a P option stays in force
    for the rest of the list. *)
Theorem force_procs_sticks (parse_test_name : string -> res ParsedName)
    (get_full_test_name : ParsedName -> res string)
    (pre : list string) (t : string) (post : list string)
    (force_threads : option pecount) :
  Forall (fun n => has_popt parse_test_name n = true) pre ->
  has_popt parse_test_name t = false ->
  _translate_test_names_for_new_pecount parse_test_name get_full_test_name
    (pre ++ t :: post) None force_threads
  = let? a := _translate_test_names_for_new_pecount parse_test_name
                get_full_test_name pre None force_threads in
    let? b := _translate_test_names_for_new_pecount parse_test_name
                get_full_test_name (t :: post) (Some (PeStr "M")) force_threads in
    Val (a ++ b).
Proof.
  intros Hpre Ht.
  assert (Hbase :
    _translate_test_names_for_new_pecount parse_test_name get_full_test_name
      (t :: post) None force_threads
    = _translate_test_names_for_new_pecount parse_test_name get_full_test_name
        (t :: post) (Some (PeStr "M")) force_threads).
  { simpl. unfold has_popt in Ht.
    destruct (parse_test_name t) as [p|e]; simpl; [|reflexivity].
    rewrite !(translate_caseopts_no_popt _ _ _ Ht). reflexivity. }
  set (B := _translate_test_names_for_new_pecount parse_test_name
              get_full_test_name (t :: post) (Some (PeStr "M")) force_threads)
    in *.
  clearbody B.
  induction Hpre as [|n pre Hn _ IH].
  - change ([] ++ t :: post) with (t :: post). rewrite Hbase. destruct B; reflexivity.
  - simpl ((n :: pre) ++ t :: post).
    cbn [_translate_test_names_for_new_pecount].
    unfold has_popt in Hn.
    destruct (parse_test_name n) as [q|e]; [|discriminate]. cbn [res_bind].
    destruct (translate_caseopts None force_threads (caseopts q)) as [r|e] eqn:Hr;
      cbn [res_bind]; [|reflexivity].
    rewrite (translate_caseopts_popt _ _ _ _ Hn Hr).
    destruct (get_full_test_name _); cbn [res_bind]; [|reflexivity].
    rewrite IH.
    destruct (_translate_test_names_for_new_pecount _ _ pre None _);
      cbn [res_bind]; [|reflexivity].
    destruct B; reflexivity.
Qed.

Lemma force_procs_sticks_witness :
  _translate_test_names_for_new_pecount scenario_parse scenario_full_name
    (["ERS_P8.f09_g16.A"] ++ "SMS.f09_g16.A" :: ["ERP_Ld3_P4x1.f09_g16.A"])
    None (Some (PeInt 2))
  = Val ["ERS_P8x2.f09_g16.A"; "SMS_PMx2.f09_g16.A"; "ERP_Ld3_PMx2.f09_g16.A"].
Proof.
  rewrite (force_procs_sticks scenario_parse scenario_full_name
             ["ERS_P8.f09_g16.A"] "SMS.f09_g16.A" ["ERP_Ld3_P4x1.f09_g16.A"]
             (Some (PeInt 2))).
  - reflexivity.
  - repeat constructor.
  - reflexivity.
Defined.

(** ** The create_newcase phase *)

Lemma prefix1 (c : Ascii.ascii) (s : string) :
  String.prefix (String c "") s
  = match s with String d _ => bool_decide (c = d) | EmptyString => false end.
Proof.
  destruct s as [|d s]; [reflexivity|].
  change (String.prefix (String c "") (String d s))
    with (if Ascii.ascii_dec c d then String.prefix "" s else false).
  destruct (Ascii.ascii_dec c d) as [->|Hne].
  - rewrite prefix_nil, bool_decide_true; reflexivity.
  - rewrite bool_decide_false; [reflexivity | exact Hne].
Qed.

Lemma case_opt_step_cases (v : CaseOptVars) (o : string) :
  (String.prefix "N" o = true ->
   case_opt_step v o
   = if is_one (ncpl v)
     then Val {| create_newcase_cmd :=
                   create_newcase_cmd v +:+ " --ninst " +:+ str_tail o;
                 mpilib := mpilib v; ninst := Some (str_tail o); ncpl := ncpl v;
                 driver := driver v |}
     else Err (CIMEError "Cannot combine _C and _N options")) /\
  (String.prefix "C" o = true ->
   case_opt_step v o
   = if is_one (ninst v)
     then Val {| create_newcase_cmd :=
                   create_newcase_cmd v +:+ " --ninst " +:+ str_tail o
                     +:+ " --multi-driver";
                 mpilib := mpilib v; ninst := ninst v; ncpl := Some (str_tail o);
                 driver := driver v |}
     else Err (CIMEError "Cannot combine _C and _N options")) /\
  (forall v', case_opt_step v o = Val v' ->
     (is_one (ninst v) = false -> is_one (ninst v') = false) /\
     (is_one (ncpl v) = false -> is_one (ncpl v') = false)).
Proof.
  unfold case_opt_step. rewrite !prefix1.
  destruct o as [|d o].
  { cbn. split; [discriminate|]. split; [discriminate|].
    intros v' [= <-]. split; intros H; exact H. }
  cbn [str_tail].
  split; [|split].
  - intros H. apply bool_decide_eq_true_1 in H. subst d. rewrite bool_decide_false by discriminate.
    rewrite bool_decide_true by reflexivity.
    destruct (is_one (ncpl v)); reflexivity.
  - intros H. apply bool_decide_eq_true_1 in H. subst d. rewrite !bool_decide_false by discriminate.
    rewrite bool_decide_true by reflexivity.
    destruct (is_one (ninst v)); reflexivity.
  - intros v'. unfold expect_res.
    repeat case_bool_decide;
      try destruct (is_one (ncpl v)) eqn:Hc; try destruct (is_one (ninst v)) eqn:Hn;
      simpl; intros Hstep; simplify_eq; simpl; split; intros; congruence.
Qed.

Lemma case_opts_loop_combine (v : CaseOptVars) (opts : list string) :
  (is_one (ninst v) = false \/ existsb (String.prefix "N") opts = true) ->
  (is_one (ncpl v) = false \/ existsb (String.prefix "C") opts = true) ->
  (is_one (ninst v) = true \/ is_one (ncpl v) = true) ->
  case_opts_loop v opts = Err (CIMEError "Cannot combine _C and _N options").
Proof.
  revert v. induction opts as [|o opts IH]; intros v HN HC Hinv; simpl in *.
  - destruct HN as [HN|HN], HC as [HC|HC], Hinv as [Hi|Hi]; congruence.
  - destruct (case_opt_step_cases v o) as (HstepN & HstepC & Hkeep).
    destruct (String.prefix "N" o) eqn:HoN.
    + rewrite (HstepN eq_refl). destruct (is_one (ncpl v)) eqn:Hc; [|reflexivity].
      simpl. apply IH; simpl; [left; reflexivity | | right; exact Hc].
      destruct HC as [HC|HC]; [congruence|].
      rewrite prefix1 in HoN. rewrite prefix1 in HC.
      destruct o as [|d o]; [discriminate|].
      apply bool_decide_eq_true in HoN. subst d.
      rewrite bool_decide_false in HC by discriminate. right. exact HC.
    + destruct (String.prefix "C" o) eqn:HoC.
      * rewrite (HstepC eq_refl). destruct (is_one (ninst v)) eqn:Hn; [|reflexivity].
        simpl. apply IH; simpl; [ | left; reflexivity | left; exact Hn].
        destruct HN as [HN|HN]; [congruence|]. right. exact HN.
      * simpl in HN, HC.
        destruct (case_opt_step v o) as [v'|e] eqn:Hstep.
        -- simpl. destruct (Hkeep v' eq_refl) as (Hk1 & Hk2).
           assert (Hsame : ninst v' = ninst v /\ ncpl v' = ncpl v).
           { revert Hstep. unfold case_opt_step. rewrite HoN, HoC.
             repeat case_match; intros; simplify_eq; simpl; auto. }
           destruct Hsame as (Hs1 & Hs2).
           apply IH; rewrite ?Hs1, ?Hs2; assumption.
        -- exfalso. revert Hstep. unfold case_opt_step. rewrite HoN, HoC.
           repeat case_match; discriminate.
Qed.

(** X19.  A test name whose options hold one that starts with "N" and one
    that starts with "C", in either order and whatever their values, does
    not get a case: the create_newcase phase raises "Cannot combine _C and
    _N options" before it runs any command or writes any log. *)
Theorem create_newcase_rejects_N_with_C (nc : Newcase) (test : string)
    (p : ParsedName) (case_opts : list string) (s : state) :
  parse_test_name nc test = Val p ->
  caseopts p = Some case_opts ->
  existsb (String.prefix "N") case_opts = true ->
  existsb (String.prefix "C") case_opts = true ->
  _create_newcase_phase nc test s
  = Exc (CIMEError "Cannot combine _C and _N options") s.
Proof.
  intros Hp Hopts HN HC. unfold _create_newcase_phase, bind, lift.
  rewrite Hp. unfold newcase_cmd_options. rewrite Hopts.
  rewrite case_opts_loop_combine; [reflexivity | right; exact HN | right; exact HC |].
  left. reflexivity.
Qed.

Lemma create_newcase_rejects_N_with_C_witness :
  _create_newcase_phase (scenario_newcase (Some ["CG"; "P4"; "N1"]) None) lead
    (scenario (CREATE_NEWCASE, PEND) (CREATE_NEWCASE, PEND))
  = Exc (CIMEError "Cannot combine _C and _N options") (scenario (CREATE_NEWCASE, PEND) (CREATE_NEWCASE, PEND)).
Proof.
  apply (create_newcase_rejects_N_with_C
           (scenario_newcase (Some ["CG"; "P4"; "N1"]) None) lead
           (scenario_parsed (Some ["CG"; "P4"; "N1"]) None) ["CG"; "P4"; "N1"]
           (scenario (CREATE_NEWCASE, PEND) (CREATE_NEWCASE, PEND))
           eq_refl eq_refl); reflexivity.
Defined.

(** X20.  When the test mods of a test name cannot be found, the
    create_newcase phase runs no command: it either raises on the options,
    or logs the error text in the test's log and returns (False, error). *)
Theorem create_newcase_missing_test_mods (nc : Newcase) (test : string)
    (p : ParsedName) (test_mods : list string) (msg : string) (s : state) :
  parse_test_name nc test = Val p ->
  testmods p = Some test_mods ->
  find_test_mods nc (_cime_driver nc) test_mods = Err (CIMEError msg) ->
  (exists e, newcase_cmd_options nc test p = Err e /\
             _create_newcase_phase nc test s = Exc e s) \/
  (let error := str_of_exn (env (cfg s)) (CIMEError msg) in
   _create_newcase_phase nc test s
   = Ret (false, error) (emit (EvTestLog test error) s)).
Proof.
  intros Hp Hmods Hfind. unfold _create_newcase_phase, bind, lift.
  rewrite Hp. destruct (newcase_cmd_options nc test p) as [v|e].
  - right. rewrite Hmods, Hfind. reflexivity.
  - left. exists e. split; reflexivity.
Qed.

Lemma create_newcase_missing_test_mods_witness :
  _create_newcase_phase (scenario_newcase (Some ["P4"]) (Some ["allactive-defaultio"]))
    lead (scenario (CREATE_NEWCASE, PEND) (CREATE_NEWCASE, PEND))
  = Ret (false, str_of_exn scenario_env (CIMEError "Could not locate test mods"))
      (emit (EvTestLog lead
               (str_of_exn scenario_env (CIMEError "Could not locate test mods")))
         (scenario (CREATE_NEWCASE, PEND) (CREATE_NEWCASE, PEND))).
Proof.
  destruct (create_newcase_missing_test_mods
              (scenario_newcase (Some ["P4"]) (Some ["allactive-defaultio"]))
              lead (scenario_parsed (Some ["P4"]) (Some ["allactive-defaultio"]))
              ["allactive-defaultio"] "Could not locate test mods"
              (scenario (CREATE_NEWCASE, PEND) (CREATE_NEWCASE, PEND)) eq_refl eq_refl eq_refl) as [(e & He & _)|H].
  - discriminate He.
  - exact H.
Defined.

Lemma str_contains_cons (pat : string) (c : Ascii.ascii) (s : string) :
  str_contains pat (String c s) = String.prefix pat (String c s) || str_contains pat s.
Proof. reflexivity. Qed.

Lemma str_contains_prefix (pat s : string) :
  String.prefix pat s = true -> str_contains pat s = true.
Proof.
  intros H. destruct s as [|c s].
  - change (str_contains pat "") with (String.prefix pat "" || false).
    rewrite H. reflexivity.
  - rewrite str_contains_cons, H. reflexivity.
Qed.

Lemma str_contains_app_r (pat a b : string) :
  str_contains pat b = true -> str_contains pat (a +:+ b) = true.
Proof.
  intros H. induction a as [|c a IH]; [exact H|].
  change (String c a +:+ b) with (String c (a +:+ b)).
  rewrite str_contains_cons, IH. apply orb_true_r.
Qed.

Lemma prefix_app_l (pat a b : string) :
  String.prefix pat a = true -> String.prefix pat (a +:+ b) = true.
Proof.
  revert a. induction pat as [|c pat IH]; intros a H; [apply prefix_nil|].
  destruct a as [|d a]; [discriminate H|].
  change (String d a +:+ b) with (String d (a +:+ b)).
  change (String.prefix (String c pat) (String d a))
    with (if Ascii.ascii_dec c d then String.prefix pat a else false) in H.
  change (String.prefix (String c pat) (String d (a +:+ b)))
    with (if Ascii.ascii_dec c d then String.prefix pat (a +:+ b) else false).
  destruct (Ascii.ascii_dec c d); [apply IH; exact H | discriminate H].
Qed.

Lemma str_contains_app_l (pat a b : string) :
  str_contains pat a = true -> str_contains pat (a +:+ b) = true.
Proof.
  induction a as [|c a IH]; intros H.
  - apply str_contains_prefix. apply (prefix_app_l pat "" b).
    change (str_contains pat "") with (String.prefix pat "" || false) in H.
    rewrite orb_false_r in H. exact H.
  - change (String c a +:+ b) with (String c (a +:+ b)).
    rewrite str_contains_cons in *. apply orb_true_iff in H as [H|H].
    + pose proof (prefix_app_l pat (String c a) b H) as Hp.
      change (String c a +:+ b) with (String c (a +:+ b)) in Hp.
      rewrite Hp. reflexivity.
    + rewrite (IH H). apply orb_true_r.
Qed.

Lemma case_opt_step_cmd (v v' : CaseOptVars) (o : string) :
  case_opt_step v o = Val v' ->
  (forall pat, str_contains pat (create_newcase_cmd v) = true ->
               str_contains pat (create_newcase_cmd v') = true) /\
  (String.prefix "N" o = true ->
   str_contains "--ninst" (create_newcase_cmd v') = true).
Proof.
  unfold case_opt_step, expect_res.
  destruct (String.prefix "M" o) eqn:HM.
  { intros [= <-]. simpl. split; [intros pat; apply str_contains_app_l|].
    rewrite prefix1 in *. destruct o as [|d o]; [discriminate|].
    apply bool_decide_eq_true_1 in HM. subst d. discriminate. }
  destruct (String.prefix "N" o) eqn:HN.
  { destruct (is_one (ncpl v)); [|discriminate]. simpl. intros [= <-]. simpl.
    split; [intros pat; apply str_contains_app_l|]. intros _.
    apply str_contains_app_r.
    change (" --ninst " +:+ str_tail o)
      with (" " +:+ ("--ninst" +:+ (" " +:+ str_tail o))).
    apply str_contains_app_r, str_contains_prefix, prefix_app. }
  split; [|discriminate]. revert H.
  destruct (String.prefix "C" o).
  { destruct (is_one (ninst v)); [|discriminate]. simpl. intros [= <-]. simpl.
    intros pat. apply str_contains_app_l. }
  destruct (String.prefix "P" o).
  { intros [= <-]. simpl. intros pat. apply str_contains_app_l. }
  destruct (String.prefix "V" o); intros [= <-]; simpl; auto.
Qed.

Lemma case_opts_loop_cmd (v v' : CaseOptVars) (opts : list string) :
  case_opts_loop v opts = Val v' ->
  (forall pat, str_contains pat (create_newcase_cmd v) = true ->
               str_contains pat (create_newcase_cmd v') = true) /\
  (existsb (String.prefix "N") opts = true ->
   str_contains "--ninst" (create_newcase_cmd v') = true).
Proof.
  revert v. induction opts as [|o opts IH]; simpl; intros v.
  - intros [= <-]. split; [auto | discriminate].
  - destruct (case_opt_step v o) as [v1|e] eqn:Hstep; [|discriminate]. simpl.
    intros Hloop. destruct (case_opt_step_cmd _ _ _ Hstep) as (Hmono1 & HN1).
    destruct (IH _ Hloop) as (Hmono & HN).
    split; [intros pat Hpat; apply Hmono, Hmono1, Hpat|].
    intros [Ho|Hrest]%orb_true_iff; [apply Hmono, HN1, Ho | apply HN, Hrest].
Qed.

(** X21.  For the nuopc driver the create_newcase phase never gets as far
    as its command with "--ninst" in it and no "--multi-driver": a test
    name with an option that starts with "N" is refused unless the text
    "--multi-driver" occurs in the command. *)
Theorem create_newcase_nuopc_ninst (nc : Newcase) (test : string)
    (p : ParsedName) (v : CaseOptVars) :
  newcase_cmd_options nc test p = Val v ->
  driver v = "nuopc" ->
  (str_contains "--ninst" (create_newcase_cmd v) = true ->
   str_contains "--multi-driver" (create_newcase_cmd v) = true) /\
  (forall case_opts, caseopts p = Some case_opts ->
     existsb (String.prefix "N") case_opts = true ->
     str_contains "--multi-driver" (create_newcase_cmd v) = true).
Proof.
  unfold newcase_cmd_options.
  set (cmd0 := _ +:+ " --srcroot " +:+ get_src_root nc).
  set (v0 := {| create_newcase_cmd := cmd0; mpilib := None; ninst := None;
                ncpl := None; driver := _cime_driver nc |}).
  destruct (match caseopts p with Some l => case_opts_loop v0 l | None => Val v0 end)
    as [v1|e] eqn:Hloop; [|discriminate].
  simpl. set (cmd := create_newcase_cmd v1 +:+ " --driver " +:+ driver v1).
  intros Hv Hd.
  assert (Hcheck : str_contains "--ninst" cmd = true ->
                   str_contains "--multi-driver" cmd = true /\ v = 
                   {| create_newcase_cmd := cmd; mpilib := mpilib v1;
                      ninst := ninst v1; ncpl := ncpl v1; driver := driver v1 |}).
  { intros Hn. rewrite Hn in Hv. simpl in Hv.
    destruct (str_contains "--multi-driver" cmd) eqn:Hm; simpl in Hv.
    - split; [reflexivity | congruence].
    - assert (Hdrv : str_contains "--driver nuopc" cmd = true).
      { assert (driver v1 = "nuopc") as Hd1.
        { destruct (_ || _) in Hv; [discriminate|]. simpl in Hv.
          injection Hv as <-. exact Hd. }
        unfold cmd. rewrite Hd1. apply str_contains_app_r. reflexivity. }
      rewrite Hdrv in Hv. discriminate. }
  assert (Hcmd : create_newcase_cmd v = cmd).
  { revert Hv. repeat case_match; simpl; intros Hv; try discriminate Hv;
      injection Hv as <-; reflexivity. }
  rewrite Hcmd. split.
  - intros Hn. apply Hcheck, Hn.
  - intros case_opts Hopts HN. apply Hcheck.
    rewrite Hopts in Hloop. destruct (case_opts_loop_cmd _ _ _ Hloop) as (_ & Hninst).
    unfold cmd. apply str_contains_app_l, Hninst, HN.
Qed.

Lemma create_newcase_nuopc_ninst_witness :
  newcase_cmd_options (scenario_newcase (Some ["C2"; "Vnuopc"]) None) lead
    (scenario_parsed (Some ["C2"; "Vnuopc"]) None)
  = Val (newcase_vars_C2) /\
  str_contains "--multi-driver" (create_newcase_cmd newcase_vars_C2) = true.
Proof.
  split; [reflexivity|].
  apply (create_newcase_nuopc_ninst (scenario_newcase (Some ["C2"; "Vnuopc"]) None)
           lead (scenario_parsed (Some ["C2"; "Vnuopc"]) None) newcase_vars_C2
           eq_refl eq_refl).
  reflexivity.
Defined.
